(** * Content-to-layout pipeline of the infographic backend

    A shallow embedding of the four components of the pipeline
    (content analysis in [main.py], icon ranking in
    [services/vector_db.py], the template store in
    [services/template_service.py] and the layout mapper in
    [services/infographic_generator.py]) together with the
    properties of the specification that are checked against them.

    Modelling conventions.
    - Python [str] is [string]: the characters are the first 256 code
      points (Latin-1), and [str.lower], [str.isspace], [\d] and [\s]
      are given on them.
    - Python [dict]s with a fixed set of possible keys are records whose
      fields are [option]s: [None] is an absent key, and [d.get(k, v)]
      is [default v (field d)].  Dictionaries keyed by data are [gmap]s.
    - Python [int] is [Z] (lengths and indices are [nat]); Python
      [float] is an IEEE double; a finite one is modelled by its
      value in [Q], and the addition of the icon score rounds to the
      nearest double ([Py.float_add]).
    - A function that can raise returns an [option]; [None] is the
      raised exception, caught where the source catches it. *)

From Stdlib Require Import ZArith QArith Ascii String DecimalString.
From stdpp Require Import gmap strings list sorting.

Local Open Scope Z_scope.
Local Open Scope nat_scope.

(** ** Python primitives used by the pipeline *)
Module Py.

(** [c.isspace()] and the class [\s]: TAB..CR, FS..US, the space,
    NEXT LINE (133) and NO-BREAK SPACE (160). *)
Definition isspace (c : ascii) : bool :=
  let n := nat_of_ascii c in
  ((9 <=? n) && (n <=? 13)) || ((28 <=? n) && (n <=? 32))
  || (n =? 133) || (n =? 160).

(** The class [\d]: the ten digits are the only decimal digits among
    the first 256 code points. *)
Definition isdigit (c : ascii) : bool :=
  let n := nat_of_ascii c in (48 <=? n) && (n <=? 57).

(** [c.lower()]: the letters A..Z, and the accented capitals 192..222
    without the multiplication sign 215. *)
Definition lower_char (c : ascii) : ascii :=
  let n := nat_of_ascii c in
  if ((65 <=? n) && (n <=? 90))
     || ((192 <=? n) && (n <=? 222) && negb (n =? 215))
  then ascii_of_nat (n + 32) else c.

(** [s.lower()] *)
Fixpoint lower (s : string) : string :=
  match s with
  | EmptyString => EmptyString
  | String c t => String (lower_char c) (lower t)
  end.

(** [needle in hay] for two strings. *)
Fixpoint contains (needle hay : string) : bool :=
  String.prefix needle hay ||
  match hay with
  | EmptyString => false
  | String _ t => contains needle t
  end.

(** The double-quote character, code 34. *)
Definition quotation_mark : ascii := "034"%char.

(** [c in s] for a one-character needle. *)
Definition contains_char (c : ascii) (s : string) : bool :=
  contains (String c EmptyString) s.

(** [s.split(sep)] for a one-character separator: never empty. *)
Fixpoint split_char (sep : ascii) (s : string) : list string :=
  match s with
  | EmptyString => [EmptyString]
  | String c t =>
      if Ascii.eqb c sep then EmptyString :: split_char sep t
      else match split_char sep t with
           | h :: r => String c h :: r
           | [] => [String c EmptyString]
           end
  end.

Fixpoint lstrip (s : string) : string :=
  match s with
  | EmptyString => EmptyString
  | String c t => if isspace c then lstrip t else s
  end.

Fixpoint rstrip (s : string) : string :=
  match s with
  | EmptyString => EmptyString
  | String c t =>
      match rstrip t with
      | EmptyString => if isspace c then EmptyString else String c EmptyString
      | r => String c r
      end
  end.

(** [s.strip()] *)
Definition strip (s : string) : string := rstrip (lstrip s).

(** [s.split()]: the maximal runs of non-blank characters.  [cur] is
    the run being read, in reverse. *)
Fixpoint split_ws_from (cur : string) (s : string) : list string :=
  let flush := match cur with
               | EmptyString => []
               | _ => [String.rev cur]
               end in
  match s with
  | EmptyString => flush
  | String c t =>
      if isspace c then flush ++ split_ws_from EmptyString t
      else split_ws_from (String c cur) t
  end.

Definition split_ws (s : string) : list string := split_ws_from EmptyString s.

(** [s.replace(c, '')] for a one-character [c]. *)
Fixpoint remove_char (c : ascii) (s : string) : string :=
  match s with
  | EmptyString => EmptyString
  | String d t => if Ascii.eqb d c then remove_char c t else String d (remove_char c t)
  end.

(** [s[:n]] *)
Definition slice_to (n : nat) (s : string) : string := String.substring 0 n s.

(** [s[n:]] *)
Fixpoint slice_from (n : nat) (s : string) : string :=
  match n, s with
  | O, _ => s
  | S _, EmptyString => EmptyString
  | S m, String _ t => slice_from m t
  end.

(** [sep.join(l)] *)
Definition join (sep : string) (l : list string) : string := String.concat sep l.

(** [str(n)] for an [int]. *)
Definition str_of_Z (n : Z) : string := NilEmpty.string_of_int (Z.to_int n).
Definition str_of_nat (n : nat) : string := str_of_Z (Z.of_nat n).

(** [int(s)] for a non-empty string of digits.  [int] raises
    [ValueError] on a string of more than [int_max_str_digits] digits,
    leading zeros included; [int_of_digits] is its value on the strings
    it accepts. *)
Definition int_max_str_digits : nat := 4300.

Definition int_accepts (s : string) : bool := String.length s <=? int_max_str_digits.

Definition int_of_digits (s : string) : Z :=
  fold_left (fun acc c => (10 * acc + Z.of_nat (nat_of_ascii c - 48))%Z)
            (list_ascii_of_string s) 0%Z.

(** *** Floats

    A finite double is modelled by its value.  [round_float x] is the
    double nearest to the rational [x], ties going to the even
    significand: 53 bits of precision, exponents down to the
    subnormal -1074.  Overflow to infinity is not modelled: in the
    additions below it needs an integer beyond 2^969. *)

(** The integer part of the binary logarithm of [n / d]. *)
Definition floor_log2 (n d : positive) : Z :=
  let k := (Z.log2 (Zpos n) - Z.log2 (Zpos d))%Z in
  if (0 <=? k)%Z
  then (if (Zpos d * 2 ^ k <=? Zpos n)%Z then k else k - 1)%Z
  else (if (Zpos d <=? Zpos n * 2 ^ (- k))%Z then k else k - 1)%Z.

(** [p / q] rounded to the nearest integer, ties to even. *)
Definition round_half_even (p q : Z) : Z :=
  let f := (p / q)%Z in
  match (2 * (p mod q) ?= q)%Z with
  | Lt => f
  | Gt => (f + 1)%Z
  | Eq => if Z.even f then f else (f + 1)%Z
  end.

(** [m * 2^e] *)
Definition scaled (m e : Z) : Q :=
  if (0 <=? e)%Z then inject_Z (m * 2 ^ e) else Qmake m (2 ^ Z.to_pos (- e)).

Definition round_pos (n d : positive) : Q :=
  let e := Z.max (floor_log2 n d - 52) (-1074) in
  let m := if (0 <=? e)%Z then round_half_even (Zpos n) (Zpos d * 2 ^ e)
           else round_half_even (Zpos n * 2 ^ (- e)) (Zpos d) in
  scaled m e.

Definition round_float (x : Q) : Q :=
  match Qnum x with
  | Z0 => 0%Q
  | Zpos n => round_pos n (Qden x)
  | Zneg n => (- round_pos n (Qden x))%Q
  end.

(** The double that a decimal literal denotes. *)
Definition float_literal (x : Q) : Q := round_float x.

(** [float(n)] for an [int], as [int + float] converts its left
    operand. *)
Definition float_of_int (n : Z) : Q := round_float (inject_Z n).

(** [a + b] for two floats. *)
Definition float_add (a b : Q) : Q := round_float (a + b).

(** *** The percentage pattern

    [re.search(r'(\d+)%|(\d+)\s*percent', s, re.IGNORECASE)].
    At a given start the two alternatives are tried in order; both
    begin with the greedy [\d+].  Giving back digits never helps:
    the character after a shorter run is a digit, which is neither
    [%], a blank, nor [p].  Giving back blanks never helps either.
    So a match at a position exists exactly when the maximal digit
    run is non-empty and is followed by [%], or by blanks and then
    the letters of "percent" in any case; the group that took part
    in the match holds the maximal digit run. *)
Fixpoint span_digits (s : string) : string * string :=
  match s with
  | EmptyString => (EmptyString, EmptyString)
  | String c t =>
      if isdigit c then let '(ds, rest) := span_digits t in (String c ds, rest)
      else (EmptyString, s)
  end.

Definition percent_match_at (s : string) : option string :=
  match span_digits s with
  | (EmptyString, _) => None
  | (ds, rest) =>
      if String.prefix "%" rest then Some ds
      else if String.prefix "percent" (lower (lstrip rest)) then Some ds
      else None
  end.

(** The leftmost match; the result is
    [m.group(1) or m.group(2)]. *)
Fixpoint percent_search (s : string) : option string :=
  match percent_match_at s with
  | Some g => Some g
  | None =>
      match s with
      | EmptyString => None
      | String _ t => percent_search t
      end
  end.

End Py.

(** ** The content analysis record ([main.py])

    The dictionary produced by the two analysis paths and consumed by
    the layout mapper.  On the language-model path it is whatever JSON
    object the model returned, so every key may be absent. *)
Record Stat := {
  st_label : option string;
  st_value : option string;
  st_percentage : option Z
}.

Record Analysis := {
  mainTitle : option string;
  keyPoints : option (list string);
  statistics : option (list Stat);
  quotes : option (list string);
  category : option string;
  summary : option string;
  wordCount : option nat;
  transcriptLength : option nat;
  icons : option (list string)
}.

Module Main.

(** *** [get_content_icons] *)

(** A value of the [icon_keywords] table: one icon name, or the list
    of default icons of a category. *)
Inductive IconEntry :=
| One (icon : string)
| Many (defaults : list string).

(** A dict display [{k1: v1, k2: v2, ...}]: items are inserted left
    to right; a repeated key keeps its first position and takes the
    last value. *)
Fixpoint dict_set (k : string) (v : IconEntry) (d : list (string * IconEntry))
  : list (string * IconEntry) :=
  match d with
  | [] => [(k, v)]
  | (k', v') :: r => if String.eqb k' k then (k', v) :: r else (k', v') :: dict_set k v r
  end.

Definition dict_display (items : list (string * IconEntry)) : list (string * IconEntry) :=
  fold_left (fun d kv => dict_set kv.1 kv.2 d) items [].

Fixpoint dict_get (k : string) (d : list (string * IconEntry)) : option IconEntry :=
  match d with
  | [] => None
  | (k', v) :: r => if String.eqb k' k then Some v else dict_get k r
  end.

Definition icon_keywords : list (string * IconEntry) :=
  dict_display [
    ("growth", One "TrendingUp"); ("profit", One "DollarSign");
    ("revenue", One "BarChart3"); ("market", One "Target");
    ("strategy", One "Lightbulb"); ("team", One "Users");
    ("leadership", One "Crown"); ("success", One "Award");
    ("goal", One "Flag"); ("performance", One "Activity");
    ("ai", One "Brain"); ("data", One "Database");
    ("digital", One "Smartphone"); ("automation", One "Zap");
    ("innovation", One "Rocket"); ("software", One "Code");
    ("security", One "Shield"); ("cloud", One "Cloud");
    ("learn", One "BookOpen"); ("education", One "GraduationCap");
    ("skill", One "Star"); ("knowledge", One "Brain");
    ("training", One "Users"); ("development", One "TrendingUp");
    ("health", One "Heart"); ("fitness", One "Activity");
    ("nutrition", One "Apple"); ("wellness", One "Smile");
    ("exercise", One "Dumbbell");
    ("communication", One "MessageCircle"); ("social", One "Users");
    ("network", One "Share2"); ("community", One "Users");
    ("collaboration", One "Handshake");
    ("time", One "Clock"); ("productivity", One "CheckCircle");
    ("efficiency", One "Zap"); ("organization", One "Calendar");
    ("planning", One "Map");
    ("business", Many ["Briefcase"; "TrendingUp"; "Target"; "Award"; "Users"]);
    ("education", Many ["BookOpen"; "GraduationCap"; "Lightbulb"; "Star"; "Brain"]);
    ("technology", Many ["Smartphone"; "Zap"; "Database"; "Code"; "Rocket"]);
    ("health", Many ["Heart"; "Activity"; "Shield"; "Smile"; "Apple"]);
    ("finance", Many ["DollarSign"; "BarChart3"; "TrendingUp"; "PieChart"; "CreditCard"])
  ].

(** The inner [for keyword, icon in icon_keywords.items()] with its
    [break]: the first string-valued entry whose key occurs in the
    point. *)
Fixpoint first_keyword_match (point_lower : string) (d : list (string * IconEntry))
  : option string :=
  match d with
  | [] => None
  | (keyword, One icon) :: r =>
      if Py.contains keyword point_lower then Some icon
      else first_keyword_match point_lower r
  | (_, Many _) :: r => first_keyword_match point_lower r
  end.

(** [category_icons[n % len(category_icons)]]; indexing a string
    gives the one-character string at that place. *)
Definition entry_at (e : IconEntry) (n : nat) : string :=
  match e with
  | One icon => String.substring (n mod String.length icon) 1 icon
  | Many l => default EmptyString (l !! (n mod length l))
  end.

Definition business_defaults : IconEntry :=
  default (Many []) (dict_get "business" icon_keywords).

Definition get_content_icons (key_points : list string) (category : string)
  : list string :=
  fold_left
    (fun selected_icons point =>
       let point_lower := Py.lower point in
       let matched_icon :=
         match first_keyword_match point_lower icon_keywords with
         | Some icon => icon
         | None =>
             let category_icons :=
               default business_defaults (dict_get category icon_keywords) in
             entry_at category_icons (length selected_icons)
         end in
       selected_icons ++ [matched_icon])
    key_points [].

(** [while len(l) < 5: l.append(filler)]; at most five rounds are
    ever needed. *)
Fixpoint pad_key_points (rounds : nat) (filler : string) (l : list string)
  : list string :=
  match rounds with
  | O => l
  | S n => if length l <? 5 then pad_key_points n filler (l ++ [filler]) else l
  end.

(** *** [analyze_with_openai]

    The chat completion and [json.loads] are external.  [chat] maps
    the (truncated) transcript, which the fixed prompt wraps, to the
    text of the first choice; [json_loads] returns the parsed object.
    For both, [None] is a raised exception: the call failed, or the
    text is not JSON.  The function re-raises, so its own [None] is
    an exception as well.

    The embedding covers the replies that are objects whose fields,
    where present, have the types of [Analysis].  The source does
    not check a reply: what it does with an object of another shape,
    which it may return as it is, lies outside the embedding. *)
Definition endswith (suffix s : string) : bool :=
  String.prefix (String.rev suffix) (String.rev s).

Definition strip_markdown (content : string) : string :=
  let content :=
    if String.prefix "```json" content then Py.slice_from 7 content else content in
  if endswith "```" content
  then Py.slice_to (String.length content - 3) content
  else content.

Definition analyze_with_openai
    (json_loads : string -> option Analysis)
    (chat : string -> option string) (transcript_text : string)
  : option Analysis :=
  let max_chars := 12000 in
  let transcript_text :=
    if max_chars <? String.length transcript_text
    then Py.slice_to max_chars transcript_text +:+ "..."
    else transcript_text in
  content ← chat transcript_text;
  let content := strip_markdown (Py.strip content) in
  result ← json_loads content;
  (* result["keyPoints"] raises KeyError when the key is absent *)
  key_points ← keyPoints result;
  let icons :=
    get_content_icons key_points (default "business" (category result)) in
  let key_points :=
    if length key_points <? 5
    then pad_key_points 5 "Additional insight from the video content" key_points
    else if 6 <? length key_points then take 6 key_points
    else key_points in
  Some {| mainTitle := mainTitle result;
          keyPoints := Some key_points;
          statistics := statistics result;
          quotes := quotes result;
          category := category result;
          summary := summary result;
          wordCount := Some (length (Py.split_ws transcript_text));
          transcriptLength := Some (String.length transcript_text);
          icons := Some icons |}.

(** *** [analyze_basic_content]

    The one call of the function that can raise is [int], on a
    located number of more than 4300 digits; nothing catches the
    [ValueError] here or in [analyze_transcript_content].
    [analyze_basic_content] is the value returned, and
    [basic_content_returns] tells whether the function returns. *)

Definition key_indicators : list string :=
  ["important"; "key"; "main"; "first"; "second"; "third"; "remember"; "crucial"].

(** One round of [for sentence in sentences[:30]] on the triple
    (key_points, statistics, quotes).  The source searches the
    percentage pattern twice, without and with groups; both searches
    find the same match. *)
Definition scan_sentence
    (acc : list string * list Stat * list string) (sentence : string)
  : list string * list Stat * list string :=
  let '(key_points, statistics, quotes) := acc in
  let sentence := Py.strip sentence in
  if String.length sentence <? 10 then acc
  else
    let statistics :=
      match Py.percent_search sentence with
      | Some digits =>
          let percentage := Py.int_of_digits digits in
          statistics ++
            [ {| st_label :=
                   Some (if 40 <? String.length sentence
                         then Py.slice_to 40 sentence +:+ "..."
                         else sentence);
                 st_value := Some (Py.str_of_Z percentage +:+ "%");
                 st_percentage := Some (Z.min percentage 100) |} ]
      | None => statistics
      end in
    let key_points :=
      if existsb (fun indicator => Py.contains indicator (Py.lower sentence))
                 key_indicators
      then if String.length sentence <=? 120 then key_points ++ [sentence]
           else key_points
      else key_points in
    let quotes :=
      if Py.contains_char Py.quotation_mark sentence
      then quotes ++ [Py.remove_char Py.quotation_mark sentence]
      else quotes in
    (key_points, statistics, quotes).

Definition analyze_basic_content (transcript_text : string) : Analysis :=
  let sentences := Py.split_char "." transcript_text in
  let word_count := length (Py.split_ws transcript_text) in
  let '(key_points, statistics, quotes) :=
    fold_left scan_sentence (take 30 sentences) ([], [], []) in
  let clean_sentences :=
    Py.strip <$> filter (fun s => 10 < String.length (Py.strip s)) (take 5 sentences) in
  let main_title :=
    match clean_sentences with
    | s :: _ => Py.slice_to 80 s
    | [] => "Video Content Summary"
    end in
  let key_points :=
    match key_points with
    | [] =>
        let meaningful_sentences :=
          Py.strip <$>
            filter (fun s => 15 < String.length (Py.strip s)
                             /\ String.length (Py.strip s) <= 120)
                   (take 7 (drop 1 sentences)) in
        take 6 meaningful_sentences
    | _ => key_points
    end in
  let key_points :=
    pad_key_points 5 "Key insight extracted from video content" key_points in
  let key_points :=
    if 6 <? length key_points then take 6 key_points else key_points in
  let statistics :=
    match statistics with
    | [] =>
        [ {| st_label := Some "Video Content Analysis";
             st_value := Some (Py.str_of_nat word_count +:+ " words");
             st_percentage := Some (Z.min (Z.of_nat (word_count / 20)) 100) |};
          {| st_label := Some "Key Points Identified";
             st_value := Some (Py.str_of_nat (length key_points));
             st_percentage := Some (Z.of_nat (length key_points * 15)) |} ]
    | _ => statistics
    end in
  {| mainTitle := Some main_title;
     keyPoints := Some key_points;
     statistics := Some (take 4 statistics);
     quotes := Some (take 2 quotes);
     category := Some "business";
     summary :=
       Some ("Analysis of video content covering "
             +:+ Py.str_of_nat (length key_points) +:+ " main topics");
     wordCount := Some word_count;
     transcriptLength := Some (String.length transcript_text);
     icons := Some (get_content_icons key_points "business") |}.

(** The located number that [int] rejects, if any: the first one in
    the scanned sentences. *)
Definition rejected_number (sentence : string) : option string :=
  let sentence := Py.strip sentence in
  if String.length sentence <? 10 then None
  else
    match Py.percent_search sentence with
    | Some digits => if Py.int_accepts digits then None else Some digits
    | None => None
    end.

Definition first_rejected_number (transcript_text : string) : option string :=
  list_find (fun r => bool_decide (is_Some r))
            (rejected_number <$> take 30 (Py.split_char "." transcript_text))
  ≫= snd.

Definition basic_content_returns (transcript_text : string) : bool :=
  match first_rejected_number transcript_text with
  | Some _ => false
  | None => true
  end.

(** [str(e)] for the [ValueError] of [int]. *)
Definition int_error_message (digits : string) : string :=
  "Exceeds the limit (4300 digits) for integer string conversion: value has "
  +:+ Py.str_of_nat (String.length digits)
  +:+ " digits; use sys.set_int_max_str_digits() to increase the limit".

(** *** [analyze_transcript_content]: the model when a client is
    configured and its analysis does not raise, the deterministic
    extractor otherwise.  The call returns when the model path does
    or the extractor does ([transcript_content_returns]). *)
Definition analyze_transcript_content
    (json_loads : string -> option Analysis)
    (openai_client : option (string -> option string)) (transcript_text : string)
  : Analysis :=
  match openai_client with
  | Some chat =>
      match analyze_with_openai json_loads chat transcript_text with
      | Some result => result
      | None => analyze_basic_content transcript_text
      end
  | None => analyze_basic_content transcript_text
  end.

Definition transcript_content_returns
    (json_loads : string -> option Analysis)
    (openai_client : option (string -> option string)) (transcript_text : string)
  : bool :=
  match openai_client with
  | Some chat =>
      match analyze_with_openai json_loads chat transcript_text with
      | Some _ => true
      | None => basic_content_returns transcript_text
      end
  | None => basic_content_returns transcript_text
  end.

(** *** [extract_video_id]

    The two patterns are searched in turn, each for its leftmost
    match; the result is group 1.  The identifier class is
    [[^&\n?#]]. *)
Definition id_char (c : ascii) : bool :=
  negb (Ascii.eqb c "&" || Ascii.eqb c "010" || Ascii.eqb c "?" || Ascii.eqb c "#").

(** The greedy [[^&\n?#]*] at the head of a string. *)
Fixpoint id_run (s : string) : string :=
  match s with
  | EmptyString => EmptyString
  | String c t => if id_char c then String c (id_run t) else EmptyString
  end.

(** [literal([^&\n?#]+)] matched at the head of [s]. *)
Definition literal_then_id (literal s : string) : option string :=
  if String.prefix literal s then
    match id_run (Py.slice_from (String.length literal) s) with
    | EmptyString => None
    | run => Some run
    end
  else None.

(** The first pattern at the head of [s]: its three alternatives in
    order. *)
Definition direct_match_at (s : string) : option string :=
  match literal_then_id "youtube.com/watch?v=" s with
  | Some g => Some g
  | None =>
      match literal_then_id "youtu.be/" s with
      | Some g => Some g
      | None => literal_then_id "youtube.com/embed/" s
      end
  end.

(** [.*v=([^&\n?#]+)] at the head of [s]: the greedy [.*] stops at a
    line feed and gives characters back one by one, so the longest
    skip that is followed by a match wins. *)
Fixpoint skip_then_v (s : string) : option string :=
  match s with
  | EmptyString => literal_then_id "v=" s
  | String c t =>
      if Ascii.eqb c "010" then literal_then_id "v=" s
      else match skip_then_v t with
           | Some g => Some g
           | None => literal_then_id "v=" s
           end
  end.

(** The second pattern at the head of [s]. *)
Definition query_match_at (s : string) : option string :=
  if String.prefix "youtube.com/watch?" s
  then skip_then_v (Py.slice_from (String.length "youtube.com/watch?") s)
  else None.

(** [re.search]: the match at the leftmost position that has one. *)
Fixpoint re_search (match_at : string -> option string) (s : string) : option string :=
  match match_at s with
  | Some g => Some g
  | None =>
      match s with
      | EmptyString => None
      | String _ t => re_search match_at t
      end
  end.

(** [None] is the raised [ValueError]. *)
Definition extract_video_id (url : string) : option string :=
  match re_search direct_match_at url with
  | Some g => Some g
  | None => re_search query_match_at url
  end.

(** *** [get_video_metadata] *)
Record VideoMetadata := {
  vm_id : string;
  vm_title : string;
  vm_duration : string;
  vm_description : string;
  vm_thumbnailUrl : string;
  vm_channelName : string
}.

Definition get_video_metadata (video_id : string) : VideoMetadata :=
  {| vm_id := video_id;
     vm_title := "YouTube Video " +:+ video_id;
     vm_duration := "Unknown";
     vm_description := "Video description";
     vm_thumbnailUrl :=
       "https://img.youtube.com/vi/" +:+ video_id +:+ "/maxresdefault.jpg";
     vm_channelName := "YouTube Channel" |}.

End Main.

(** ** Icon candidates

    The icon dictionaries built by the ranker and read by the layout
    mapper.  The mapper reads [keywords], [category] and
    [similarity_score] defensively, so each key may be absent. *)
Record Icon := {
  icon_id : option string;
  icon_name : option string;
  icon_category : option string;
  icon_keywords : option (list string);
  icon_description : option string;
  similarity_score : option Q;
  svg_path : option string
}.

(** ** [services/vector_db.py]: the class [VectorIconService] *)
Module VectorIconService.

(** The metadata stored with an indexed document; only these keys
    are read back. *)
Record Metadata := {
  md_name : option string;
  md_category : option string;
  md_keywords : option (list string)
}.

Definition empty_metadata : Metadata :=
  {| md_name := None; md_category := None; md_keywords := None |}.

(** What [collection.query] returns: one inner list per query text. *)
Record QueryResult := {
  ids : list (list string);
  metadatas : option (list (list Metadata));
  distances : option (list (list Q))
}.

(** The external similarity index: [query content where n_results];
    [None] is a raised exception. *)
Definition Collection : Type := string -> option string -> Z -> option QueryResult.

Definition dq : string := String Py.quotation_mark EmptyString.

(** [<circle cx=.12. cy=.12. r=.10. fill=.currentColor./>], each dot
    a double quote. *)
Definition circle_svg : string :=
  "<circle cx=" +:+ dq +:+ "12" +:+ dq +:+ " cy=" +:+ dq +:+ "12" +:+ dq
  +:+ " r=" +:+ dq +:+ "10" +:+ dq +:+ " fill=" +:+ dq +:+ "currentColor" +:+ dq
  +:+ "/>".

Definition _generate_svg_placeholder (name : string) : string := circle_svg.

Definition _get_fallback_icons (limit : Z) : list Icon :=
  (fun i : nat =>
     {| icon_id := Some ("fallback_" +:+ Py.str_of_nat i);
        icon_name := Some ("Icon " +:+ Py.str_of_nat (i + 1));
        icon_category := Some "general";
        icon_keywords := Some ["general"; "icon"];
        icon_description := Some ("Fallback icon " +:+ Py.str_of_nat (i + 1));
        similarity_score := Some (1 # 2)%Q;
        svg_path := Some circle_svg |})
  <$> seq 0 (Z.to_nat (Z.min limit 6)).

(** [rows[0][i] if rows else dflt]; indexing out of range raises. *)
Definition first_row_at {A} (rows : option (list (list A))) (i : nat) (dflt : A)
  : option A :=
  match rows with
  | Some (row :: _) => row !! i
  | Some [] | None => Some dflt
  end.

(** The body of [for i in range(len(results['ids'][0]))]. *)
Definition format_hit (results : QueryResult) (first_ids : list string) (i : nat)
  : option Icon :=
  metadata ← first_row_at (metadatas results) i empty_metadata;
  distance ← first_row_at (distances results) i 0%Q;
  id ← first_ids !! i;
  Some {| icon_id := Some id;
          icon_name := Some (default id (md_name metadata));
          icon_category := Some (default "general" (md_category metadata));
          icon_keywords := Some (default [] (md_keywords metadata));
          icon_description :=
            Some ("Icon for " +:+ default "content" (md_name metadata));
          similarity_score := Some (1 - distance)%Q;
          svg_path :=
            Some (_generate_svg_placeholder (default "icon" (md_name metadata))) |}.

Definition format_results (results : QueryResult) : option (list Icon) :=
  match ids results with
  | [] => Some []
  | first_ids :: _ => mapM (format_hit results first_ids) (seq 0 (length first_ids))
  end.

(** The exact-match filter on the category, [None] when [category]
    is falsy: the empty string is as false as [None]. *)
Definition where_filter (category : option string) : option string :=
  match category with
  | Some c => if String.eqb c EmptyString then None else Some c
  | None => None
  end.

(** [collection] is [None] when the index could not be initialised.
    Whatever is raised by the query or while formatting its hits is
    caught by the [except] clause. *)
Definition find_relevant_icons
    (collection : option Collection)
    (content : string) (category : option string) (limit : Z)
  : list Icon :=
  match collection with
  | None => []
  | Some query =>
      match query content (where_filter category) limit ≫= format_results with
      | Some icons => icons
      | None => _get_fallback_icons limit
      end
  end.

(** *** Metadata of an image file ([_add_image_batch])

    What the batch loader derives from the name of an image file
    without its extension.  The digest that ends the document id and
    the call that adds the batch to the index are external. *)
Definition image_keywords (name_without_ext : string) : list string :=
  let keywords :=
    (if Py.contains_char "_" name_without_ext
     then Py.split_char "_" name_without_ext else [])
    ++ (if Py.contains_char "-" name_without_ext
        then Py.split_char "-" name_without_ext else []) in
  (fun kw => Py.strip (Py.lower kw))
  <$> List.filter (fun kw => 2 <? String.length kw) keywords.

(** [category_keywords], in the order of the dict display. *)
Definition category_keywords : list (string * list string) :=
  [ ("business", ["business"; "office"; "work"; "corporate"; "meeting"; "deal";
                  "plan"; "analytics"]);
    ("technology", ["tech"; "computer"; "digital"; "ai"; "robot"; "code"; "data";
                    "cyber"]);
    ("education", ["education"; "school"; "learn"; "study"; "book"; "teacher";
                   "student"; "graduation"]);
    ("health", ["health"; "medical"; "doctor"; "hospital"; "medicine"; "fitness";
                "wellness"]);
    ("communication", ["chat"; "message"; "call"; "phone"; "email"; "social";
                       "network"]);
    ("finance", ["money"; "dollar"; "payment"; "bank"; "finance"; "credit";
                 "investment"]);
    ("transport", ["car"; "vehicle"; "transport"; "travel"; "journey"; "road";
                   "traffic"]);
    ("lifestyle", ["lifestyle"; "home"; "family"; "love"; "happy"; "celebration";
                   "party"]) ].

(** The loop over [category_keywords.items()] with its early return. *)
Fixpoint first_category (all_text : string) (table : list (string * list string))
  : string :=
  match table with
  | [] => "general"
  | (category, category_words) :: rest =>
      if existsb (fun word => Py.contains word all_text) category_words
      then category
      else first_category all_text rest
  end.

Definition _determine_category (filename : string) (keywords : list string) : string :=
  let filename_lower := Py.lower filename in
  let all_text := filename_lower +:+ " " +:+ Py.join " " keywords in
  first_category all_text category_keywords.

(** The document text that is embedded for an image. *)
Definition image_document (name_without_ext : string) : string :=
  let keywords := image_keywords name_without_ext in
  let category := _determine_category name_without_ext keywords in
  name_without_ext +:+ " " +:+ Py.join " " keywords +:+ " " +:+ category.

End VectorIconService.

(** ** [services/template_service.py] *)
Module TemplateService.

(** Rows of the three tables. *)
Record TemplateRow := {
  t_id : string;
  t_name : string;
  t_category : string;
  t_description : option string;
  t_s3_path : option string;
  t_width : Z;
  t_height : Z;
  t_created_at : string;
  t_updated_at : string
}.

Record CoordinateRow := {
  template_id : string;
  element_type : string;
  element_index : Z;
  x_coordinate : Z;
  y_coordinate : Z;
  width : Z;
  height : Z;
  icon_size : string
}.

Record ColorScheme := {
  scheme_name : string;
  primary_color : string;
  secondary_color : string;
  accent_color : string;
  background_color : string;
  text_color : string;
  is_default : bool
}.

Record Database := {
  templates : list TemplateRow;
  template_icon_coordinates : list CoordinateRow;
  template_color_schemes : list (string * ColorScheme)
}.

(** A coordinate slot as handed to the layout mapper. *)
Record Coord := {
  c_index : Z;
  c_x : Z;
  c_y : Z;
  c_width : Z;
  c_height : Z;
  c_icon_size : option string
}.

Record TemplateData := {
  td_template : TemplateRow;
  td_coordinates : gmap string (list Coord);
  td_color_schemes : list ColorScheme
}.

(** [ORDER BY element_type, element_index] *)
Definition coordinate_leb (r1 r2 : CoordinateRow) : bool :=
  match String.compare (element_type r1) (element_type r2) with
  | Lt => true
  | Eq => (element_index r1 <=? element_index r2)%Z
  | Gt => false
  end.

Definition order_by_type_index (rows : list CoordinateRow) : list CoordinateRow :=
  merge_sort (fun r1 r2 => Is_true (coordinate_leb r1 r2)) rows.

(** One round of the grouping loop over the fetched coordinates. *)
Definition group_coordinate (coordinates : gmap string (list Coord)) (coord : CoordinateRow)
  : gmap string (list Coord) :=
  <[ element_type coord :=
       default [] (coordinates !! element_type coord)
       ++ [ {| c_index := element_index coord;
               c_x := x_coordinate coord;
               c_y := y_coordinate coord;
               c_width := width coord;
               c_height := height coord;
               c_icon_size := Some (icon_size coord) |} ] ]> coordinates.

(** [db] is [None] when the connection cannot be opened; the result
    [None] is the empty dictionary the source returns. *)
Definition get_template_coordinates (db : option Database) (tid : string)
  : option TemplateData :=
  match db with
  | None => None
  | Some d =>
      match List.find (fun t => String.eqb (t_id t) tid) (templates d) with
      | None => None
      | Some template =>
          let coordinates :=
            order_by_type_index
              (List.filter (fun r => String.eqb (template_id r) tid)
                           (template_icon_coordinates d)) in
          let color_schemes :=
            snd <$> List.filter (fun r => String.eqb (fst r) tid)
                                (template_color_schemes d) in
          Some {| td_template := template;
                  td_coordinates := fold_left group_coordinate coordinates ∅;
                  td_color_schemes := color_schemes |}
      end
  end.

(** *** [save_template]

    The dictionary handed to [save_template].  Width, height and the
    two lists are read with a default; the other keys are required. *)
Record CoordinateInput := {
  ci_element_type : string;
  ci_element_index : Z;
  ci_x : Z;
  ci_y : Z;
  ci_width : option Z;
  ci_height : option Z
}.

Record ColorSchemeInput := {
  si_scheme_name : string;
  si_primary_color : string;
  si_secondary_color : string;
  si_accent_color : string;
  si_background_color : string;
  si_text_color : string;
  si_is_default : option bool
}.

Record TemplateInput := {
  ti_id : string;
  ti_name : string;
  ti_category : string;
  ti_description : string;
  ti_width : option Z;
  ti_height : option Z;
  ti_icon_coordinates : option (list CoordinateInput);
  ti_color_schemes : option (list ColorSchemeInput)
}.

(** The row inserted for a coordinate; [icon_size] takes the default
    of its column. *)
Definition coordinate_row (tid : string) (coord : CoordinateInput) : CoordinateRow :=
  {| template_id := tid;
     element_type := ci_element_type coord;
     element_index := ci_element_index coord;
     x_coordinate := ci_x coord;
     y_coordinate := ci_y coord;
     width := default 24%Z (ci_width coord);
     height := default 24%Z (ci_height coord);
     icon_size := "medium" |}.

Definition same_slot (r1 r2 : CoordinateRow) : bool :=
  String.eqb (template_id r1) (template_id r2)
  && String.eqb (element_type r1) (element_type r2)
  && (element_index r1 =? element_index r2)%Z.

(** [INSERT ... ON CONFLICT (template_id, element_type, element_index)
    DO UPDATE SET] the position and the size. *)
Fixpoint upsert_coordinate (row : CoordinateRow) (rows : list CoordinateRow)
  : list CoordinateRow :=
  match rows with
  | [] => [row]
  | r :: rest =>
      if same_slot r row
      then {| template_id := template_id r;
              element_type := element_type r;
              element_index := element_index r;
              x_coordinate := x_coordinate row;
              y_coordinate := y_coordinate row;
              width := width row;
              height := height row;
              icon_size := icon_size r |} :: rest
      else r :: upsert_coordinate row rest
  end.

Definition color_scheme_row (scheme : ColorSchemeInput) : ColorScheme :=
  {| scheme_name := si_scheme_name scheme;
     primary_color := si_primary_color scheme;
     secondary_color := si_secondary_color scheme;
     accent_color := si_accent_color scheme;
     background_color := si_background_color scheme;
     text_color := si_text_color scheme;
     is_default := default false (si_is_default scheme) |}.

(** [now] is the value of [CURRENT_TIMESTAMP].  The result is the
    returned flag and the store; a store that cannot be reached gives
    [False].  The ranges and lengths of the columns are not part of
    the embedding: it gives the outcome for values that the columns
    accept. *)
Definition save_template (now : string) (db : option Database)
    (template_data : TemplateInput)
  : bool * option Database :=
  match db with
  | None => (false, None)
  | Some d =>
      match List.find (fun t => String.eqb (t_id t) (ti_id template_data)) (templates d) with
      | Some _ => (true, Some d)
      | None =>
          (true,
           Some {| templates :=
                     templates d ++
                     [ {| t_id := ti_id template_data;
                          t_name := ti_name template_data;
                          t_category := ti_category template_data;
                          t_description := Some (ti_description template_data);
                          t_s3_path := None;
                          t_width := default 1200%Z (ti_width template_data);
                          t_height := default 1800%Z (ti_height template_data);
                          t_created_at := now;
                          t_updated_at := now |} ];
                   template_icon_coordinates :=
                     fold_left
                       (fun rows coord =>
                          upsert_coordinate (coordinate_row (ti_id template_data) coord) rows)
                       (default [] (ti_icon_coordinates template_data))
                       (template_icon_coordinates d);
                   template_color_schemes :=
                     template_color_schemes d ++
                     ((fun scheme => (ti_id template_data, color_scheme_row scheme))
                      <$> default [] (ti_color_schemes template_data)) |})
      end
  end.

(** *** [_init_default_templates] *)
Definition default_coordinate (kind : string) (i x y size : Z) : CoordinateInput :=
  {| ci_element_type := kind; ci_element_index := i; ci_x := x; ci_y := y;
     ci_width := Some size; ci_height := Some size |}.

Definition default_templates : list TemplateInput :=
  [ {| ti_id := "modern-business";
       ti_name := "Modern Business";
       ti_category := "business";
       ti_description := "Clean corporate design with professional layout";
       ti_width := Some 1200%Z;
       ti_height := Some 1800%Z;
       ti_icon_coordinates :=
         Some [ default_coordinate "key_point" 0 100 400 32;
                default_coordinate "key_point" 1 100 520 32;
                default_coordinate "key_point" 2 100 640 32;
                default_coordinate "key_point" 3 100 760 32;
                default_coordinate "key_point" 4 100 880 32;
                default_coordinate "statistic" 0 200 1100 40;
                default_coordinate "statistic" 1 600 1100 40 ];
       ti_color_schemes :=
         Some [ {| si_scheme_name := "Corporate Blue";
                   si_primary_color := "#2563EB";
                   si_secondary_color := "#1E40AF";
                   si_accent_color := "#3B82F6";
                   si_background_color := "#FFFFFF";
                   si_text_color := "#1F2937";
                   si_is_default := Some true |} ] |};
    {| ti_id := "educational-flow";
       ti_name := "Educational Flow";
       ti_category := "education";
       ti_description := "Perfect for learning content with step-by-step layout";
       ti_width := Some 1200%Z;
       ti_height := Some 1800%Z;
       ti_icon_coordinates :=
         Some [ default_coordinate "key_point" 0 80 350 28;
                default_coordinate "key_point" 1 80 450 28;
                default_coordinate "key_point" 2 80 550 28;
                default_coordinate "key_point" 3 80 650 28;
                default_coordinate "key_point" 4 80 750 28;
                default_coordinate "key_point" 5 80 850 28 ];
       ti_color_schemes :=
         Some [ {| si_scheme_name := "Academic Blue";
                   si_primary_color := "#1D4ED8";
                   si_secondary_color := "#1E40AF";
                   si_accent_color := "#3B82F6";
                   si_background_color := "#F8FAFC";
                   si_text_color := "#0F172A";
                   si_is_default := Some true |} ] |} ].

(** [for template in default_templates: self.save_template(template)];
    the returned flags are not looked at. *)
Definition _init_default_templates (now : string) (db : option Database)
  : option Database :=
  fold_left (fun db template => (save_template now db template).2) default_templates db.

(** The store right after [_init_database] on a fresh server. *)
Definition empty_database : Database :=
  {| templates := []; template_icon_coordinates := []; template_color_schemes := [] |}.

End TemplateService.

(** ** [services/infographic_generator.py] *)
Module InfographicGenerator.
Import TemplateService.

Record Position := {
  pos_x : Z;
  pos_y : Z;
  pos_width : Z;
  pos_height : Z
}.

(** A positioned key point or quote. *)
Record PositionedText := {
  pt_index : nat;
  pt_text : string;
  pt_position : Position;
  pt_icon : option Icon;
  pt_icon_size : string
}.

Record PositionedStat := {
  ps_index : nat;
  ps_data : Stat;
  ps_position : Position;
  ps_icon : option Icon;
  ps_icon_size : string
}.

Record PositionedElements := {
  pe_key_points : list PositionedText;
  pe_statistics : list PositionedStat;
  pe_quotes : list PositionedText;
  pe_title : list PositionedText
}.

Record InfographicData := {
  ig_template : TemplateRow;
  ig_content : Analysis;
  ig_positioned_elements : PositionedElements;
  ig_color_schemes : list ColorScheme;
  ig_dimensions : Z * Z
}.

Definition has_key {A} (field : option A) : bool :=
  match field with Some _ => true | None => false end.

(** Truth value of an icon dictionary: false only when it is empty. *)
Definition icon_truthy (icon : Icon) : bool :=
  has_key (icon_id icon) || has_key (icon_name icon) || has_key (icon_category icon)
  || has_key (icon_keywords icon) || has_key (icon_description icon)
  || has_key (similarity_score icon) || has_key (svg_path icon).

(** *** [_find_best_icon_for_text] *)

(** The integer part of the score: the keyword loop, then the
    category test. *)
Definition match_score (text_lower : string) (icon : Icon) : Z :=
  let score :=
    fold_left
      (fun score keyword =>
         if Py.contains (Py.lower keyword) text_lower then (score + 2)%Z else score)
      (default [] (icon_keywords icon)) 0%Z in
  if Py.contains (Py.lower (default EmptyString (icon_category icon))) text_lower
  then (score + 1)%Z else score.

(** [score += icon.get('similarity_score', 0)]: a float is added to
    the integer in floating point; without the key the integer 0 is
    added and the score stays an integer.  Integers and floats are
    compared by value. *)
Definition icon_score (text_lower : string) (icon : Icon) : Q :=
  let score := match_score text_lower icon in
  match similarity_score icon with
  | Some s => Py.float_add (Py.float_of_int score) s
  | None => inject_Z score
  end.

(** One round of [for icon in available_icons] on
    (best_icon, best_score). *)
Definition consider (text_lower : string) (best : option Icon * Q) (icon : Icon)
  : option Icon * Q :=
  let score := icon_score text_lower icon in
  match (best.2 ?= score)%Q with
  | Lt => (Some icon, score)
  | _ => best
  end.

Definition _find_best_icon_for_text (text : string) (available_icons : list Icon)
  : option Icon :=
  match available_icons with
  | [] => None
  | first :: _ =>
      let text_lower := Py.lower text in
      let best := fold_left (consider text_lower) available_icons (None, 0%Q) in
      (* best_icon or available_icons[0] *)
      match best.1 with
      | Some best_icon => if icon_truthy best_icon then Some best_icon else Some first
      | None => Some first
      end
  end.

(** *** [_map_icons_to_positions] *)

Definition enumerate {A} (l : list A) : list (nat * A) := zip (seq 0 (length l)) l.

Definition position_of (coord : Coord) : Position :=
  {| pos_x := c_x coord; pos_y := c_y coord;
     pos_width := c_width coord; pos_height := c_height coord |}.

Definition map_key_points
    (key_points : list string) (key_point_coords : list Coord) (icons : list Icon)
  : list PositionedText :=
  fold_left
    (fun positioned '(i, point) =>
       if i <? length key_point_coords then
         match key_point_coords !! i with
         | Some coord =>
             let best_icon := _find_best_icon_for_text point icons in
             positioned ++
               [ {| pt_index := i;
                    pt_text := point;
                    pt_position := position_of coord;
                    pt_icon := best_icon;
                    pt_icon_size := default "medium" (c_icon_size coord) |} ]
         | None => positioned
         end
       else positioned)
    (enumerate key_points) [].

Definition stat_text (stat : Stat) : string :=
  default EmptyString (st_label stat) +:+ " " +:+ default EmptyString (st_value stat).

Definition map_statistics
    (statistics : list Stat) (stat_coords : list Coord) (icons : list Icon)
  : list PositionedStat :=
  fold_left
    (fun positioned '(i, stat) =>
       if i <? length stat_coords then
         match stat_coords !! i with
         | Some coord =>
             let best_icon := _find_best_icon_for_text (stat_text stat) icons in
             positioned ++
               [ {| ps_index := i;
                    ps_data := stat;
                    ps_position := position_of coord;
                    ps_icon := best_icon;
                    ps_icon_size := default "medium" (c_icon_size coord) |} ]
         | None => positioned
         end
       else positioned)
    (enumerate statistics) [].

Definition map_quotes
    (quotes : list string) (quote_coords : list Coord) (icons : list Icon)
  : list PositionedText :=
  fold_left
    (fun positioned '(i, quote) =>
       if i <? length quote_coords then
         match quote_coords !! i with
         | Some coord =>
             positioned ++
               [ {| pt_index := i;
                    pt_text := quote;
                    pt_position := position_of coord;
                    pt_icon := _find_best_icon_for_text "quote" icons;
                    pt_icon_size := default "medium" (c_icon_size coord) |} ]
         | None => positioned
         end
       else positioned)
    (enumerate quotes) [].

Definition _map_icons_to_positions
    (content : Analysis) (template_data : TemplateData) (icons : list Icon)
  : PositionedElements :=
  let coordinates := td_coordinates template_data in
  {| pe_key_points :=
       map_key_points (default [] (keyPoints content))
                      (default [] (coordinates !! "key_point")) icons;
     pe_statistics :=
       map_statistics (default [] (statistics content))
                      (default [] (coordinates !! "statistic")) icons;
     pe_quotes :=
       map_quotes (default [] (quotes content))
                  (default [] (coordinates !! "quote")) icons;
     pe_title := [] |}.

(** *** [generate_infographic_data]

    [None] is the empty dictionary returned when the template is not
    found.  The source returns it as well from a handler around the
    whole body; on a content analysis and icons of the types above
    nothing in the body raises, so the handler is not reached. *)
Definition generate_infographic_data
    (db : option Database) (collection : option VectorIconService.Collection)
    (content_analysis : Analysis) (tid : string)
  : option InfographicData :=
  match get_template_coordinates db tid with
  | None => None
  | Some template_data =>
      let content_text :=
        default EmptyString (mainTitle content_analysis) +:+ " "
        +:+ Py.join " " (default [] (keyPoints content_analysis)) in
      let category := default "business" (category content_analysis) in
      let relevant_icons :=
        VectorIconService.find_relevant_icons collection content_text (Some category) 10 in
      let positioned_elements :=
        _map_icons_to_positions content_analysis template_data relevant_icons in
      Some {| ig_template := td_template template_data;
              ig_content := content_analysis;
              ig_positioned_elements := positioned_elements;
              ig_color_schemes := td_color_schemes template_data;
              ig_dimensions :=
                (t_width (td_template template_data),
                 t_height (td_template template_data)) |}
  end.

End InfographicGenerator.

(** ** [main.py]: the job registries

    [process_youtube_video] is the background task of a job.  Its
    pauses and the statuses it overwrites on the way are left out:
    the embedding gives the state of the two registries when the task
    returns, on each of its paths: an invalid address, a failed or
    blank transcript, an analysis that raises, and the completed
    job.  The transcript download is external. *)
Module Jobs.
Import Main TemplateService InfographicGenerator.

Record ProcessingStatus := {
  status : string;
  stage : string;
  progress : Z;
  message : string
}.

Record JobData := {
  jd_id : string;
  jd_videoMetadata : VideoMetadata;
  jd_analysis : Analysis;
  jd_templateData : option InfographicData;
  jd_templateType : option string;
  jd_createdAt : string;
  jd_transcriptText : string
}.

Record Registries := {
  processing_jobs : gmap string ProcessingStatus;
  generated_infographics : gmap string JobData
}.

(** How the download of a transcript ends: one of the three errors of
    the transcript API, any other exception (an empty transcript list
    included), or the formatted text. *)
Inductive TranscriptFetch :=
| TranscriptApiError
| TranscriptOtherError
| TranscriptText (text : string).

Definition set_status (job_id : string) (st : ProcessingStatus) (regs : Registries)
  : Registries :=
  {| processing_jobs := <[ job_id := st ]> (processing_jobs regs);
     generated_infographics := generated_infographics regs |}.

Definition transcript_unavailable (msg : string) : ProcessingStatus :=
  {| status := "error"; stage := "Transcript unavailable"; progress := 25;
     message := msg |}.

Definition api_error_message : string :=
  "This video doesn't have accessible transcripts. Please try a different video that has subtitles/captions enabled.".

Definition other_error_message : string :=
  "Could not retrieve transcript. This might be due to: 1) Video has no subtitles/captions, 2) Video is private/restricted, 3) Geographic restrictions. Please try a different video.".

Definition process_youtube_video
    (json_loads : string -> option Analysis)
    (openai_client : option (string -> option string))
    (fetch_transcript : string -> TranscriptFetch)
    (db : option Database) (collection : option VectorIconService.Collection)
    (now : string)
    (regs : Registries) (job_id url : string)
  : Registries :=
  match extract_video_id url with
  | None =>
      (* ValueError, caught by the outer handler *)
      set_status job_id
        {| status := "error"; stage := "Processing failed"; progress := 0;
           message := "Invalid YouTube URL" |} regs
  | Some video_id =>
      let video_metadata := get_video_metadata video_id in
      match fetch_transcript video_id with
      | TranscriptApiError =>
          set_status job_id (transcript_unavailable api_error_message) regs
      | TranscriptOtherError =>
          set_status job_id (transcript_unavailable other_error_message) regs
      | TranscriptText transcript_text =>
          if String.eqb (Py.strip transcript_text) EmptyString
          then set_status job_id (transcript_unavailable other_error_message) regs
          else if negb (transcript_content_returns json_loads openai_client
                                                   transcript_text)
          then
            (* the ValueError of the analysis, caught by the outer handler *)
            set_status job_id
              {| status := "error"; stage := "Processing failed"; progress := 0;
                 message :=
                   int_error_message
                     (default EmptyString (first_rejected_number transcript_text)) |}
              regs
          else
            let content_analysis :=
              analyze_transcript_content json_loads openai_client transcript_text in
            let default_template_id := "modern-business" in
            let complete_infographic :=
              generate_infographic_data db collection content_analysis
                                        default_template_id in
            let infographic_data :=
              {| jd_id := job_id;
                 jd_videoMetadata := video_metadata;
                 jd_analysis := content_analysis;
                 jd_templateData := complete_infographic;
                 jd_templateType := Some default_template_id;
                 jd_createdAt := now;
                 jd_transcriptText :=
                   if 500 <? String.length transcript_text
                   then Py.slice_to 500 transcript_text +:+ "..."
                   else transcript_text |} in
            {| processing_jobs :=
                 <[ job_id :=
                      {| status := "completed";
                         stage := "Infographic generated successfully!";
                         progress := 100;
                         message := "Ready for download" |} ]> (processing_jobs regs);
               generated_infographics :=
                 <[ job_id := infographic_data ]> (generated_infographics regs) |}
      end
  end.

(** The two read endpoints; [None] is the 404 response. *)
Definition get_processing_status (regs : Registries) (job_id : string)
  : option ProcessingStatus :=
  processing_jobs regs !! job_id.

Definition get_infographic (regs : Registries) (job_id : string) : option JobData :=
  generated_infographics regs !! job_id.

(** [generate_with_template]: the request fields may be absent.  An
    absent template id is looked up as SQL NULL, which no row equals.
    The job record is updated in place; [None] is the 404 response,
    otherwise the data of the response and the registries. *)
Definition generate_with_template
    (db : option Database) (collection : option VectorIconService.Collection)
    (regs : Registries) (job_id template_id : option string)
  : option (option InfographicData * Registries) :=
  job_id ← job_id;
  job_data ← generated_infographics regs !! job_id;
  let content_analysis := jd_analysis job_data in
  let complete_infographic :=
    tid ← template_id;
    generate_infographic_data db collection content_analysis tid in
  let job_data :=
    {| jd_id := jd_id job_data;
       jd_videoMetadata := jd_videoMetadata job_data;
       jd_analysis := jd_analysis job_data;
       jd_templateData := complete_infographic;
       jd_templateType := template_id;
       jd_createdAt := jd_createdAt job_data;
       jd_transcriptText := jd_transcriptText job_data |} in
  Some (complete_infographic,
        {| processing_jobs := processing_jobs regs;
           generated_infographics :=
             <[ job_id := job_data ]> (generated_infographics regs) |}).

End Jobs.

(** * Statements of the specification

    The predicates below phrase the sentences of the specification
    over the embedding; the concrete inputs are the scenarios used
    further down. *)
Module Spec.
Import TemplateService InfographicGenerator.

(** The selected icon is a maximiser of the score against the
    element's text, and the first one in pool order. *)
Definition selects_first_max (text : string) (pool : list Icon) : Prop :=
  exists (i : nat) (c : Icon),
    pool !! i = Some c /\
    _find_best_icon_for_text text pool = Some c /\
    (forall d, d ∈ pool ->
       (icon_score (Py.lower text) d <= icon_score (Py.lower text) c)%Q) /\
    (forall j d, j < i -> pool !! j = Some d ->
       (icon_score (Py.lower text) d < icon_score (Py.lower text) c)%Q).

(** Number of keywords of a candidate found in the text, whatever
    their case. *)
Definition keyword_hits (text : string) (icon : Icon) : nat :=
  length (List.filter (fun keyword => Py.contains (Py.lower keyword) (Py.lower text))
                      (default [] (icon_keywords icon))).

Definition category_hit (text : string) (icon : Icon) : nat :=
  if Py.contains (Py.lower (default EmptyString (icon_category icon))) (Py.lower text)
  then 1 else 0.

Definition candidate (keywords : list string) (cat : string) (score : Q) : Icon :=
  {| icon_id := None; icon_name := None; icon_category := Some cat;
     icon_keywords := Some keywords; icon_description := None;
     similarity_score := Some score; svg_path := None |}.

(** The element built for slot [i] from a paired-off element and
    slot, for each kind. *)
Definition key_point_at (icons : list Icon) (i : nat) (pc : string * Coord)
  : PositionedText :=
  {| pt_index := i; pt_text := pc.1; pt_position := position_of pc.2;
     pt_icon := _find_best_icon_for_text pc.1 icons;
     pt_icon_size := default "medium" (c_icon_size pc.2) |}.

Definition statistic_at (icons : list Icon) (i : nat) (sc : Stat * Coord)
  : PositionedStat :=
  {| ps_index := i; ps_data := sc.1; ps_position := position_of sc.2;
     ps_icon := _find_best_icon_for_text (stat_text sc.1) icons;
     ps_icon_size := default "medium" (c_icon_size sc.2) |}.

Definition quote_at (icons : list Icon) (i : nat) (qc : string * Coord)
  : PositionedText :=
  {| pt_index := i; pt_text := qc.1; pt_position := position_of qc.2;
     pt_icon := _find_best_icon_for_text "quote" icons;
     pt_icon_size := default "medium" (c_icon_size qc.2) |}.

(** Five key points, as in the truncation scenario of section 8. *)
Definition five_points : Analysis :=
  {| mainTitle := Some "Title"; keyPoints := Some ["A"; "B"; "C"; "D"; "E"];
     statistics := None; quotes := None; category := None; summary := None;
     wordCount := None; transcriptLength := None; icons := None |}.

(** A template with three key-point slots and two statistic slots. *)
Definition slot (i x y : Z) : Coord :=
  {| c_index := i; c_x := x; c_y := y; c_width := 32; c_height := 32;
     c_icon_size := Some "medium" |}.

Definition three_slots : TemplateData :=
  {| td_template :=
       {| t_id := "modern-business"; t_name := "Modern Business";
          t_category := "business"; t_description := None; t_s3_path := None;
          t_width := 1200; t_height := 1800;
          t_created_at := EmptyString; t_updated_at := EmptyString |};
     td_coordinates :=
       <[ "key_point" := [slot 0 100 400; slot 1 100 520; slot 2 100 640] ]>
         (<[ "statistic" := [slot 0 200 1100; slot 1 600 1100] ]> ∅);
     td_color_schemes := [] |}.

(** The pool of the scenario of section 8, with the similarity
    scores 0.4 and 0.9. *)
Definition scenario_pool : list Icon :=
  [ candidate ["growth"] "business" (Py.float_literal (4 # 10));
    candidate ["ai"] "technology" (Py.float_literal (9 # 10)) ].

(** A pool whose first candidate has a negative similarity score, as
    [1.0 - distance] gives for a cosine distance above 1. *)
Definition negative_pool : list Icon :=
  [ candidate ["chart"] "finance" (-1 # 2)%Q;
    candidate ["heart"] "health" 0%Q ].

(** An index whose two hits lie at cosine distances 3/2 and 1. *)
Definition far_index : VectorIconService.Collection :=
  fun _ _ _ =>
    Some {| VectorIconService.ids := [["chart_1"; "heart_2"]];
            VectorIconService.metadatas := None;
            VectorIconService.distances := Some [[(3 # 2)%Q; 1%Q]] |}.

(** The score as the specification writes it, an exact sum, and the
    claim that the selected icon maximises it. *)
Definition written_score (text : string) (icon : Icon) : Q :=
  (inject_Z (Z.of_nat (2 * keyword_hits text icon + category_hit text icon))
   + default 0 (similarity_score icon))%Q.

Definition selects_max_of_written_score (text : string) (pool : list Icon) : Prop :=
  exists c,
    _find_best_icon_for_text text pool = Some c /\
    forall d, d ∈ pool -> (written_score text d <= written_score text c)%Q.

(** The score as the code computes it. *)
Definition computed_score (text : string) (icon : Icon) : Q :=
  let matches := Z.of_nat (2 * keyword_hits text icon + category_hit text icon) in
  match similarity_score icon with
  | Some s => Py.float_add (Py.float_of_int matches) s
  | None => inject_Z matches
  end.

(** Two candidates with the same keyword whose similarity scores, 0
    and 2^-53, both lie in the unit interval. *)
Definition rounding_pool : list Icon :=
  [ candidate ["growth"] "business" 0%Q;
    candidate ["growth"] "business" (1 # 9007199254740992)%Q ].

(** A pool in which nothing scores above zero. *)
Definition unmatched_pool : list Icon :=
  [ candidate ["chart"] "finance" 0%Q;
    candidate ["heart"] "health" 0%Q ].

(** The cardinality and vocabulary contract of section 4.1. *)
Definition vocabulary : list string :=
  ["business"; "education"; "technology"; "health"; "finance"; "lifestyle"].

Definition normalized (a : Analysis) : Prop :=
  5 <= length (default [] (keyPoints a)) <= 6 /\
  length (default [] (statistics a)) <= 4 /\
  length (default [] (quotes a)) <= 2 /\
  exists c, category a = Some c /\ c ∈ vocabulary.

(** A reply of the language model with five statistics, three quotes
    and a category outside the vocabulary; [sports_reply] stands for
    its JSON text. *)
Definition sports_stat (n : Z) : Stat :=
  {| st_label := Some "Goals"; st_value := Some (Py.str_of_Z n);
     st_percentage := Some n |}.

Definition sports_draft : Analysis :=
  {| mainTitle := Some "Season review";
     keyPoints := Some ["one"; "two"; "three"; "four"; "five"];
     statistics :=
       Some [sports_stat 10; sports_stat 20; sports_stat 30; sports_stat 40;
             sports_stat 50];
     quotes := Some ["first"; "second"; "third"];
     category := Some "sports";
     summary := Some "A season in review";
     wordCount := None; transcriptLength := None; icons := None |}.

Definition sports_reply : string := "sports_draft.json".

Definition sports_json_loads (content : string) : option Analysis :=
  if String.eqb content sports_reply then Some sports_draft else None.

Definition sports_chat (transcript_text : string) : option string :=
  Some sports_reply.

(** Statistics of the deterministic extractor: the range of the
    percentage, and its origin in a located percentage pattern. *)
Definition percentage_in_range (s : Stat) : Prop :=
  exists p, st_percentage s = Some p /\ (0 <= p <= 100)%Z.

Definition derived_from_match (transcript_text : string) (s : Stat) : Prop :=
  exists sentence digits,
    sentence ∈ Py.split_char "." transcript_text /\
    Py.percent_search (Py.strip sentence) = Some digits /\
    st_percentage s = Some (Z.min (Py.int_of_digits digits) 100).

Definition statistics_located (transcript_text : string) : Prop :=
  forall s,
    s ∈ default [] (statistics (Main.analyze_basic_content transcript_text)) ->
    percentage_in_range s /\ derived_from_match transcript_text s.

(** No scanned sentence carries a percentage pattern. *)
Definition no_percentage_found (transcript_text : string) : Prop :=
  forall sentence,
    sentence ∈ take 30 (Py.split_char "." transcript_text) ->
    10 <= String.length (Py.strip sentence) ->
    Py.percent_search (Py.strip sentence) = None.

(** The two statistics generated when none was extracted. *)
Definition generated_statistic (transcript_text : string) (s : Stat) : Prop :=
  (st_label s = Some "Video Content Analysis" /\
   st_percentage s
   = Some (Z.min (Z.of_nat (length (Py.split_ws transcript_text) / 20)) 100)) \/
  (st_label s = Some "Key Points Identified" /\
   st_percentage s
   = Some (Z.of_nat
             (length (default [] (keyPoints (Main.analyze_basic_content transcript_text)))
              * 15))).

Definition plain_transcript : string :=
  "Welcome back to the channel. Today we look at how teams plan their week".

(** A transcript with a located percentage, and the statistic the
    extractor derives from it. *)
Definition percent_transcript : string :=
  "Sales grew by 45 percent last year. The key point is to stay focused".

Definition percent_statistic : Stat :=
  {| st_label := Some "Sales grew by 45 percent last year";
     st_value := Some "45%";
     st_percentage := Some 45%Z |}.

(** The degraded mode of section 4.2: a non-empty list of
    placeholders, no longer than the limit. *)
Definition placeholder (icon : Icon) : Prop :=
  icon_category icon = Some "general" /\ similarity_score icon = Some (1 # 2)%Q.

Definition degrades_to_placeholders
    (collection : option VectorIconService.Collection)
    (content : string) (category : option string) (limit : Z) : Prop :=
  let out := VectorIconService.find_relevant_icons collection content category limit in
  out <> [] /\ Forall placeholder out /\ (Z.of_nat (length out) <= limit)%Z.

(** An index whose every query raises. *)
Definition failing_index : VectorIconService.Collection := fun _ _ _ => None.

(** Ties in similarity score come out in ascending order of icon id. *)
Definition ties_broken_by_id (out : list Icon) : Prop :=
  forall i j a b,
    i < j -> out !! i = Some a -> out !! j = Some b ->
    (default 0 (similarity_score a) == default 0 (similarity_score b))%Q ->
    String.leb (default EmptyString (icon_id a)) (default EmptyString (icon_id b)) = true.

(** An index that answers every query with the same two hits, at the
    same distance, the larger id first. *)
Definition tied_index : VectorIconService.Collection :=
  fun _ _ _ =>
    Some {| VectorIconService.ids := [["chart_b"; "chart_a"]];
            VectorIconService.metadatas := None;
            VectorIconService.distances := Some [[(1 # 2)%Q; (1 # 2)%Q]] |}.

(** Ties in similarity score are separated by some key of the icons. *)
Definition ties_broken_by (key : Icon -> Z) (out : list Icon) : Prop :=
  forall i j a b,
    i < j -> out !! i = Some a -> out !! j = Some b ->
    (default 0 (similarity_score a) == default 0 (similarity_score b))%Q ->
    (key a < key b)%Z.

(** An index that returns the same two equidistant hits in an order
    that depends on the query text. *)
Definition unordered_index : VectorIconService.Collection :=
  fun content _ _ =>
    Some {| VectorIconService.ids :=
              if String.eqb content "business growth"
              then [["chart_b"; "chart_a"]] else [["chart_a"; "chart_b"]];
            VectorIconService.metadatas := None;
            VectorIconService.distances := Some [[(1 # 2)%Q; (1 # 2)%Q]] |}.

(** The template store after provisioning the first default template. *)
Definition provisioned : Database :=
  {| templates :=
       [ {| t_id := "modern-business"; t_name := "Modern Business";
            t_category := "business";
            t_description := Some "Clean corporate design with professional layout";
            t_s3_path := None; t_width := 1200; t_height := 1800;
            t_created_at := "2024-01-01"; t_updated_at := "2024-01-01" |} ];
     template_icon_coordinates :=
       [ {| template_id := "modern-business"; element_type := "key_point";
            element_index := 0; x_coordinate := 100; y_coordinate := 400;
            width := 32; height := 32; icon_size := "medium" |};
         {| template_id := "modern-business"; element_type := "statistic";
            element_index := 0; x_coordinate := 200; y_coordinate := 1100;
            width := 40; height := 40; icon_size := "medium" |} ];
     template_color_schemes := [] |}.

End Spec.

(** * Further notions used in the statements about the code *)
Module Notions.
Import Main TemplateService InfographicGenerator.

(** The icon chosen for the key point at position [i]. *)
Definition content_icon_at (category : string) (i : nat) (point : string) : string :=
  match first_keyword_match (Py.lower point) icon_keywords with
  | Some icon => icon
  | None =>
      entry_at (default business_defaults (dict_get category icon_keywords)) i
  end.

(** The transcript as the language model sees it. *)
Definition truncated (transcript_text : string) : string :=
  if 12000 <? String.length transcript_text
  then Py.slice_to 12000 transcript_text +:+ "..."
  else transcript_text.

(** The object parsed from the reply of the language model, when the
    call and the parse both succeed. *)
Definition parsed_reply
    (json_loads : string -> option Analysis) (chat : string -> option string)
    (transcript_text : string) : option Analysis :=
  chat (truncated transcript_text) ≫= fun content =>
  json_loads (strip_markdown (Py.strip content)).

(** A non-empty string of decimal digits: what [int] accepts. *)
Definition digit_string (s : string) : Prop :=
  s <> EmptyString /\ forallb Py.isdigit (list_ascii_of_string s) = true.

(** A statistic extracted from a sentence: the value shows the
    located number, the percentage caps it at 100, and the label has
    at most 40 characters of the sentence and an ellipsis. *)
Definition extracted_statistic (s : Stat) : Prop :=
  exists digits label,
    digit_string digits /\
    st_value s = Some (Py.str_of_Z (Py.int_of_digits digits) +:+ "%") /\
    st_percentage s = Some (Z.min (Py.int_of_digits digits) 100) /\
    st_label s = Some label /\ String.length label <= 43.

(** A reply of the language model with two key points only. *)
Definition two_point_draft : Analysis :=
  {| mainTitle := Some "Short talk"; keyPoints := Some ["one"; "two"];
     statistics := None; quotes := None; category := Some "technology";
     summary := None; wordCount := None; transcriptLength := None; icons := None |}.

Definition two_point_json_loads (content : string) : option Analysis :=
  if String.eqb content Spec.sports_reply then Some two_point_draft else None.

(** What the scan of the sentences keeps true of the three lists it
    builds. *)
Definition scan_shape (acc : list string * list Stat * list string) : Prop :=
  Forall (fun k => 10 <= String.length k <= 120) acc.1.1 /\
  Forall extracted_statistic acc.1.2 /\
  Forall (fun q => Py.contains_char Py.quotation_mark q = false) acc.2.

(** A video identifier: not empty, and free of the four characters
    that end one. *)
Definition video_id_shape (id : string) : Prop :=
  id <> EmptyString /\ forallb id_char (list_ascii_of_string id) = true.

(** An index whose answer has two hits but a single distance. *)
Definition ragged_index : VectorIconService.Collection :=
  fun _ _ _ =>
    Some {| VectorIconService.ids := [["chart_a"; "chart_b"]];
            VectorIconService.metadatas := None;
            VectorIconService.distances := Some [[(1 # 4)%Q]] |}.

(** The slot handed out for a row of the coordinate table. *)
Definition coord_of_row (r : CoordinateRow) : Coord :=
  {| c_index := element_index r; c_x := x_coordinate r; c_y := y_coordinate r;
     c_width := width r; c_height := height r; c_icon_size := Some (icon_size r) |}.

(** The rows of the coordinate table of one template and one kind. *)
Definition rows_of (d : Database) (tid kind : string) : list CoordinateRow :=
  List.filter (fun r => String.eqb (element_type r) kind)
              (List.filter (fun r => String.eqb (template_id r) tid)
                           (template_icon_coordinates d)).

(** The order of [ORDER BY element_type, element_index]. *)
Definition coordinate_le (r1 r2 : CoordinateRow) : Prop :=
  Is_true (coordinate_leb r1 r2).

(** Ascending slot indices. *)
Definition index_le (c1 c2 : Coord) : Prop := (c_index c1 <= c_index c2)%Z.

(** No foreign key of the coordinate and colour tables refers to the
    identifier: what the two [REFERENCES templates(id)] guarantee for
    an identifier that is not in the template table. *)
Definition unreferenced (d : Database) (tid : string) : Prop :=
  Forall (fun r => template_id r <> tid) (template_icon_coordinates d) /\
  Forall (fun r => r.1 <> tid) (template_color_schemes d).

(** What the columns of the three tables accept: an [INTEGER] holds
    32 signed bits, a [VARCHAR(n)] at most [n] characters, and no
    string may contain the character 0.  A value outside these limits
    makes the insertion raise, and [save_template] then returns
    [False] without storing anything. *)
Definition fits_integer (n : Z) : bool :=
  ((- 2 ^ 31 <=? n) && (n <? 2 ^ 31))%Z.

Definition fits_text (s : string) : bool :=
  negb (Py.contains_char "000" s).

Definition fits_varchar (limit : nat) (s : string) : bool :=
  (String.length s <=? limit) && fits_text s.

Definition coordinate_fits (coord : CoordinateInput) : bool :=
  fits_varchar 50 (ci_element_type coord)
  && fits_integer (ci_element_index coord)
  && fits_integer (ci_x coord) && fits_integer (ci_y coord)
  && fits_integer (default 24%Z (ci_width coord))
  && fits_integer (default 24%Z (ci_height coord)).

Definition color_scheme_fits (scheme : ColorSchemeInput) : bool :=
  fits_varchar 50 (si_scheme_name scheme)
  && fits_varchar 7 (si_primary_color scheme)
  && fits_varchar 7 (si_secondary_color scheme)
  && fits_varchar 7 (si_accent_color scheme)
  && fits_varchar 7 (si_background_color scheme)
  && fits_varchar 7 (si_text_color scheme).

Definition within_column_limits (template_data : TemplateInput) : bool :=
  fits_varchar 50 (ti_id template_data)
  && fits_varchar 100 (ti_name template_data)
  && fits_varchar 50 (ti_category template_data)
  && fits_text (ti_description template_data)
  && fits_integer (default 1200%Z (ti_width template_data))
  && fits_integer (default 1800%Z (ti_height template_data))
  && forallb coordinate_fits (default [] (ti_icon_coordinates template_data))
  && forallb color_scheme_fits (default [] (ti_color_schemes template_data)).

(** The slot a coordinate of the input names. *)
Definition slot_key (coord : CoordinateInput) : string * Z :=
  (ci_element_type coord, ci_element_index coord).

(** A template that the provisioned store does not have yet. *)
Definition poster_template : TemplateInput :=
  {| ti_id := "retro-poster";
     ti_name := "Retro Poster";
     ti_category := "lifestyle";
     ti_description := "Bold poster layout";
     ti_width := None;
     ti_height := Some 1600%Z;
     ti_icon_coordinates :=
       Some [ {| ci_element_type := "quote"; ci_element_index := 0;
                 ci_x := 60; ci_y := 900; ci_width := None; ci_height := None |};
              {| ci_element_type := "key_point"; ci_element_index := 1;
                 ci_x := 60; ci_y := 500; ci_width := Some 48%Z;
                 ci_height := Some 48%Z |};
              {| ci_element_type := "key_point"; ci_element_index := 0;
                 ci_x := 60; ci_y := 300; ci_width := Some 48%Z;
                 ci_height := Some 48%Z |} ];
     ti_color_schemes := None |}.

(** A template identifier is present in the store. *)
Definition present (tid : string) (d : Database) : Prop :=
  is_Some (List.find (fun t => String.eqb (t_id t) tid) (templates d)).

(** The store of a fresh server: the tables created, the default
    templates provisioned. *)
Definition fresh_store (now : string) : option Database :=
  _init_default_templates now (Some empty_database).

(** How a job can fail before its analysis starts. *)
Definition job_fails (fetch_transcript : string -> Jobs.TranscriptFetch) (url : string)
  : Prop :=
  match extract_video_id url with
  | None => True
  | Some video_id =>
      match fetch_transcript video_id with
      | Jobs.TranscriptText text => Py.strip text = EmptyString
      | _ => True
      end
  end.

(** Registries holding one finished job. *)
Definition one_job : Jobs.Registries :=
  {| Jobs.processing_jobs :=
       {[ "job-1" := {| Jobs.status := "completed";
                        Jobs.stage := "Infographic generated successfully!";
                        Jobs.progress := 100%Z;
                        Jobs.message := "Ready for download" |} ]};
     Jobs.generated_infographics :=
       {[ "job-1" := {| Jobs.jd_id := "job-1";
                        Jobs.jd_videoMetadata := get_video_metadata "dQw4w9WgXcQ";
                        Jobs.jd_analysis := Spec.five_points;
                        Jobs.jd_templateData := None;
                        Jobs.jd_templateType := Some "modern-business";
                        Jobs.jd_createdAt := "2024-01-01";
                        Jobs.jd_transcriptText := Spec.plain_transcript |} ]} |}.

Definition plain_fetch (video_id : string) : Jobs.TranscriptFetch :=
  Jobs.TranscriptText Spec.plain_transcript.

End Notions.

(** * Proofs *)

(** ** The primitives on small inputs *)
Section Primitives.
Import Main.

Example split_keeps_empty_tail : Py.split_char "." "a.b. c." = ["a"; "b"; " c"; EmptyString].
Proof. reflexivity. Qed.

Example strip_both_ends : Py.strip "  two words  " = "two words".
Proof. reflexivity. Qed.

Example split_ws_runs : Py.split_ws "  hello   world x " = ["hello"; "world"; "x"].
Proof. reflexivity. Qed.

Example percent_sign_located : Py.percent_search "up 12% on the year" = Some "12".
Proof. reflexivity. Qed.

Example percent_word_any_case : Py.percent_search "grew by 45 PerCent" = Some "45".
Proof. reflexivity. Qed.

Example percent_leftmost : Py.percent_search "45x 123 % then 7%" = Some "7".
Proof. reflexivity. Qed.

Example percent_absent : Py.percent_search "99 per cent" = None.
Proof. reflexivity. Qed.

Example substring_is_case_blind_after_lower :
  Py.contains (Py.lower "Growth") (Py.lower "Business GROWTH is key") = true.
Proof. reflexivity. Qed.

(** The repeated keys of the table keep their first place and take
    their last value, a list, so they never match as keywords. *)
Example education_is_a_category_entry :
  dict_get "education" icon_keywords
  = Some (Many ["BookOpen"; "GraduationCap"; "Lightbulb"; "Star"; "Brain"]).
Proof. reflexivity. Qed.

Example content_icons_by_keyword_then_category :
  get_content_icons ["We need growth"; "nothing here"] "technology"
  = ["TrendingUp"; "Zap"].
Proof. reflexivity. Qed.

Example strip_markdown_fence :
  strip_markdown "```json{}```" = "{}".
Proof. reflexivity. Qed.

Example extractor_on_percent_transcript :
  statistics (analyze_basic_content Spec.percent_transcript)
  = Some [Spec.percent_statistic] /\
  keyPoints (analyze_basic_content Spec.percent_transcript)
  = Some [ "The key point is to stay focused";
           "Key insight extracted from video content";
           "Key insight extracted from video content";
           "Key insight extracted from video content";
           "Key insight extracted from video content" ].
Proof. split; reflexivity. Qed.

Example float_addition_rounds :
  (Py.float_add 2 (1 # 9007199254740992) == 2)%Q /\
  (Py.float_add 2 (3 # 9007199254740992) == 4503599627370497 # 2251799813685248)%Q /\
  (Py.float_add 0 (-1 # 2) == -1 # 2)%Q /\
  (Py.float_of_int 3 == 3)%Q.
Proof. repeat split; vm_compute; reflexivity. Qed.

Example scenario_scores :
  Forall2 (fun score written =>
             (written - (1 # 2251799813685248) <= score)%Q /\
             (score <= written + (1 # 2251799813685248))%Q)
          (InfographicGenerator.icon_score (Py.lower "business growth is key")
           <$> Spec.scenario_pool)
          [(34 # 10)%Q; (9 # 10)%Q].
Proof. repeat constructor; by vm_compute. Qed.

Example provisioned_template_found :
  (fun td => TemplateService.td_coordinates td !! "key_point")
  <$> TemplateService.get_template_coordinates (Some Spec.provisioned) "modern-business"
  = Some (Some [ {| TemplateService.c_index := 0; TemplateService.c_x := 100;
                    TemplateService.c_y := 400; TemplateService.c_width := 32;
                    TemplateService.c_height := 32;
                    TemplateService.c_icon_size := Some "medium" |} ]).
Proof. vm_compute. reflexivity. Qed.

End Primitives.

Section ListFacts.
Context {A B : Type}.

Lemma imap_index_seq (f : nat -> A -> nat) (l : list A) k :
  (forall i a, f i a = k + i) -> imap f l = seq k (length l).
Proof.
  revert f k. induction l as [|a l IH]; intros f k Hf; simpl; [done|].
  rewrite Hf, Nat.add_0_r. f_equal.
  apply IH. intros i b. unfold compose. rewrite Hf. lia.
Qed.

Lemma zip_fst_take (l : list A) (k : list B) : (zip l k).*1 = take (length k) l.
Proof.
  revert k. induction l as [|a l IH]; intros [|b k]; simpl; try done.
  by rewrite IH.
Qed.

Lemma zip_snd_take (l : list A) (k : list B) : (zip l k).*2 = take (length l) k.
Proof.
  revert k. induction l as [|a l IH]; intros [|b k]; simpl; try done.
  by rewrite IH.
Qed.

Lemma Forall_imap_all (P : B -> Prop) (g : nat -> A -> B) (l : list A) :
  (forall i a, P (g i a)) -> Forall P (imap g l).
Proof.
  revert g. induction l as [|a l IH]; intros g Hg; simpl; constructor; [apply Hg|].
  apply IH. intros i b. apply Hg.
Qed.

Lemma length_zip (l : list A) (k : list B) :
  length (zip l k) = min (length l) (length k).
Proof.
  revert k. induction l as [|a l IH]; intros [|b k]; simpl; try done.
  by rewrite IH.
Qed.
End ListFacts.

(** ** The layout mapper *)
Section Mapper.
Import TemplateService InfographicGenerator Spec.

(** The enumerate-and-append loop shared by the three kinds, in
    closed form: the elements and the slots are paired off in order. *)
Lemma bind_loop {A E} (g : nat -> A -> Coord -> E) (coords : list Coord) (l : list A) :
  forall k acc,
    fold_left
      (fun positioned '(i, a) =>
         if i <? length coords then
           match coords !! i with
           | Some coord => positioned ++ [g i a coord]
           | None => positioned
           end
         else positioned)
      (zip (seq k (length l)) l) acc
    = acc ++ imap (fun i '(a, c) => g (k + i) a c) (zip l (drop k coords)).
Proof.
  induction l as [|a l IH]; intros k acc; simpl.
  - by rewrite app_nil_r.
  - destruct (Nat.ltb_spec k (length coords)) as [Hlt|Hge].
    + destruct (lookup_lt_is_Some_2 coords k Hlt) as [c Hc].
      rewrite Hc, IH, (drop_S _ _ _ Hc). simpl.
      rewrite Nat.add_0_r, <- app_assoc. simpl. do 2 f_equal.
      apply imap_ext. intros i [a' c'] _. simpl. f_equal. lia.
    + rewrite IH, !drop_ge by lia. by destruct l.
Qed.

Lemma map_key_points_eq kps coords icons :
  map_key_points kps coords icons = imap (key_point_at icons) (zip kps coords).
Proof.
  unfold map_key_points, enumerate.
  etrans; [apply (bind_loop (fun i p c => key_point_at icons i (p, c)))|].
  simpl. apply imap_ext. by intros i [??] _.
Qed.

Lemma map_statistics_eq stats coords icons :
  map_statistics stats coords icons = imap (statistic_at icons) (zip stats coords).
Proof.
  unfold map_statistics, enumerate.
  etrans; [apply (bind_loop (fun i s c => statistic_at icons i (s, c)))|].
  simpl. apply imap_ext. by intros i [??] _.
Qed.

Lemma map_quotes_eq qs coords icons :
  map_quotes qs coords icons = imap (quote_at icons) (zip qs coords).
Proof.
  unfold map_quotes, enumerate.
  etrans; [apply (bind_loop (fun i q c => quote_at icons i (q, c)))|].
  simpl. apply imap_ext. by intros i [??] _.
Qed.

(** What a paired-off sequence looks like through its projections. *)
Lemma imap_zip_shape {A E} (g : nat -> A * Coord -> E)
    (index : E -> nat) (payload : E -> A) (position : E -> Position)
    (l : list A) (coords : list Coord) :
  (forall i ac, index (g i ac) = i) ->
  (forall i ac, payload (g i ac) = ac.1) ->
  (forall i ac, position (g i ac) = position_of ac.2) ->
  let out := imap g (zip l coords) in
  length out = min (length l) (length coords) /\
  index <$> out = seq 0 (length out) /\
  payload <$> out = take (length coords) l /\
  position <$> out = position_of <$> take (length l) coords.
Proof.
  intros Hi Hp Hpos out. subst out.
  rewrite length_imap, length_zip, !fmap_imap.
  split; [done|]. split; [|split].
  - rewrite <- (length_zip l coords). apply imap_index_seq.
    intros i ac. unfold compose. by rewrite Hi.
  - rewrite <- zip_fst_take.
    rewrite (imap_ext _ (fun _ => fst)); [apply imap_const|].
    intros i ac _. unfold compose. by rewrite Hp.
  - rewrite <- zip_snd_take, <- list_fmap_compose.
    rewrite (imap_ext _ (fun _ => position_of ∘ snd)); [apply imap_const|].
    intros i ac _. unfold compose. by rewrite Hpos.
Qed.

(** The entry at a place of a paired-off sequence. *)
Lemma imap_zip_lookup {A E} (g : nat -> A * Coord -> E)
    (l : list A) (coords : list Coord) (i : nat) :
  i < length (imap g (zip l coords)) ->
  exists a c,
    l !! i = Some a /\ coords !! i = Some c /\
    imap g (zip l coords) !! i = Some (g i (a, c)).
Proof.
  rewrite length_imap, length_zip. intros Hi.
  destruct (lookup_lt_is_Some_2 l i) as [a Ha]; [lia|].
  destruct (lookup_lt_is_Some_2 coords i) as [c Hc]; [lia|].
  exists a, c. split; [done|]. split; [done|].
  rewrite list_lookup_imap.
  by rewrite (proj2 (lookup_zip_Some l coords i a c) (conj Ha Hc)).
Qed.

(** C1: for each kind the mapper pairs the content elements with the
    coordinate slots of that kind in order.  The output has
    min(elements, slots) entries, so the elements beyond the last slot
    are dropped; entry i carries the index i, the i-th content element
    unchanged, the x, y, width and height and the icon size of the
    i-th slot, and the icon selected for the element. *)
Theorem C1_mapper_binds_in_content_order
    (content : Analysis) (template_data : TemplateData) (icons : list Icon) :
  let out := _map_icons_to_positions content template_data icons in
  let slots kind := default [] (td_coordinates template_data !! kind) in
  let key_points := default [] (keyPoints content) in
  let stats := default [] (statistics content) in
  let qs := default [] (quotes content) in
  (length (pe_key_points out) = min (length key_points) (length (slots "key_point")) /\
   forall i, i < length (pe_key_points out) ->
     exists point coord,
       key_points !! i = Some point /\ slots "key_point" !! i = Some coord /\
       pe_key_points out !! i
       = Some {| pt_index := i;
                 pt_text := point;
                 pt_position := {| pos_x := c_x coord; pos_y := c_y coord;
                                   pos_width := c_width coord;
                                   pos_height := c_height coord |};
                 pt_icon := _find_best_icon_for_text point icons;
                 pt_icon_size := default "medium" (c_icon_size coord) |}) /\
  (length (pe_statistics out) = min (length stats) (length (slots "statistic")) /\
   forall i, i < length (pe_statistics out) ->
     exists stat coord,
       stats !! i = Some stat /\ slots "statistic" !! i = Some coord /\
       pe_statistics out !! i
       = Some {| ps_index := i;
                 ps_data := stat;
                 ps_position := {| pos_x := c_x coord; pos_y := c_y coord;
                                   pos_width := c_width coord;
                                   pos_height := c_height coord |};
                 ps_icon :=
                   _find_best_icon_for_text
                     (default EmptyString (st_label stat) +:+ " "
                      +:+ default EmptyString (st_value stat)) icons;
                 ps_icon_size := default "medium" (c_icon_size coord) |}) /\
  (length (pe_quotes out) = min (length qs) (length (slots "quote")) /\
   forall i, i < length (pe_quotes out) ->
     exists quote coord,
       qs !! i = Some quote /\ slots "quote" !! i = Some coord /\
       pe_quotes out !! i
       = Some {| pt_index := i;
                 pt_text := quote;
                 pt_position := {| pos_x := c_x coord; pos_y := c_y coord;
                                   pos_width := c_width coord;
                                   pos_height := c_height coord |};
                 pt_icon := _find_best_icon_for_text "quote" icons;
                 pt_icon_size := default "medium" (c_icon_size coord) |}).
Proof.
  intros out slots key_points stats qs. subst out.
  unfold _map_icons_to_positions. cbn [pe_key_points pe_statistics pe_quotes].
  rewrite map_key_points_eq, map_statistics_eq, map_quotes_eq.
  split; [|split]; (split; [by rewrite length_imap, length_zip|]);
    intros i Hi; apply imap_zip_lookup in Hi as (a & c & Ha & Hc & Hout);
    exists a, c; (split; [exact Ha|]); (split; [exact Hc|]); exact Hout.
Qed.

(** The truncation scenario of section 8: five key points on three
    slots give the first three, in order. *)
Example mapper_truncation_scenario :
  pt_text <$> pe_key_points (_map_icons_to_positions five_points three_slots [])
  = ["A"; "B"; "C"].
Proof. vm_compute. reflexivity. Qed.

(** C5: with an empty icon pool every element that has a slot is
    still positioned, and its icon is null. *)
Theorem C5_empty_pool_gives_null_icons
    (content : Analysis) (template_data : TemplateData) :
  let out := _map_icons_to_positions content template_data [] in
  let slots kind := default [] (td_coordinates template_data !! kind) in
  (length (pe_key_points out)
     = min (length (default [] (keyPoints content))) (length (slots "key_point")) /\
   Forall (fun e => pt_icon e = None) (pe_key_points out)) /\
  (length (pe_statistics out)
     = min (length (default [] (statistics content))) (length (slots "statistic")) /\
   Forall (fun e => ps_icon e = None) (pe_statistics out)) /\
  (length (pe_quotes out)
     = min (length (default [] (quotes content))) (length (slots "quote")) /\
   Forall (fun e => pt_icon e = None) (pe_quotes out)).
Proof.
  intros out slots. subst out slots.
  unfold _map_icons_to_positions. cbn [pe_key_points pe_statistics pe_quotes].
  rewrite map_key_points_eq, map_statistics_eq, map_quotes_eq.
  rewrite !length_imap, !length_zip.
  repeat split; by apply Forall_imap_all.
Qed.

(** C6: the icon of a positioned statistic is the one selected for
    its label and value joined by a blank; the icon of a positioned
    quote is the one selected for the literal text quote, whatever the
    quote says. *)
Theorem C6_matching_text_of_statistics_and_quotes
    (content : Analysis) (template_data : TemplateData) (icons : list Icon) :
  let out := _map_icons_to_positions content template_data icons in
  Forall (fun e =>
            ps_icon e
            = _find_best_icon_for_text
                (default EmptyString (st_label (ps_data e)) +:+ " "
                 +:+ default EmptyString (st_value (ps_data e))) icons)
         (pe_statistics out) /\
  Forall (fun e => pt_icon e = _find_best_icon_for_text "quote" icons)
         (pe_quotes out).
Proof.
  intros out. subst out.
  unfold _map_icons_to_positions. cbn [pe_statistics pe_quotes].
  rewrite map_statistics_eq, map_quotes_eq.
  split; by apply Forall_imap_all.
Qed.

(** The literal matters: on the scenario pool a quote about business
    growth would select another icon by its own words. *)
Example quote_literal_differs_from_own_text :
  _find_best_icon_for_text "quote" scenario_pool
  <> _find_best_icon_for_text "business growth is key" scenario_pool.
Proof. vm_compute. discriminate. Qed.

End Mapper.

(** ** Icon selection *)
Section IconSelection.
Import TemplateService InfographicGenerator Spec.

(** The scan of the pool either never improves on the starting score,
    or ends on the first candidate that reaches the largest score. *)
Lemma consider_fold_spec (t : string) (l : list Icon) :
  forall (b : option Icon) (s : Q),
    (fold_left (consider t) l (b, s) = (b, s) /\
     Forall (fun c => (icon_score t c <= s)%Q) l) \/
    (exists i c,
        l !! i = Some c /\
        fold_left (consider t) l (b, s) = (Some c, icon_score t c) /\
        (s < icon_score t c)%Q /\
        Forall (fun d => (icon_score t d <= icon_score t c)%Q) l /\
        forall j d, j < i -> l !! j = Some d -> (icon_score t d < icon_score t c)%Q).
Proof.
  induction l as [|a l IH]; intros b s; simpl.
  - left. by split.
  - assert (consider t (b, s) a =
            match (s ?= icon_score t a)%Q with
            | Lt => (Some a, icon_score t a)
            | _ => (b, s)
            end) as -> by reflexivity.
    destruct (s ?= icon_score t a)%Q eqn:Hcmp.
    + apply Qeq_alt in Hcmp.
      destruct (IH b s) as [[-> Hall]|(i & c & Hi & -> & Hlt & Hall & Hbefore)].
      * left. split; [done|]. constructor; [|done]. rewrite Hcmp. apply Qle_refl.
      * right. exists (S i), c. split; [done|]. split; [done|]. split; [done|].
        split.
        -- constructor; [|done]. rewrite <- Hcmp. by apply Qlt_le_weak.
        -- intros [|j] d Hj Hd; simpl in Hd.
           ++ injection Hd as <-. by rewrite <- Hcmp.
           ++ apply (Hbefore j); [lia|done].
    + apply Qlt_alt in Hcmp.
      destruct (IH (Some a) (icon_score t a))
        as [[-> Hall]|(i & c & Hi & -> & Hlt & Hall & Hbefore)].
      * right. exists 0, a. split; [done|]. split; [done|]. split; [done|].
        split; [constructor; [apply Qle_refl|done]|]. intros j d Hj. lia.
      * right. exists (S i), c. split; [done|]. split; [done|].
        split; [by eapply Qlt_trans|].
        split; [constructor; [by apply Qlt_le_weak|done]|].
        intros [|j] d Hj Hd; simpl in Hd.
        -- by injection Hd as <-.
        -- apply (Hbefore j); [lia|done].
    + apply Qgt_alt in Hcmp.
      destruct (IH b s) as [[-> Hall]|(i & c & Hi & -> & Hlt & Hall & Hbefore)].
      * left. split; [done|]. constructor; [by apply Qlt_le_weak|done].
      * right. exists (S i), c. split; [done|]. split; [done|]. split; [done|].
        split.
        -- constructor; [|done]. apply Qlt_le_weak. by eapply Qlt_trans.
        -- intros [|j] d Hj Hd; simpl in Hd.
           ++ injection Hd as <-. by eapply Qlt_trans.
           ++ apply (Hbefore j); [lia|done].
Qed.

Lemma keyword_loop_count (t : string) (l : list string) :
  forall acc : Z,
    fold_left (fun score keyword =>
                 if Py.contains (Py.lower keyword) t then (score + 2)%Z else score) l acc
    = (acc + 2 * Z.of_nat (length (List.filter
                                      (fun keyword => Py.contains (Py.lower keyword) t) l)))%Z.
Proof.
  induction l as [|k l IH]; intros acc; simpl; [lia|].
  rewrite IH. destruct (Py.contains (Py.lower k) t); simpl; lia.
Qed.

Lemma match_score_formula (text : string) (c : Icon) :
  match_score (Py.lower text) c
  = Z.of_nat (2 * keyword_hits text c + category_hit text c).
Proof.
  unfold match_score, keyword_hits, category_hit.
  rewrite keyword_loop_count.
  destruct (Py.contains _ (Py.lower text)); lia.
Qed.

Lemma icon_score_formula (text : string) (c : Icon) :
  icon_score (Py.lower text) c = computed_score text c.
Proof.
  unfold icon_score, computed_score. by rewrite match_score_formula.
Qed.

(** Rounding keeps the sign of a number that is not negative. *)
Lemma scaled_nonneg (m e : Z) : (0 <= m)%Z -> (0 <= Py.scaled m e)%Q.
Proof.
  intros Hm. unfold Py.scaled. destruct (0 <=? e)%Z eqn:He.
  - apply Z.leb_le in He. unfold Qle. simpl. nia.
  - unfold Qle. simpl. lia.
Qed.

Lemma round_half_even_nonneg (p q : Z) :
  (0 <= p)%Z -> (0 < q)%Z -> (0 <= Py.round_half_even p q)%Z.
Proof.
  intros Hp Hq. unfold Py.round_half_even.
  assert (0 <= p / q)%Z by (apply Z.div_pos; lia).
  destruct (2 * (p mod q) ?= q)%Z; [destruct (Z.even (p / q))|..]; lia.
Qed.

Lemma round_float_nonneg (x : Q) : (0 <= x)%Q -> (0 <= Py.round_float x)%Q.
Proof.
  intros Hx. unfold Py.round_float. destruct x as [[|n|n] d]; simpl.
  - apply Qle_refl.
  - unfold Py.round_pos. set (e := Z.max _ _). apply scaled_nonneg.
    destruct (0 <=? e)%Z eqn:He; apply round_half_even_nonneg; lia.
  - unfold Qle in Hx. simpl in Hx. lia.
Qed.

Lemma icon_score_nonneg (text : string) (c : Icon) :
  (forall s, similarity_score c = Some s -> (0 <= s)%Q) ->
  (0 <= icon_score (Py.lower text) c)%Q.
Proof.
  intros Hs. rewrite icon_score_formula. unfold computed_score.
  set (matches := Z.of_nat (2 * keyword_hits text c + category_hit text c)).
  assert (0 <= inject_Z matches)%Q as Hm by (unfold Qle; simpl; lia).
  destruct (similarity_score c) as [s|]; [|done].
  unfold Py.float_add, Py.float_of_int. apply round_float_nonneg.
  rewrite <- (Qplus_0_r 0). apply Qplus_le_compat; [|by apply Hs].
  by apply round_float_nonneg.
Qed.

(** The two ways [_find_best_icon_for_text] can end on a non-empty
    pool. *)
Lemma find_best_cases (text : string) (first : Icon) (rest : list Icon) :
  let pool := first :: rest in
  let t := Py.lower text in
  (Forall (fun d => (icon_score t d <= 0)%Q) pool /\
   _find_best_icon_for_text text pool = Some first) \/
  (exists i c,
      pool !! i = Some c /\ (0 < icon_score t c)%Q /\
      Forall (fun d => (icon_score t d <= icon_score t c)%Q) pool /\
      (forall j d, j < i -> pool !! j = Some d -> (icon_score t d < icon_score t c)%Q) /\
      _find_best_icon_for_text text pool = Some (if icon_truthy c then c else first)).
Proof.
  intros pool t. unfold _find_best_icon_for_text. fold t. subst pool.
  destruct (consider_fold_spec t (first :: rest) None 0%Q)
    as [[-> Hall]|(i & c & Hi & -> & Hlt & Hall & Hbefore)].
  - by left.
  - right. exists i, c. simpl. repeat (split; [done|]). by destruct (icon_truthy c).
Qed.


(** C2, amended: when no candidate has a negative similarity score
    and no candidate is an empty dictionary, the selected icon is the
    first candidate of the pool that maximises the score as the code
    computes it against the element's own text: twice the number of
    keywords found in the text plus one if the category is found, an
    integer, to which the similarity score is added in floating
    point.  Candidates whose sums round to the same double tie, and
    the first of them wins.  On the scenario pool the first candidate
    wins. *)
Theorem C2_first_maximiser_selected (text : string) (pool : list Icon) :
  pool <> [] ->
  (forall c s, c ∈ pool -> similarity_score c = Some s -> (0 <= s)%Q) ->
  (forall c, c ∈ pool -> icon_truthy c = true) ->
  selects_first_max text pool /\
  (forall c, c ∈ pool ->
     icon_score (Py.lower text) c
     = let matches := Z.of_nat (2 * keyword_hits text c + category_hit text c) in
       match similarity_score c with
       | Some s => Py.float_add (Py.float_of_int matches) s
       | None => inject_Z matches
       end) /\
  _find_best_icon_for_text "business growth is key" scenario_pool = head scenario_pool.
Proof.
  intros Hne Hsim Htruthy. split; [|split].
  - destruct pool as [|first rest]; [done|].
    destruct (find_best_cases text first rest)
      as [[Hall Hfind]|(i & c & Hi & Hpos & Hall & Hbefore & Hfind)].
    + exists 0, first. split; [done|]. split; [done|]. split; [|intros j d Hj; lia].
      intros d Hd. apply Qle_trans with 0%Q.
      * by apply (proj1 (Forall_forall _ _) Hall).
      * apply icon_score_nonneg. intros s. apply Hsim. left.
    + exists i, c. split; [done|]. split.
      * rewrite Hfind, Htruthy; [done|]. by eapply list_elem_of_lookup_2.
      * split; [|done]. intros d Hd. by apply (proj1 (Forall_forall _ _) Hall).
  - intros c _. apply icon_score_formula.
  - by vm_compute.
Qed.

(** The ranker does hand out scores below zero: a hit at distance
    3/2 gets the similarity 1 - 3/2. *)
Example ranker_scores_below_zero :
  similarity_score
  <$> VectorIconService.find_relevant_icons (Some far_index) "business growth" None 10
  = [Some (-1 # 2)%Q; Some (0 # 1)%Q].
Proof. reflexivity. Qed.

Lemma C2_first_maximiser_selected_witness :
  selects_first_max "business growth is key" scenario_pool.
Proof.
  apply (C2_first_maximiser_selected "business growth is key" scenario_pool).
  - discriminate.
  - intros c s Hc. unfold scenario_pool in Hc.
    apply elem_of_cons in Hc as [->|Hc]; [intros [= <-]; by vm_compute|].
    apply elem_of_cons in Hc as [->|Hc]; [intros [= <-]; by vm_compute|].
    by apply elem_of_nil in Hc.
  - intros c Hc. unfold scenario_pool in Hc.
    apply elem_of_cons in Hc as [->|Hc]; [reflexivity|].
    apply elem_of_cons in Hc as [->|Hc]; [reflexivity|].
    by apply elem_of_nil in Hc.
Defined.

(** C2 as stated fails inside the unit interval: both candidates of
    the rounding pool match the keyword, the second has the larger
    similarity score and so the larger written score, but 2 + 2^-53
    rounds to 2, the scores tie and the first candidate is returned. *)
Lemma C2_rounding_tie_counterexample :
  ~ selects_max_of_written_score "growth" rounding_pool.
Proof.
  intros (c & Hfind & Hmax).
  vm_compute in Hfind. injection Hfind as <-.
  specialize (Hmax (candidate ["growth"] "business" (1 # 9007199254740992)%Q)).
  assert (candidate ["growth"] "business" (1 # 9007199254740992)%Q ∈ rounding_pool)
    as Hin by (right; left).
  specialize (Hmax Hin). vm_compute in Hmax. by apply Hmax.
Qed.

(** It also fails on a pool with a negative similarity score, which
    the ranker can hand out: the scan starts from the score 0,
    nothing beats it, and the first candidate is returned although
    the second scores higher. *)
Lemma negative_similarity_is_not_maximised :
  ~ selects_first_max "business growth is key" negative_pool.
Proof.
  intros (i & c & _ & Hfind & Hmax & _).
  vm_compute in Hfind. injection Hfind as <-.
  specialize (Hmax (candidate ["heart"] "health" 0%Q)).
  assert (candidate ["heart"] "health" 0%Q ∈ negative_pool) as Hin
    by (right; left).
  specialize (Hmax Hin). vm_compute in Hmax. by apply Hmax.
Qed.


Lemma find_best_in_pool (text : string) (pool : list Icon) :
  pool <> [] -> exists c, _find_best_icon_for_text text pool = Some c /\ c ∈ pool.
Proof.
  destruct pool as [|first rest]; [done|]. intros _.
  destruct (find_best_cases text first rest)
    as [[_ Hfind]|(i & c & Hi & _ & _ & _ & Hfind)]; rewrite Hfind.
  - exists first. split; [done|]. left.
  - destruct (icon_truthy c).
    + exists c. split; [done|]. by eapply list_elem_of_lookup_2.
    + exists first. split; [done|]. left.
Qed.

(** C10: on a non-empty pool the selection returns an icon of the
    pool; when no candidate scores above zero it is the first icon of
    the pool; so every positioned key point and statistic carries an
    icon. *)
Theorem C10_nonempty_pool_always_yields_icon (text : string) (pool : list Icon) :
  pool <> [] ->
  (exists c, _find_best_icon_for_text text pool = Some c /\ c ∈ pool) /\
  ((forall d, d ∈ pool -> ~ (0 < icon_score (Py.lower text) d)%Q) ->
   _find_best_icon_for_text text pool = head pool) /\
  (forall content template_data,
      Forall (fun e => is_Some (pt_icon e))
             (pe_key_points (_map_icons_to_positions content template_data pool)) /\
      Forall (fun e => is_Some (ps_icon e))
             (pe_statistics (_map_icons_to_positions content template_data pool))).
Proof.
  intros Hne. split; [by apply find_best_in_pool|]. split.
  - intros Hnone. destruct pool as [|first rest]; [done|].
    destruct (find_best_cases text first rest)
      as [[_ Hfind]|(i & c & Hi & Hpos & _)]; [done|].
    destruct (Hnone c); [by eapply list_elem_of_lookup_2|done].
  - intros content template_data.
    unfold _map_icons_to_positions. cbn [pe_key_points pe_statistics].
    rewrite map_key_points_eq, map_statistics_eq.
    split; apply Forall_imap_all; intros i [a c];
      cbn [key_point_at statistic_at pt_icon ps_icon fst snd];
      match goal with
      | |- is_Some (_find_best_icon_for_text ?t _) =>
          by destruct (find_best_in_pool t pool Hne) as (x & -> & _)
      end.
Qed.

Lemma C10_nonempty_pool_always_yields_icon_witness :
  _find_best_icon_for_text "nothing matches here" unmatched_pool = head unmatched_pool.
Proof.
  apply (C10_nonempty_pool_always_yields_icon "nothing matches here" unmatched_pool).
  - discriminate.
  - intros d Hd. unfold unmatched_pool in Hd.
    apply elem_of_cons in Hd as [->|Hd]; [by vm_compute|].
    apply elem_of_cons in Hd as [->|Hd]; [by vm_compute|].
    by apply elem_of_nil in Hd.
Defined.

End IconSelection.

(** ** Content analysis *)
Section ContentAnalysis.
Import Main Spec.

(** Five rounds of padding are enough: the padded list has at least
    five entries and is unchanged when it already had five. *)
Lemma pad_key_points_length (filler : string) :
  forall n l, 5 <= length l + n -> length (pad_key_points n filler l) = max (length l) 5.
Proof.
  induction n as [|n IH]; intros l Hn; simpl.
  - lia.
  - destruct (Nat.ltb_spec (length l) 5) as [Hlt|Hge]; [|lia].
    rewrite IH; rewrite length_app; simpl; lia.
Qed.

Lemma pad_then_truncate_bounds (filler : string) (l : list string) :
  let padded := pad_key_points 5 filler l in
  5 <= length (if 6 <? length padded then take 6 padded else padded) <= 6.
Proof.
  intros padded. assert (length padded = max (length l) 5) as Hlen
    by (apply pad_key_points_length; lia).
  destruct (Nat.ltb_spec 6 (length padded)); [rewrite length_take|]; lia.
Qed.

Lemma basic_key_points_bounds (transcript_text : string) :
  5 <= length (default [] (keyPoints (analyze_basic_content transcript_text))) <= 6.
Proof.
  unfold analyze_basic_content. cbv zeta.
  destruct (fold_left scan_sentence _ _) as [[kp st] q].
  cbn [keyPoints from_option id]. apply pad_then_truncate_bounds.
Qed.

Lemma basic_is_normalized (transcript_text : string) :
  normalized (analyze_basic_content transcript_text) /\
  category (analyze_basic_content transcript_text) = Some "business".
Proof.
  split; [split; [apply basic_key_points_bounds|]|].
  - unfold analyze_basic_content. cbv zeta.
    destruct (fold_left scan_sentence _ _) as [[kp st] q].
    cbn [statistics quotes category from_option id].
    split; [rewrite length_take; lia|]. split; [rewrite length_take; lia|].
    exists "business". split; [done|]. left.
  - unfold analyze_basic_content. cbv zeta.
    by destruct (fold_left scan_sentence _ _) as [[kp st] q].
Qed.

Lemma openai_key_points_bounds json_loads chat transcript_text result :
  analyze_with_openai json_loads chat transcript_text = Some result ->
  5 <= length (default [] (keyPoints result)) <= 6.
Proof.
  unfold analyze_with_openai. cbv zeta.
  set (pad := pad_key_points 5 "Additional insight from the video content").
  destruct (chat _) as [content|]; [|done]. cbn [mbind option_bind].
  destruct (json_loads _) as [draft|]; [|done]. cbn [mbind option_bind].
  destruct (keyPoints draft) as [kp|]; [|done]. cbn [mbind option_bind].
  intros [= <-]. cbv [keyPoints from_option id].
  destruct (Nat.ltb_spec (length kp) 5) as [Hlt|Hge].
  - cbv iota. subst pad. rewrite pad_key_points_length; lia.
  - cbv iota. destruct (Nat.ltb_spec 6 (length kp)); [rewrite length_take|]; lia.
Qed.

Lemma int_of_digits_nonneg (digits : string) : (0 <= Py.int_of_digits digits)%Z.
Proof.
  unfold Py.int_of_digits.
  assert (forall l acc, (0 <= acc)%Z ->
            (0 <= fold_left (fun acc c => 10 * acc + Z.of_nat (nat_of_ascii c - 48)) l acc)%Z)
    as Hfold.
  { induction l as [|c l IH]; intros acc Hacc; simpl; [done|]. apply IH. lia. }
  by apply Hfold.
Qed.

(** Every statistic collected by the scan was either there before or
    comes from a percentage pattern located in a scanned sentence. *)
Lemma scan_statistics_sound (l : list string) :
  forall acc s,
    s ∈ (fold_left scan_sentence l acc).1.2 ->
    s ∈ acc.1.2 \/
    exists sentence digits,
      sentence ∈ l /\
      Py.percent_search (Py.strip sentence) = Some digits /\
      st_percentage s = Some (Z.min (Py.int_of_digits digits) 100).
Proof.
  induction l as [|sentence l IH]; intros [[kp st] q] s Hs; simpl in Hs; [by left|].
  apply IH in Hs as [Hs|(x & ds & Hx & Hm & Hp)].
  - unfold scan_sentence in Hs.
    destruct (String.length (Py.strip sentence) <? 10); [by left|].
    destruct (Py.percent_search (Py.strip sentence)) as [digits|] eqn:Hsearch;
      cbn [fst snd] in Hs; [|by left].
    apply elem_of_app in Hs as [Hs|Hs]; [by left|].
    apply list_elem_of_singleton in Hs as ->.
    right. exists sentence, digits. split; [left|]. by split.
  - right. exists x, ds. split; [by right|]. by split.
Qed.

(** When the scan collects no statistic, no scanned sentence of ten
    characters or more carries the pattern. *)
Lemma scan_statistics_empty (l : list string) :
  forall acc,
    (fold_left scan_sentence l acc).1.2 = [] ->
    acc.1.2 = [] /\
    Forall (fun sentence =>
              10 <= String.length (Py.strip sentence) ->
              Py.percent_search (Py.strip sentence) = None) l.
Proof.
  induction l as [|sentence l IH]; intros [[kp st] q] Hnil; simpl in Hnil; [by split|].
  apply IH in Hnil as [Hacc Hrest]. unfold scan_sentence in Hacc.
  destruct (Nat.ltb_spec (String.length (Py.strip sentence)) 10) as [Hshort|Hlong].
  - split; [done|]. constructor; [lia|done].
  - destruct (Py.percent_search (Py.strip sentence)) as [digits|] eqn:Hsearch;
      cbn [fst snd] in Hacc.
    + by destruct st.
    + split; [done|]. by constructor.
Qed.

(** The extractor returns exactly when [int] accepts every number
    located in a scanned sentence. *)
Lemma rejected_number_None (sentence : string) :
  rejected_number sentence = None <->
  forall digits,
    10 <= String.length (Py.strip sentence) ->
    Py.percent_search (Py.strip sentence) = Some digits ->
    String.length digits <= 4300.
Proof.
  unfold rejected_number, Py.int_accepts, Py.int_max_str_digits.
  destruct (Nat.ltb_spec (String.length (Py.strip sentence)) 10) as [Hshort|Hlong].
  - split; [intros _ digits; lia|done].
  - destruct (Py.percent_search (Py.strip sentence)) as [found|]; [|by split].
    destruct (Nat.leb_spec (String.length found) 4300) as [Hle|Hgt].
    + split; [|done]. by intros _ digits _ [= <-].
    + split; [done|]. intros Hall. specialize (Hall found Hlong eq_refl). lia.
Qed.

Lemma basic_content_returns_spec (transcript_text : string) :
  basic_content_returns transcript_text = true <->
  forall sentence digits,
    sentence ∈ take 30 (Py.split_char "." transcript_text) ->
    10 <= String.length (Py.strip sentence) ->
    Py.percent_search (Py.strip sentence) = Some digits ->
    String.length digits <= 4300.
Proof.
  unfold basic_content_returns, first_rejected_number.
  set (l := take 30 (Py.split_char "." transcript_text)).
  destruct (list_find _ (rejected_number <$> l)) as [[i r]|] eqn:Hfind;
    cbn [mbind option_bind snd].
  - apply list_find_Some in Hfind as (Hi & Hr & _).
    apply bool_decide_unpack in Hr as [digits ->].
    apply list_lookup_fmap_Some in Hi as (sentence & Hs & Hrej).
    split; [done|]. intros Hall. exfalso.
    assert (rejected_number sentence = None) as Hnone.
    { apply rejected_number_None. intros ds. apply Hall.
      by eapply list_elem_of_lookup_2. }
    congruence.
  - split; [|done]. intros _ sentence digits Hin.
    apply list_find_None in Hfind.
    apply (proj1 (rejected_number_None sentence)).
    assert (rejected_number sentence ∈ rejected_number <$> l) as Hmem
      by (by apply list_elem_of_fmap_2).
    pose proof (proj1 (Forall_forall _ _) Hfind _ Hmem) as Hnot.
    destruct (rejected_number sentence) as [ds|]; [|done].
    exfalso. apply Hnot. apply bool_decide_pack. by eexists.
Qed.

(** C3, amended: whenever the analysis returns, on either path, its
    result has between five and six key points.  The deterministic
    fallback, which is what runs without a client, returns unless a
    located number has more than 4300 digits, and its result also
    has at most four statistics, at most two quotes and the category
    business. *)
Theorem C3_cardinalities_by_path
    (json_loads : string -> option Analysis)
    (openai_client : option (string -> option string)) (transcript_text : string) :
  (transcript_content_returns json_loads openai_client transcript_text = true ->
   5 <= length (default []
                  (keyPoints (analyze_transcript_content json_loads openai_client
                                                         transcript_text))) <= 6) /\
  (basic_content_returns transcript_text = true ->
   normalized (analyze_basic_content transcript_text) /\
   category (analyze_basic_content transcript_text) = Some "business" /\
   transcript_content_returns json_loads None transcript_text = true /\
   analyze_transcript_content json_loads None transcript_text
   = analyze_basic_content transcript_text) /\
  (basic_content_returns transcript_text = true <->
   forall sentence digits,
     sentence ∈ take 30 (Py.split_char "." transcript_text) ->
     10 <= String.length (Py.strip sentence) ->
     Py.percent_search (Py.strip sentence) = Some digits ->
     String.length digits <= 4300).
Proof.
  split; [|split].
  - intros _. unfold analyze_transcript_content.
    destruct openai_client as [chat|]; [|apply basic_key_points_bounds].
    destruct (analyze_with_openai json_loads chat transcript_text) as [result|] eqn:Hllm.
    + by eapply openai_key_points_bounds.
    + apply basic_key_points_bounds.
  - intros Hreturns.
    split; [apply basic_is_normalized|]. split; [apply basic_is_normalized|done].
  - apply basic_content_returns_spec.
Qed.

Lemma C3_cardinalities_by_path_witness :
  5 <= length (default []
                 (keyPoints (analyze_transcript_content sports_json_loads None
                                                        plain_transcript))) <= 6 /\
  normalized (analyze_basic_content plain_transcript).
Proof.
  destruct (C3_cardinalities_by_path sports_json_loads None plain_transcript)
    as (Hkp & Hbasic & _).
  split; [apply Hkp; reflexivity|apply Hbasic; reflexivity].
Defined.

(** C3 as stated fails on the language-model path: the statistics,
    the quotes and the category of the parsed reply are returned as
    they are. *)
Lemma C3_language_model_counterexample :
  ~ normalized (analyze_transcript_content sports_json_loads (Some sports_chat)
                                           plain_transcript).
Proof.
  intros (_ & Hstats & _). vm_compute in Hstats. lia.
Qed.

(** C8, amended: every statistic of the deterministic extractor has
    a percentage between 0 and 100.  It is the located number capped
    at 100 when a scanned sentence carries a percentage pattern;
    when none does, the two statistics are generated from the word
    count and from the number of key points. *)
Theorem C8_statistics_percentages (transcript_text : string) (s : Stat) :
  s ∈ default [] (statistics (analyze_basic_content transcript_text)) ->
  percentage_in_range s /\
  (derived_from_match transcript_text s \/
   (no_percentage_found transcript_text /\ generated_statistic transcript_text s)).
Proof.
  intros Hs.
  pose proof (basic_key_points_bounds transcript_text) as Hkp.
  pose proof (scan_statistics_sound
                (take 30 (Py.split_char "." transcript_text)) ([], [], []) s) as Hsound.
  pose proof (scan_statistics_empty
                (take 30 (Py.split_char "." transcript_text)) ([], [], [])) as Hempty.
  unfold generated_statistic, no_percentage_found.
  unfold analyze_basic_content in *. cbv zeta in *.
  remember (fold_left scan_sentence (take 30 (Py.split_char "." transcript_text))
                      ([], [], [])) as r eqn:Hr.
  clear Hr. destruct r as [[kp st] q].
  cbv [statistics keyPoints from_option id fst snd] in *.
  apply (subseteq_take 4) in Hs.
  destruct st as [|x st].
  - destruct (Hempty eq_refl) as [_ Hnone].
    apply elem_of_cons in Hs as [->|Hs]; [|apply list_elem_of_singleton in Hs as ->].
    + split; [eexists; split; [reflexivity|lia]|].
      right. split; [|by left].
      intros sentence Hin. by apply (proj1 (Forall_forall _ _) Hnone).
    + split; [eexists; split; [reflexivity|lia]|].
      right. split; [|by right].
      intros sentence Hin. by apply (proj1 (Forall_forall _ _) Hnone).
  - destruct (Hsound Hs) as [Hnil|(sentence & digits & Hin & Hsearch & Hp)].
    { by apply elem_of_nil in Hnil. }
    pose proof (int_of_digits_nonneg digits).
    split; [eexists; split; [exact Hp|lia]|].
    left. exists sentence, digits. split; [|by split].
    by apply (subseteq_take 30).
Qed.

Lemma C8_statistics_percentages_witness :
  percentage_in_range percent_statistic /\
  (derived_from_match percent_transcript percent_statistic \/
   (no_percentage_found percent_transcript /\
    generated_statistic percent_transcript percent_statistic)).
Proof.
  apply (C8_statistics_percentages percent_transcript percent_statistic).
  vm_compute. left.
Defined.

(** C8 as stated fails on a transcript without any percentage: the
    extractor still returns statistics, with no match behind them. *)
Lemma C8_generated_statistics_counterexample : ~ statistics_located plain_transcript.
Proof.
  intros Hlocated.
  destruct (Hlocated
              {| st_label := Some "Video Content Analysis";
                 st_value := Some "14 words";
                 st_percentage := Some 0%Z |})
    as [_ (sentence & digits & Hin & Hsearch & _)].
  { vm_compute. left. }
  vm_compute in Hin.
  apply elem_of_cons in Hin as [->|Hin]; [by vm_compute in Hsearch|].
  apply list_elem_of_singleton in Hin as ->. by vm_compute in Hsearch.
Qed.

End ContentAnalysis.

(** ** The icon ranker *)
Section IconRanker.
Import VectorIconService Spec.

Lemma fallback_icons_shape (limit : Z) :
  length (_get_fallback_icons limit) = Z.to_nat (Z.min limit 6) /\
  Forall placeholder (_get_fallback_icons limit).
Proof.
  unfold _get_fallback_icons. split.
  - by rewrite length_fmap, length_seq.
  - apply Forall_fmap, Forall_forall. by intros i _.
Qed.

Lemma no_hits_gives_no_icons (query : Collection) content category limit results :
  query content (where_filter category) limit = Some results ->
  ids results = [] ->
  find_relevant_icons (Some query) content category limit = [].
Proof.
  intros Hq Hids. unfold find_relevant_icons. rewrite Hq. simpl.
  unfold format_results. by rewrite Hids.
Qed.

(** C4, amended: when the query against the index raises, the ranker
    returns the fixed placeholder list of min(limit, 6) icons, each
    of category general with similarity one half; the list is
    non-empty and no longer than the limit as soon as the limit is
    at least 1.  When the index is unavailable the ranker returns the
    empty list. *)
Theorem C4_placeholders_when_query_raises
    (query : Collection) (content : string) (category : option string) (limit : Z) :
  query content (where_filter category) limit = None ->
  let out := find_relevant_icons (Some query) content category limit in
  out = _get_fallback_icons limit /\
  length out = Z.to_nat (Z.min limit 6) /\
  Forall placeholder out /\
  ((1 <= limit)%Z -> degrades_to_placeholders (Some query) content category limit) /\
  find_relevant_icons None content category limit = [].
Proof.
  intros Hq out.
  assert (out = _get_fallback_icons limit) as Hout.
  { subst out. unfold find_relevant_icons. by rewrite Hq. }
  destruct (fallback_icons_shape limit) as [Hlen Hall].
  split; [done|]. rewrite Hout. split; [done|]. split; [done|]. split; [|done].
  intros Hlimit. unfold degrades_to_placeholders. fold out. rewrite Hout.
  split; [|split; [done|rewrite Hlen; lia]].
  intros Hnil. rewrite Hnil in Hlen. simpl in Hlen. lia.
Qed.

Lemma C4_placeholders_when_query_raises_witness :
  degrades_to_placeholders (Some failing_index) "business growth" (Some "business") 5.
Proof.
  apply (C4_placeholders_when_query_raises
           failing_index "business growth" (Some "business") 5).
  - reflexivity.
  - lia.
Defined.

(** C4 as stated fails when the index is unavailable: the ranker
    returns the empty list. *)
Lemma C4_unavailable_index_counterexample :
  ~ degrades_to_placeholders None "business growth" (Some "business") 5.
Proof. intros [Hne _]. by apply Hne. Qed.

Lemma format_hit_id (results : QueryResult) (hits : list string) (i : nat) (icon : Icon) :
  format_hit results hits i = Some icon -> icon_id icon = hits !! i /\ is_Some (hits !! i).
Proof.
  unfold format_hit.
  destruct (first_row_at (metadatas results) i empty_metadata) as [m|]; [|done].
  destruct (first_row_at (distances results) i 0%Q) as [d|]; [|done].
  destruct (hits !! i) as [id|]; [|done]. simpl. intros [= <-]. by split.
Qed.

(** C9, amended: two invocations with the same arguments against an
    index that gives the same answer return the same ordered output.
    The output is the formatted hits in the order in which the index
    returned them; the ranker applies no ordering or tie-break of its
    own. *)
Theorem C9_ranker_keeps_index_order
    (query query' : Collection) (content : string) (category : option string)
    (limit : Z) (results : QueryResult) (hits : list string)
    (others : list (list string)) (formatted : list Icon) :
  query content (where_filter category) limit = Some results ->
  query' content (where_filter category) limit = Some results ->
  ids results = hits :: others ->
  format_results results = Some formatted ->
  find_relevant_icons (Some query) content category limit
  = find_relevant_icons (Some query') content category limit /\
  find_relevant_icons (Some query) content category limit = formatted /\
  icon_id <$> formatted = Some <$> hits.
Proof.
  intros Hq Hq' Hids Hfmt.
  assert (forall q : Collection,
            q content (where_filter category) limit = Some results ->
            find_relevant_icons (Some q) content category limit = formatted) as Hrun.
  { intros q Hrun. unfold find_relevant_icons. rewrite Hrun. simpl. by rewrite Hfmt. }
  split; [by rewrite !Hrun|]. split; [by apply Hrun|].
  unfold format_results in Hfmt. rewrite Hids in Hfmt.
  apply mapM_Some in Hfmt.
  apply list_eq. intros i. rewrite !list_lookup_fmap.
  destruct (formatted !! i) as [icon|] eqn:Hicon; simpl.
  - destruct (Forall2_lookup_r _ _ _ _ _ Hfmt Hicon) as (j & Hj & Hhit).
    apply lookup_seq in Hj as [-> _]. simpl in Hhit.
    apply format_hit_id in Hhit as [-> [id ->]]. done.
  - apply Forall2_length in Hfmt. rewrite length_seq in Hfmt.
    apply lookup_ge_None in Hicon.
    by rewrite (proj2 (lookup_ge_None hits i)) by lia.
Qed.

Lemma C9_ranker_keeps_index_order_witness :
  icon_id <$> find_relevant_icons (Some tied_index) "business growth" (Some "business") 5
  = [Some "chart_b"; Some "chart_a"].
Proof.
  destruct (C9_ranker_keeps_index_order
              tied_index tied_index "business growth" (Some "business") 5
              {| ids := [["chart_b"; "chart_a"]]; metadatas := None;
                 distances := Some [[(1 # 2)%Q; (1 # 2)%Q]] |}
              ["chart_b"; "chart_a"] []
              (find_relevant_icons (Some tied_index) "business growth"
                                   (Some "business") 5)
              eq_refl eq_refl eq_refl eq_refl) as (_ & _ & Hids).
  exact Hids.
Defined.

(** C9 as stated fails on an index that returns two hits at the same
    distance with the larger id first: the tie is not broken by id. *)
Lemma C9_tie_order_counterexample :
  ~ ties_broken_by_id
      (find_relevant_icons (Some tied_index) "business growth" (Some "business") 5).
Proof.
  intros Hties.
  specialize (Hties 0 1 _ _ (Nat.lt_0_1) eq_refl eq_refl).
  vm_compute in Hties. by specialize (Hties eq_refl).
Qed.

(** Nor by any other key of the icons: the order of equidistant hits
    is whatever the index returned for that query. *)
Lemma no_key_explains_tie_order :
  ~ exists key : Icon -> Z,
      forall content,
        ties_broken_by key (find_relevant_icons (Some unordered_index) content None 5).
Proof.
  intros [key Hkey].
  pose proof (Hkey "business growth" 0 1 _ _ Nat.lt_0_1 eq_refl eq_refl) as Hba.
  pose proof (Hkey "team growth" 0 1 _ _ Nat.lt_0_1 eq_refl eq_refl) as Hab.
  cbv beta in Hba, Hab.
  assert (forall icon : Icon, (default 0 (similarity_score icon)
                               == default 0 (similarity_score icon))%Q) as Hrefl
    by (intros icon; reflexivity).
  specialize (Hba (Hrefl _)). specialize (Hab (Hrefl _)). lia.
Qed.

End IconRanker.

(** ** The template store *)
Section TemplateStore.
Import VectorIconService TemplateService InfographicGenerator Spec.

Lemma find_unknown (tid : string) (rows : list TemplateRow) :
  Forall (fun t => t_id t <> tid) rows ->
  List.find (fun t => String.eqb (t_id t) tid) rows = None.
Proof.
  induction 1 as [|t rows Hne _ IH]; simpl; [done|].
  by destruct (String.eqb_spec (t_id t) tid).
Qed.

(** C7: for a template id that no row of the store carries, and
    also when the store cannot be reached, the schema lookup returns
    the empty result and so does the generation. *)
Theorem C7_unknown_template_gives_empty_result
    (db : option Database) (collection : option Collection)
    (content_analysis : Analysis) (tid : string) :
  (forall d, db = Some d -> Forall (fun t => t_id t <> tid) (templates d)) ->
  get_template_coordinates db tid = None /\
  generate_infographic_data db collection content_analysis tid = None.
Proof.
  intros Hunknown.
  assert (get_template_coordinates db tid = None) as Hnone.
  { destruct db as [d|]; [|done]. unfold get_template_coordinates.
    by rewrite find_unknown by by apply Hunknown. }
  split; [done|]. unfold generate_infographic_data. by rewrite Hnone.
Qed.

Lemma C7_unknown_template_gives_empty_result_witness :
  get_template_coordinates (Some provisioned) "retro-poster" = None /\
  generate_infographic_data (Some provisioned) (Some failing_index) five_points
                            "retro-poster" = None.
Proof.
  apply (C7_unknown_template_gives_empty_result
           (Some provisioned) (Some failing_index) five_points "retro-poster").
  intros d [= <-]. repeat constructor. by vm_compute.
Defined.

End TemplateStore.

(** * Further properties of the pipeline

    Properties of the functions around the ones above: the icons and
    the two paths of the content analysis, the video address, the
    metadata of the indexed images, saving and provisioning
    templates, and the job registries of the server. *)

(** ** Strings *)
Section StringFacts.
Import Main.

Lemma string_app_cons (c : ascii) (s t : string) : String c s +:+ t = String c (s +:+ t).
Proof. reflexivity. Qed.

Lemma string_app_nil_l (t : string) : EmptyString +:+ t = t.
Proof. reflexivity. Qed.

Lemma string_app_assoc (s t u : string) : (s +:+ t) +:+ u = s +:+ (t +:+ u).
Proof.
  induction s as [|c s IH]; [done|]. rewrite !string_app_cons. by rewrite IH.
Qed.

Lemma string_length_app (s t : string) :
  String.length (s +:+ t) = String.length s + String.length t.
Proof.
  induction s as [|c s IH]; [done|]. rewrite string_app_cons. simpl. by rewrite IH.
Qed.

Lemma length_slice_to (n : nat) (s : string) :
  String.length (Py.slice_to n s) = min n (String.length s).
Proof.
  unfold Py.slice_to. revert s.
  induction n as [|n IH]; intros [|c s]; simpl; try done. by rewrite IH.
Qed.

Lemma prefix_app (a s : string) :
  String.prefix a s = true <-> exists t, s = a +:+ t.
Proof.
  revert s. induction a as [|c a IH]; intros s; simpl.
  - destruct s; split; eauto.
  - destruct s as [|d s]; simpl.
    + split; [done|]. intros [t Ht]. by rewrite string_app_cons in Ht.
    + destruct (ascii_dec c d) as [->|Hne].
      * rewrite IH. split; intros [t Ht]; exists t.
        -- by rewrite string_app_cons, Ht.
        -- rewrite string_app_cons in Ht. by injection Ht.
      * split; [done|]. intros [t Ht]. rewrite string_app_cons in Ht.
        injection Ht as -> _. done.
Qed.

Lemma contains_nil (needle : string) :
  Py.contains needle EmptyString = String.prefix needle EmptyString.
Proof. by destruct needle. Qed.

Lemma contains_cons (needle : string) (c : ascii) (hay : string) :
  Py.contains needle (String c hay)
  = String.prefix needle (String c hay) || Py.contains needle hay.
Proof. by destruct needle. Qed.

Lemma contains_app (needle hay : string) :
  Py.contains needle hay = true <-> exists pre post, hay = pre +:+ needle +:+ post.
Proof.
  induction hay as [|c hay IH]; [rewrite contains_nil|rewrite contains_cons].
  - rewrite prefix_app. split.
    + intros [t Ht]. by exists EmptyString, t.
    + intros ([|d pre] & post & Hp); [by exists post|].
      by rewrite string_app_cons in Hp.
  - rewrite orb_true_iff, prefix_app, IH. split.
    + intros [[t Ht]|(pre & post & Hp)].
      * by exists EmptyString, t.
      * exists (String c pre), post. by rewrite string_app_cons, Hp.
    + intros ([|d pre] & post & Hp).
      * left. by exists post.
      * right. rewrite string_app_cons in Hp. injection Hp as -> Hp.
        by exists pre, post.
Qed.

Lemma contains_part (a b s : string) :
  Py.contains (a +:+ b) s = true -> Py.contains b s = true.
Proof.
  rewrite !contains_app. intros (pre & post & ->).
  exists (pre +:+ a), post. by rewrite !string_app_assoc.
Qed.

Lemma contains_front (a b s : string) :
  Py.contains (a +:+ b) s = true -> Py.contains a s = true.
Proof.
  rewrite !contains_app. intros (pre & post & ->).
  exists pre, (b +:+ post). by rewrite !string_app_assoc.
Qed.

Lemma contains_in_left (needle s t : string) :
  Py.contains needle s = true -> Py.contains needle (s +:+ t) = true.
Proof.
  rewrite !contains_app. intros (pre & post & ->).
  exists pre, (post +:+ t). by rewrite !string_app_assoc.
Qed.

Lemma remove_char_gone (c : ascii) (s : string) :
  Py.contains_char c (Py.remove_char c s) = false.
Proof.
  unfold Py.contains_char. induction s as [|d s IH]; [done|]. simpl.
  destruct (Ascii.eqb_spec d c) as [->|Hne]; [done|].
  rewrite contains_cons, IH, orb_false_r. simpl.
  by destruct (ascii_dec c d) as [->|_].
Qed.

End StringFacts.

(** ** [main.py]: the icons of the key points and the analysis paths *)
Section AnalysisPaths.
Import Main Notions.

Lemma content_icons_loop (category : string) (key_points : list string) :
  forall selected,
    fold_left
      (fun selected_icons point =>
         let point_lower := Py.lower point in
         let matched_icon :=
           match first_keyword_match point_lower icon_keywords with
           | Some icon => icon
           | None =>
               let category_icons :=
                 default business_defaults (dict_get category icon_keywords) in
               entry_at category_icons (length selected_icons)
           end in
         selected_icons ++ [matched_icon])
      key_points selected
    = selected
      ++ imap (fun i point => content_icon_at category (length selected + i) point)
              key_points.
Proof.
  induction key_points as [|point key_points IH]; intros selected; simpl.
  - by rewrite app_nil_r.
  - rewrite IH, <- app_assoc. simpl. unfold content_icon_at at 2.
    rewrite Nat.add_0_r. do 2 f_equal.
    apply imap_ext. intros i p _. simpl. rewrite length_app. simpl.
    f_equal. lia.
Qed.

Lemma get_content_icons_imap (key_points : list string) (category : string) :
  get_content_icons key_points category = imap (content_icon_at category) key_points.
Proof. unfold get_content_icons. by rewrite content_icons_loop. Qed.

(** X1: the icon list of [get_content_icons] has one name per key point, in
    order, and the name at position [i] depends on the key point at
    [i] and on [i] alone: the icon of the first keyword of the table
    that occurs in the lower-cased key point, else the entry
    [i mod n] of the defaults of the category. *)
Theorem content_icons_by_position (key_points : list string) (category : string) :
  get_content_icons key_points category = imap (content_icon_at category) key_points /\
  length (get_content_icons key_points category) = length key_points.
Proof.
  rewrite get_content_icons_imap. split; [done|]. by rewrite length_imap.
Qed.

Lemma pad_key_points_app (filler : string) :
  forall n l, pad_key_points n filler l = l ++ replicate (min n (5 - length l)) filler.
Proof.
  induction n as [|n IH]; intros l.
  - simpl. by rewrite app_nil_r.
  - change (pad_key_points (S n) filler l)
      with (if length l <? 5 then pad_key_points n filler (l ++ [filler]) else l).
    destruct (Nat.ltb_spec (length l) 5) as [Hlt|Hge].
    + rewrite IH, <- app_assoc, length_app.
      replace (min (S n) (5 - length l))
        with (S (min n (5 - (length l + length [filler])))) by (change (length [filler]) with 1; lia).
      reflexivity.
    + replace (5 - length l) with 0 by lia. by rewrite Nat.min_0_r, app_nil_r.
Qed.

Lemma pad_then_truncate (filler : string) (l : list string) :
  (let padded := pad_key_points 5 filler l in
   if 6 <? length padded then take 6 padded else padded)
  = take 6 l ++ replicate (5 - length l) filler.
Proof.
  cbv zeta. rewrite pad_key_points_app.
  rewrite (Nat.min_r 5) by lia.
  rewrite length_app, length_replicate.
  destruct (Nat.ltb_spec 6 (length l + (5 - length l))) as [Hlt|Hge].
  - replace (5 - length l) with 0 by lia. simpl. by rewrite !app_nil_r.
  - rewrite take_ge by lia. done.
Qed.

(** The value of [analyze_with_openai] when the call, the parse and
    the lookup of the key points succeed. *)
Lemma analyze_with_openai_success json_loads chat transcript_text draft kp :
  parsed_reply json_loads chat transcript_text = Some draft ->
  keyPoints draft = Some kp ->
  analyze_with_openai json_loads chat transcript_text
  = Some {| mainTitle := mainTitle draft;
            keyPoints :=
              Some (take 6 kp
                    ++ replicate (5 - length kp)
                                 "Additional insight from the video content");
            statistics := statistics draft;
            quotes := quotes draft;
            category := category draft;
            summary := summary draft;
            wordCount := Some (length (Py.split_ws (truncated transcript_text)));
            transcriptLength := Some (String.length (truncated transcript_text));
            icons :=
              Some (get_content_icons kp (default "business" (category draft))) |}.
Proof.
  unfold parsed_reply, analyze_with_openai, truncated. cbv zeta.
  set (pad := pad_key_points 5 "Additional insight from the video content").
  destruct (chat _) as [content|]; [|done]. cbn [mbind option_bind].
  intros Hparse Hkp. rewrite Hparse. cbn [mbind option_bind].
  rewrite Hkp. cbn [mbind option_bind]. do 3 f_equal.
  destruct (Nat.ltb_spec (length kp) 5) as [Hlt|Hge].
  - subst pad. rewrite pad_key_points_app, take_ge by lia. do 2 f_equal. lia.
  - replace (5 - length kp) with 0 by lia. simpl. rewrite app_nil_r.
    destruct (Nat.ltb_spec 6 (length kp)); [done|]. by rewrite take_ge by lia.
Qed.

Lemma analyze_with_openai_failure json_loads chat transcript_text :
  (forall draft, parsed_reply json_loads chat transcript_text = Some draft ->
                 keyPoints draft = None) ->
  analyze_with_openai json_loads chat transcript_text = None.
Proof.
  unfold parsed_reply, analyze_with_openai, truncated. cbv zeta.
  set (pad := pad_key_points 5 "Additional insight from the video content").
  destruct (chat _) as [content|]; [|done]. cbn [mbind option_bind].
  destruct (json_loads _) as [draft|]; [|done]. cbn [mbind option_bind].
  intros Hnone. by rewrite (Hnone draft eq_refl).
Qed.

Lemma span_digits_digits (s : string) :
  forallb Py.isdigit (list_ascii_of_string (Py.span_digits s).1) = true.
Proof.
  induction s as [|c s IH]; [done|]. simpl.
  destruct (Py.isdigit c) eqn:Hc; [|done].
  destruct (Py.span_digits s) as [ds rest]. simpl in *. by rewrite Hc, IH.
Qed.

Lemma percent_match_at_digits (s digits : string) :
  Py.percent_match_at s = Some digits -> digit_string digits.
Proof.
  unfold Py.percent_match_at. pose proof (span_digits_digits s) as Hd.
  destruct (Py.span_digits s) as [[|c ds] rest]; [done|]. simpl in Hd.
  destruct (String.prefix "%" rest);
    [|destruct (String.prefix "percent" (Py.lower (Py.lstrip rest)))];
    intros [= <-]; by split.
Qed.

Lemma percent_search_digits (s digits : string) :
  Py.percent_search s = Some digits -> digit_string digits.
Proof.
  induction s as [|c s IH]; [done|].
  change (Py.percent_search (String c s))
    with (match Py.percent_match_at (String c s) with
          | Some g => Some g
          | None => Py.percent_search s
          end).
  destruct (Py.percent_match_at (String c s)) eqn:Hm; [|done].
  intros [= <-]. by eapply percent_match_at_digits.
Qed.


Lemma scan_sentence_shape acc sentence :
  scan_shape acc -> scan_shape (scan_sentence acc sentence).
Proof.
  destruct acc as [[kp st] q]. intros (Hkp & Hst & Hq). unfold scan_sentence.
  destruct (Nat.ltb_spec (String.length (Py.strip sentence)) 10) as [Hshort|Hlong];
    [by split|].
  split; [|split]; cbn [fst snd].
  - destruct (existsb _ key_indicators); [|done].
    destruct (Nat.leb_spec (String.length (Py.strip sentence)) 120); [|done].
    apply Forall_app. split; [done|]. by constructor.
  - destruct (Py.percent_search (Py.strip sentence)) as [digits|] eqn:Hsearch; [|done].
    apply Forall_app. split; [done|]. constructor; [|done].
    eexists digits, _. split; [by eapply percent_search_digits|].
    cbn [st_value st_percentage st_label]. do 3 (split; [done|]).
    destruct (Nat.ltb_spec 40 (String.length (Py.strip sentence))).
    + rewrite string_length_app, length_slice_to.
      change (String.length "...") with 3. lia.
    + lia.
  - destruct (Py.contains_char Py.quotation_mark (Py.strip sentence)); [|done].
    apply Forall_app. split; [done|]. constructor; [|done]. apply remove_char_gone.
Qed.

Lemma scan_shape_fold (l : list string) :
  forall acc, scan_shape acc -> scan_shape (fold_left scan_sentence l acc).
Proof.
  induction l as [|sentence l IH]; intros acc Hacc; [done|].
  simpl. by apply IH, scan_sentence_shape.
Qed.

Lemma scan_shape_start : scan_shape ([], [], []).
Proof. by repeat split. Qed.

(** X2: every key point of the fallback analysis has between 10 and 120
    characters, the padding sentences included. *)
Theorem basic_key_points_sizes (transcript_text : string) :
  Forall (fun k => 10 <= String.length k <= 120)
         (default [] (keyPoints (analyze_basic_content transcript_text))).
Proof.
  pose proof (scan_shape_fold (take 30 (Py.split_char "." transcript_text)) _
                scan_shape_start) as (Hkp & _ & _).
  unfold analyze_basic_content. cbv zeta.
  destruct (fold_left scan_sentence _ _) as [[kp st] q].
  cbv [keyPoints from_option id]. cbn [fst snd] in Hkp.
  rewrite (pad_then_truncate "Key insight extracted from video content").
  apply Forall_app. split; [|by apply Forall_replicate; vm_compute; lia].
  apply Forall_take. destruct kp as [|k kp]; [|done].
  apply Forall_take, Forall_fmap, Forall_forall. intros s Hs.
  apply list_elem_of_filter in Hs as [Hlen _]. simpl. lia.
Qed.

(** X3: no quote of the fallback analysis contains a double quotation
    mark. *)
Theorem basic_quotes_without_marks (transcript_text : string) :
  Forall (fun q => Py.contains_char Py.quotation_mark q = false)
         (default [] (quotes (analyze_basic_content transcript_text))).
Proof.
  pose proof (scan_shape_fold (take 30 (Py.split_char "." transcript_text)) _
                scan_shape_start) as (_ & _ & Hq).
  unfold analyze_basic_content. cbv zeta.
  destruct (fold_left scan_sentence _ _) as [[kp st] q].
  cbv [quotes from_option id]. by apply Forall_take.
Qed.

(** X4: whenever the fallback analysis returns, its result has a
    title, of 11 to 80 characters. *)
Theorem basic_title_bounds (transcript_text : string) :
  basic_content_returns transcript_text = true ->
  exists title,
    mainTitle (analyze_basic_content transcript_text) = Some title /\
    11 <= String.length title <= 80.
Proof.
  intros _. unfold analyze_basic_content. cbv zeta.
  destruct (fold_left scan_sentence _ _) as [[kp st] q].
  cbv [mainTitle]. eexists. split; [reflexivity|].
  destruct (Py.strip <$> filter _ (take 5 (Py.split_char "." transcript_text)))
    as [|s rest] eqn:Hclean.
  - vm_compute. lia.
  - assert (s ∈ Py.strip <$> filter (fun s => 10 < String.length (Py.strip s))
                                   (take 5 (Py.split_char "." transcript_text))) as Hs
      by (rewrite Hclean; left).
    apply list_elem_of_fmap in Hs as (x & -> & Hx).
    apply list_elem_of_filter in Hx as [Hlen _].
    rewrite length_slice_to. lia.
Qed.

(** X5: a statistic of the fallback analysis is either one of the
    generated defaults or extracted from a sentence: its value is the
    located number followed by a percent sign, its percentage that
    number capped at 100, its label at most 43 characters long. *)
Theorem basic_statistics_shape (transcript_text : string) (s : Stat) :
  s ∈ default [] (statistics (analyze_basic_content transcript_text)) ->
  Spec.generated_statistic transcript_text s \/ extracted_statistic s.
Proof.
  pose proof (scan_shape_fold (take 30 (Py.split_char "." transcript_text)) _
                scan_shape_start) as (_ & Hst & _).
  unfold Spec.generated_statistic.
  unfold analyze_basic_content. cbv zeta.
  destruct (fold_left scan_sentence _ _) as [[kp st] q].
  cbv [statistics keyPoints from_option id]. cbn [fst snd] in Hst.
  intros Hs. apply (subseteq_take 4) in Hs.
  destruct st as [|x st].
  - left. apply elem_of_cons in Hs as [->|Hs]; [by left|].
    apply list_elem_of_singleton in Hs as ->. by right.
  - right. by apply (proj1 (Forall_forall _ _) Hst).
Qed.

(** X6: when the reply of the language model parses and has key points,
    the analysis keeps the first six of them in order and fills up to
    five with the fixed filler sentence. *)
Theorem llm_key_points_prefix_and_filler
    json_loads chat transcript_text (draft : Analysis) (kp : list string) :
  parsed_reply json_loads chat transcript_text = Some draft ->
  keyPoints draft = Some kp ->
  exists result,
    analyze_with_openai json_loads chat transcript_text = Some result /\
    keyPoints result
    = Some (take 6 kp
            ++ replicate (5 - length kp) "Additional insight from the video content").
Proof.
  intros Hparse Hkp. eexists. split; [by apply analyze_with_openai_success|done].
Qed.

(** X7: on the language-model path the icons are computed from the key
    points of the reply before they are padded or truncated, so there
    are as many icons as key points in the result exactly when the
    reply had five or six key points. *)
Theorem llm_icons_follow_reply
    json_loads chat transcript_text (draft : Analysis) (kp : list string) :
  parsed_reply json_loads chat transcript_text = Some draft ->
  keyPoints draft = Some kp ->
  exists result,
    analyze_with_openai json_loads chat transcript_text = Some result /\
    icons result
    = Some (imap (content_icon_at (default "business" (category draft))) kp) /\
    (length (default [] (icons result)) = length (default [] (keyPoints result))
     <-> 5 <= length kp <= 6).
Proof.
  intros Hparse Hkp. eexists. split; [by apply analyze_with_openai_success|].
  cbn [icons keyPoints].
  rewrite get_content_icons_imap.
  split; [done|]. cbn [from_option id].
  rewrite length_imap, length_app, length_take, length_replicate. lia.
Qed.

(** X8: on the language-model path the title, statistics, quotes,
    category and summary of the parsed reply are returned as they
    are. *)
Theorem llm_reply_fields_pass_through
    json_loads chat transcript_text (draft : Analysis) (kp : list string) :
  parsed_reply json_loads chat transcript_text = Some draft ->
  keyPoints draft = Some kp ->
  exists result,
    analyze_with_openai json_loads chat transcript_text = Some result /\
    mainTitle result = mainTitle draft /\
    statistics result = statistics draft /\
    quotes result = quotes draft /\
    category result = category draft /\
    summary result = summary draft.
Proof.
  intros Hparse Hkp. eexists. split; [by apply analyze_with_openai_success|done].
Qed.

(** X9: [analyze_transcript_content] is the fallback analysis whenever
    there is no client, the call or the parse fails, or the reply has
    no key points. *)
Theorem analysis_falls_back_when_model_fails
    json_loads (openai_client : option (string -> option string)) transcript_text :
  (forall chat draft,
      openai_client = Some chat ->
      parsed_reply json_loads chat transcript_text = Some draft ->
      keyPoints draft = None) ->
  analyze_transcript_content json_loads openai_client transcript_text
  = analyze_basic_content transcript_text.
Proof.
  intros Hfail. unfold analyze_transcript_content.
  destruct openai_client as [chat|]; [|done].
  rewrite analyze_with_openai_failure; [done|]. intros draft. by apply Hfail.
Qed.

Lemma truncated_length (n : nat) (s : string) :
  String.length (if n <? String.length s then Py.slice_to n s +:+ "..." else s) <= n + 3.
Proof.
  destruct (Nat.ltb_spec n (String.length s)); [|lia].
  rewrite string_length_app, length_slice_to. change (String.length "...") with 3. lia.
Qed.

(** X10: on the language-model path the word count and the transcript
    length are those of the transcript as sent to the model: cut to
    12000 characters plus an ellipsis, and unchanged when it has at
    most 12000 characters. *)
Theorem llm_counts_on_truncated_transcript
    json_loads chat transcript_text (result : Analysis) :
  analyze_with_openai json_loads chat transcript_text = Some result ->
  wordCount result = Some (length (Py.split_ws (truncated transcript_text))) /\
  transcriptLength result = Some (String.length (truncated transcript_text)) /\
  String.length (truncated transcript_text) <= 12000 + 3 /\
  (String.length transcript_text <= 12000 -> truncated transcript_text = transcript_text).
Proof.
  intros Hresult.
  assert (exists draft kp, parsed_reply json_loads chat transcript_text = Some draft
                           /\ keyPoints draft = Some kp) as (draft & kp & Hparse & Hkp).
  { destruct (parsed_reply json_loads chat transcript_text) as [draft|] eqn:Hparse.
    - destruct (keyPoints draft) as [kp|] eqn:Hkp; [by eauto|].
      rewrite analyze_with_openai_failure in Hresult; [done|].
      intros d Hd. by rewrite Hparse in Hd; injection Hd as <-.
    - rewrite analyze_with_openai_failure in Hresult; [done|].
      intros d Hd. by rewrite Hparse in Hd. }
  rewrite (analyze_with_openai_success _ _ _ _ _ Hparse Hkp) in Hresult.
  injection Hresult as <-. split; [done|]. split; [done|].
  unfold truncated. split; [apply truncated_length|].
  intros Hshort. by destruct (Nat.ltb_spec 12000 (String.length transcript_text)); [lia|].
Qed.

Lemma basic_title_bounds_witness :
  exists title,
    mainTitle (analyze_basic_content Spec.plain_transcript) = Some title /\
    11 <= String.length title <= 80.
Proof. apply (basic_title_bounds Spec.plain_transcript). reflexivity. Defined.

Lemma basic_statistics_shape_witness :
  Spec.generated_statistic Spec.percent_transcript Spec.percent_statistic
  \/ extracted_statistic Spec.percent_statistic.
Proof.
  apply (basic_statistics_shape Spec.percent_transcript Spec.percent_statistic).
  vm_compute. left.
Defined.

Lemma llm_key_points_prefix_and_filler_witness :
  exists result,
    analyze_with_openai Notions.two_point_json_loads Spec.sports_chat Spec.plain_transcript
    = Some result /\
    keyPoints result
    = Some (take 6 ["one"; "two"]
            ++ replicate (5 - 2) "Additional insight from the video content").
Proof.
  apply (llm_key_points_prefix_and_filler
           Notions.two_point_json_loads Spec.sports_chat Spec.plain_transcript
           Notions.two_point_draft ["one"; "two"]); reflexivity.
Defined.

Lemma llm_icons_follow_reply_witness :
  exists result,
    analyze_with_openai Notions.two_point_json_loads Spec.sports_chat Spec.plain_transcript
    = Some result /\
    icons result
    = Some (imap (content_icon_at (default "business" (category Notions.two_point_draft)))
                 ["one"; "two"]) /\
    (length (default [] (icons result)) = length (default [] (keyPoints result))
     <-> 5 <= length ["one"; "two"] <= 6).
Proof.
  apply (llm_icons_follow_reply
           Notions.two_point_json_loads Spec.sports_chat Spec.plain_transcript
           Notions.two_point_draft ["one"; "two"]); reflexivity.
Defined.

Lemma llm_reply_fields_pass_through_witness :
  exists result,
    analyze_with_openai Spec.sports_json_loads Spec.sports_chat Spec.plain_transcript
    = Some result /\
    mainTitle result = mainTitle Spec.sports_draft /\
    statistics result = statistics Spec.sports_draft /\
    quotes result = quotes Spec.sports_draft /\
    category result = category Spec.sports_draft /\
    summary result = summary Spec.sports_draft.
Proof.
  apply (llm_reply_fields_pass_through
           Spec.sports_json_loads Spec.sports_chat Spec.plain_transcript
           Spec.sports_draft ["one"; "two"; "three"; "four"; "five"]); reflexivity.
Defined.

Lemma analysis_falls_back_when_model_fails_witness :
  analyze_transcript_content Spec.sports_json_loads (Some (fun _ => None))
                             Spec.plain_transcript
  = analyze_basic_content Spec.plain_transcript.
Proof.
  apply (analysis_falls_back_when_model_fails
           Spec.sports_json_loads (Some (fun _ => None)) Spec.plain_transcript).
  intros chat draft [= <-]. discriminate.
Defined.

Lemma llm_counts_on_truncated_transcript_witness :
  String.length (truncated Spec.plain_transcript) <= 12000 + 3.
Proof.
  eapply (llm_counts_on_truncated_transcript
            Spec.sports_json_loads Spec.sports_chat Spec.plain_transcript).
  reflexivity.
Defined.

End AnalysisPaths.

(** ** [main.py]: the video address *)
Section VideoAddress.
Import Main Notions.

Lemma id_run_chars (s : string) : forallb id_char (list_ascii_of_string (id_run s)) = true.
Proof.
  induction s as [|c s IH]; [done|]. simpl.
  destruct (id_char c) eqn:Hc; [|done]. simpl. by rewrite Hc, IH.
Qed.

Lemma literal_then_id_shape (literal s g : string) :
  literal_then_id literal s = Some g -> video_id_shape g /\ String.prefix literal s = true.
Proof.
  unfold literal_then_id. destruct (String.prefix literal s); [|done].
  pose proof (id_run_chars (Py.slice_from (String.length literal) s)) as Hrun.
  destruct (id_run _) as [|c run]; [done|]. intros [= <-]. by repeat split.
Qed.

Lemma direct_match_at_shape (s g : string) :
  direct_match_at s = Some g ->
  video_id_shape g /\
  (String.prefix "youtube.com/watch?v=" s = true \/
   String.prefix "youtu.be/" s = true \/
   String.prefix "youtube.com/embed/" s = true).
Proof.
  unfold direct_match_at.
  destruct (literal_then_id "youtube.com/watch?v=" s) as [g1|] eqn:H1.
  { intros [= <-]. apply literal_then_id_shape in H1 as [? ?]. auto. }
  destruct (literal_then_id "youtu.be/" s) as [g2|] eqn:H2.
  { intros [= <-]. apply literal_then_id_shape in H2 as [? ?]. auto. }
  intros H3. apply literal_then_id_shape in H3 as [? ?]. auto.
Qed.

Lemma skip_then_v_shape (s g : string) : skip_then_v s = Some g -> video_id_shape g.
Proof.
  induction s as [|c s IH]; simpl.
  - intros Hg. by apply literal_then_id_shape in Hg as [? _].
  - destruct (Ascii.eqb c "010").
    + intros Hg. by apply literal_then_id_shape in Hg as [? _].
    + destruct (skip_then_v s) as [g'|]; [intros [= <-]; by apply IH|].
      intros Hg. by apply literal_then_id_shape in Hg as [? _].
Qed.

Lemma query_match_at_shape (s g : string) :
  query_match_at s = Some g ->
  video_id_shape g /\ String.prefix "youtube.com/watch?" s = true.
Proof.
  unfold query_match_at. destruct (String.prefix _ s); [|done].
  intros Hg. split; [|done]. by eapply skip_then_v_shape.
Qed.

Lemma re_search_cons (match_at : string -> option string) (c : ascii) (s : string) :
  re_search match_at (String c s)
  = match match_at (String c s) with
    | Some g => Some g
    | None => re_search match_at s
    end.
Proof. reflexivity. Qed.

(** A successful search matched at the head of some suffix. *)
Lemma re_search_found (match_at : string -> option string) (P : string -> string -> Prop) :
  (forall s g, match_at s = Some g -> P s g) ->
  forall s g, re_search match_at s = Some g ->
              exists pre rest, s = pre +:+ rest /\ P rest g.
Proof.
  intros Hat. induction s as [|c s IH]; intros g.
  - simpl. destruct (match_at EmptyString) eqn:Hm; [|done].
    intros [= <-]. exists EmptyString, EmptyString. split; [done|]. by apply Hat.
  - rewrite re_search_cons. destruct (match_at (String c s)) eqn:Hm.
    + intros [= <-]. exists EmptyString, (String c s). split; [done|]. by apply Hat.
    + intros Hg. destruct (IH g Hg) as (pre & rest & -> & HP).
      by exists (String c pre), rest.
Qed.

Lemma prefix_of_suffix_contains (literal pre rest : string) :
  String.prefix literal rest = true -> Py.contains literal (pre +:+ rest) = true.
Proof.
  rewrite prefix_app, contains_app. intros [t ->]. by exists pre, t.
Qed.

Lemma extract_video_id_found (url id : string) :
  extract_video_id url = Some id ->
  video_id_shape id /\
  (Py.contains "youtube.com/watch?" url = true \/
   Py.contains "youtu.be/" url = true \/
   Py.contains "youtube.com/embed/" url = true).
Proof.
  unfold extract_video_id.
  destruct (re_search direct_match_at url) as [g|] eqn:Hdirect.
  - intros [= <-].
    destruct (re_search_found direct_match_at
                (fun s g => direct_match_at s = Some g) (fun s g H => H) url g Hdirect)
      as (pre & rest & -> & Hat).
    apply direct_match_at_shape in Hat as [Hshape [Hp|[Hp|Hp]]]; split; try done.
    + left. apply prefix_of_suffix_contains.
      apply prefix_app in Hp as [t ->]. apply prefix_app. by exists ("v=" +:+ t).
    + right; left. by apply prefix_of_suffix_contains.
    + right; right. by apply prefix_of_suffix_contains.
  - intros Hquery.
    destruct (re_search_found query_match_at
                (fun s g => query_match_at s = Some g) (fun s g H => H) url id Hquery)
      as (pre & rest & -> & Hat).
    apply query_match_at_shape in Hat as [Hshape Hp]. split; [done|].
    left. by apply prefix_of_suffix_contains.
Qed.

(** X11: an identifier returned by [extract_video_id] is not empty and
    has none of the characters ampersand, line feed, question mark
    and hash. *)
Theorem video_id_is_well_formed (url id : string) :
  extract_video_id url = Some id ->
  id <> EmptyString /\ forallb id_char (list_ascii_of_string id) = true.
Proof. intros Hid. by apply extract_video_id_found in Hid as [? _]. Qed.

(** X12: [extract_video_id] raises on every address that contains none
    of the three address forms. *)
Theorem url_without_youtube_address_is_rejected (url : string) :
  Py.contains "youtube.com/watch?" url = false ->
  Py.contains "youtu.be/" url = false ->
  Py.contains "youtube.com/embed/" url = false ->
  extract_video_id url = None.
Proof.
  intros Hw Hb He. destruct (extract_video_id url) as [id|] eqn:Hid; [|done].
  apply extract_video_id_found in Hid as [_ [H|[H|H]]]; congruence.
Qed.

Lemma id_run_app (id tail : string) :
  forallb id_char (list_ascii_of_string id) = true ->
  id_run tail = EmptyString ->
  id_run (id +:+ tail) = id.
Proof.
  intros Hid Htail. induction id as [|c id IH]; [done|].
  simpl in Hid. apply andb_true_iff in Hid as [Hc Hid].
  rewrite string_app_cons. simpl. by rewrite Hc, IH.
Qed.

Lemma literal_then_id_app (literal id tail : string) :
  video_id_shape id -> id_run tail = EmptyString ->
  literal_then_id literal (literal +:+ id +:+ tail) = Some id.
Proof.
  intros [Hne Hid] Htail. unfold literal_then_id.
  assert (String.prefix literal (literal +:+ id +:+ tail) = true) as ->
    by (apply prefix_app; eauto).
  assert (Py.slice_from (String.length literal) (literal +:+ id +:+ tail)
          = id +:+ tail) as ->.
  { clear. induction literal as [|c l IH]; [by destruct (id +:+ tail)|].
    by rewrite string_app_cons. }
  rewrite id_run_app by done. by destruct id.
Qed.

Lemma re_search_head (match_at : string -> option string) (s g : string) :
  match_at s = Some g -> re_search match_at s = Some g.
Proof. intros Hm. destruct s; simpl; by rewrite Hm. Qed.

Lemma direct_match_at_literal (literal id tail : string) :
  literal_then_id literal (literal +:+ id +:+ tail) = Some id ->
  literal = "youtube.com/watch?v=" \/ literal = "youtu.be/"
  \/ literal = "youtube.com/embed/" ->
  direct_match_at (literal +:+ id +:+ tail) = Some id.
Proof.
  intros Hlit [ -> | [ -> | -> ] ]; unfold direct_match_at.
  - by rewrite Hlit.
  - rewrite Hlit.
    by assert (literal_then_id "youtube.com/watch?v="
                 ("youtu.be/" +:+ id +:+ tail) = None) as -> by reflexivity.
  - rewrite Hlit.
    assert (literal_then_id "youtube.com/watch?v="
              ("youtube.com/embed/" +:+ id +:+ tail) = None) as -> by reflexivity.
    by assert (literal_then_id "youtu.be/"
                 ("youtube.com/embed/" +:+ id +:+ tail) = None) as -> by reflexivity.
Qed.

(** X13: for a well-formed identifier, the watch, short and embed
    addresses built from it, followed by anything that starts with a
    terminating character (or by nothing), give the identifier back. *)
Theorem video_id_round_trip (id tail : string) :
  id <> EmptyString ->
  forallb id_char (list_ascii_of_string id) = true ->
  id_run tail = EmptyString ->
  extract_video_id ("https://www.youtube.com/watch?v=" +:+ id +:+ tail) = Some id /\
  extract_video_id ("https://youtu.be/" +:+ id +:+ tail) = Some id /\
  extract_video_id ("https://www.youtube.com/embed/" +:+ id +:+ tail) = Some id.
Proof.
  intros Hne Hid Htail.
  assert (video_id_shape id) as Hshape by done.
  pose proof (literal_then_id_app "youtube.com/watch?v=" id tail Hshape Htail) as Hwatch.
  pose proof (literal_then_id_app "youtu.be/" id tail Hshape Htail) as Hshort.
  pose proof (literal_then_id_app "youtube.com/embed/" id tail Hshape Htail) as Hembed.
  unfold extract_video_id. split; [|split].
  - change ("https://www.youtube.com/watch?v=" +:+ id +:+ tail)
      with ("https://www." +:+ "youtube.com/watch?v=" +:+ id +:+ tail).
    do 12 (rewrite string_app_cons, re_search_cons;
           match goal with
           | |- context [direct_match_at ?s] =>
               assert (direct_match_at s = None) as -> by reflexivity
           end).
    rewrite string_app_nil_l, (re_search_head _ _ id); [done|].
    apply direct_match_at_literal; auto.
  - change ("https://youtu.be/" +:+ id +:+ tail)
      with ("https://" +:+ "youtu.be/" +:+ id +:+ tail).
    do 8 (rewrite string_app_cons, re_search_cons;
          match goal with
          | |- context [direct_match_at ?s] =>
              assert (direct_match_at s = None) as -> by reflexivity
          end).
    rewrite string_app_nil_l, (re_search_head _ _ id); [done|].
    apply direct_match_at_literal; auto.
  - change ("https://www.youtube.com/embed/" +:+ id +:+ tail)
      with ("https://www." +:+ "youtube.com/embed/" +:+ id +:+ tail).
    do 12 (rewrite string_app_cons, re_search_cons;
           match goal with
           | |- context [direct_match_at ?s] =>
               assert (direct_match_at s = None) as -> by reflexivity
           end).
    rewrite string_app_nil_l, (re_search_head _ _ id); [done|].
    apply direct_match_at_literal; auto.
Qed.

Lemma video_id_is_well_formed_witness :
  "dQw4w9WgXcQ" <> EmptyString /\
  forallb id_char (list_ascii_of_string "dQw4w9WgXcQ") = true.
Proof.
  apply (video_id_is_well_formed
           "https://www.youtube.com/watch?feature=share&v=dQw4w9WgXcQ#t=1").
  reflexivity.
Defined.

Lemma url_without_youtube_address_is_rejected_witness :
  extract_video_id "https://vimeo.com/1234" = None.
Proof.
  apply (url_without_youtube_address_is_rejected "https://vimeo.com/1234");
    reflexivity.
Defined.

Lemma video_id_round_trip_witness :
  extract_video_id ("https://www.youtube.com/watch?v=" +:+ "dQw4w9WgXcQ" +:+ "&t=42")
  = Some "dQw4w9WgXcQ".
Proof.
  apply (video_id_round_trip "dQw4w9WgXcQ" "&t=42"); [discriminate|reflexivity..].
Defined.

End VideoAddress.

(** ** [services/vector_db.py]: image categories and the answer of the index *)
Section IndexAnswers.
Import VectorIconService Notions.

Lemma first_category_business (all_text : string) :
  Py.contains "work" all_text = true ->
  first_category all_text category_keywords = "business".
Proof.
  intros Hwork. unfold category_keywords, first_category.
  assert (existsb (fun word => Py.contains word all_text)
                  ["business"; "office"; "work"; "corporate"; "meeting"; "deal";
                   "plan"; "analytics"] = true) as ->; [|done].
  apply existsb_exists. exists "work". split; [|done]. simpl. auto.
Qed.

Lemma first_category_technology (all_text : string) :
  Py.contains "ai" all_text = true ->
  first_category all_text category_keywords = "business" \/
  first_category all_text category_keywords = "technology".
Proof.
  intros Hai. unfold category_keywords, first_category.
  destruct (existsb _ ["business"; "office"; "work"; "corporate"; "meeting"; "deal";
                       "plan"; "analytics"]); [by left|].
  assert (existsb (fun word => Py.contains word all_text)
                  ["tech"; "computer"; "digital"; "ai"; "robot"; "code"; "data";
                   "cyber"] = true) as ->; [|by right].
  apply existsb_exists. exists "ai". split; [|done]. simpl. auto.
Qed.

(** X14: [_determine_category] returns the first category of the table
    with a word occurring in the text, so a file name containing
    network is a business image (it contains work) and one containing
    email is a business or technology image (it contains ai), although
    both words are listed under communication. *)
Theorem network_and_email_are_never_communication
    (filename : string) (keywords : list string) :
  (Py.contains "network" (Py.lower filename) = true ->
   _determine_category filename keywords = "business") /\
  (Py.contains "email" (Py.lower filename) = true ->
   _determine_category filename keywords = "business" \/
   _determine_category filename keywords = "technology").
Proof.
  unfold _determine_category. cbv zeta. split; intros Hin.
  - apply first_category_business, contains_in_left.
    by apply (contains_part "net" "work").
  - apply first_category_technology, contains_in_left.
    apply (contains_part "em" "ail") in Hin.
    by apply (contains_front "ai" "l").
Qed.

Lemma network_and_email_are_never_communication_witness :
  _determine_category "Social_Network" (image_keywords "Social_Network") = "business".
Proof.
  apply (network_and_email_are_never_communication
           "Social_Network" (image_keywords "Social_Network")).
  reflexivity.
Defined.

Lemma first_row_at_short {A} (row : list A) (rows : list (list A)) (i : nat) (dflt : A) :
  length row <= i -> first_row_at (Some (row :: rows)) i dflt = None.
Proof. intros Hi. simpl. by apply lookup_ge_None. Qed.

(** X15: when the answer of the index has fewer metadata or fewer
    distances than hits, formatting raises and the ranker returns the
    placeholder icons. *)
Theorem short_rows_give_placeholders
    (query : Collection) (content : string) (category : option string) (limit : Z)
    (results : QueryResult) (hits : list string) (others : list (list string)) :
  query content (where_filter category) limit = Some results ->
  ids results = hits :: others ->
  (exists row rows, metadatas results = Some (row :: rows) /\ length row < length hits) \/
  (exists row rows, distances results = Some (row :: rows) /\ length row < length hits) ->
  find_relevant_icons (Some query) content category limit = _get_fallback_icons limit.
Proof.
  intros Hq Hids Hshort. unfold find_relevant_icons. rewrite Hq. simpl.
  assert (format_results results = None) as ->; [|done].
  unfold format_results. rewrite Hids. apply mapM_None, Exists_exists.
  destruct Hshort as [(row & rows & Hrow & Hlen)|(row & rows & Hrow & Hlen)];
    exists (length row); (split; [apply elem_of_seq; lia|]); unfold format_hit.
  - by rewrite Hrow, first_row_at_short.
  - rewrite Hrow, (first_row_at_short row) by done.
    by destruct (first_row_at (metadatas results) (length row) empty_metadata).
Qed.

Lemma short_rows_give_placeholders_witness :
  find_relevant_icons (Some Notions.ragged_index) "business growth" None 3
  = _get_fallback_icons 3.
Proof.
  apply (short_rows_give_placeholders
           Notions.ragged_index "business growth" None 3
           {| ids := [["chart_a"; "chart_b"]]; metadatas := None;
              distances := Some [[(1 # 4)%Q]] |}
           ["chart_a"; "chart_b"] []); [reflexivity..|].
  right. exists [(1 # 4)%Q], []. split; [reflexivity|simpl; lia].
Defined.




End IndexAnswers.

(** ** [services/template_service.py]: reading, saving and provisioning *)
Section TemplateTables.
Import TemplateService Notions.

Lemma compare_refl (s : string) : String.compare s s = Eq.
Proof.
  pose proof (String.compare_antisym s s) as H.
  by destruct (String.compare s s).
Qed.

Lemma compare_lt_gt (a b : string) : String.compare a b = Lt -> String.compare b a = Gt.
Proof. intros H. by rewrite String.compare_antisym, H. Qed.

Lemma compare_lt_trans (a b c : string) :
  String.compare a b = Lt -> String.compare b c = Lt -> String.compare a c = Lt.
Proof.
  intros Hab Hbc.
  assert (String.le a c) as Hac.
  { transitivity b; unfold String.le, String.leb; [by rewrite Hab|by rewrite Hbc]. }
  unfold String.le, String.leb in Hac.
  destruct (String.compare a c) eqn:Hcmp; [|done|done].
  apply String.compare_eq_iff in Hcmp as ->.
  apply compare_lt_gt in Hab. congruence.
Qed.

Lemma coordinate_le_total : Total coordinate_le.
Proof.
  intros r1 r2. unfold coordinate_le, coordinate_leb.
  rewrite (String.compare_antisym (element_type r2) (element_type r1)).
  destruct (String.compare (element_type r1) (element_type r2)); simpl; [|by left|by right].
  destruct (Z.leb_spec (element_index r1) (element_index r2)); [by left|right].
  apply Is_true_true, Z.leb_le. lia.
Qed.

Lemma coordinate_le_trans : Transitive coordinate_le.
Proof.
  intros r1 r2 r3. unfold coordinate_le, coordinate_leb.
  destruct (String.compare (element_type r1) (element_type r2)) eqn:H12; [| |done].
  - apply String.compare_eq_iff in H12 as ->.
    destruct (String.compare (element_type r2) (element_type r3)); [|done..].
    intros H1%Is_true_true%Z.leb_le H2%Is_true_true%Z.leb_le.
    apply Is_true_true, Z.leb_le. lia.
  - intros _.
    destruct (String.compare (element_type r2) (element_type r3)) eqn:H23; [| |done].
    + apply String.compare_eq_iff in H23 as <-. by rewrite H12.
    + by rewrite (compare_lt_trans _ _ _ H12 H23).
Qed.

Lemma order_by_sorted (rows : list CoordinateRow) :
  StronglySorted coordinate_le (order_by_type_index rows) /\
  order_by_type_index rows ≡ₚ rows.
Proof.
  unfold order_by_type_index. split.
  - apply (@Sorted_StronglySorted _ coordinate_le coordinate_le_trans).
    apply (@Sorted_merge_sort _ coordinate_le _ coordinate_le_total).
  - apply (merge_sort_Permutation coordinate_le).
Qed.

Lemma group_coordinate_lookup (m : gmap string (list Coord)) (r : CoordinateRow)
    (kind : string) :
  group_coordinate m r !! kind
  = if String.eqb (element_type r) kind
    then Some (default [] (m !! kind) ++ [coord_of_row r])
    else m !! kind.
Proof.
  unfold group_coordinate.
  destruct (String.eqb_spec (element_type r) kind) as [<-|Hne].
  - by rewrite lookup_insert_eq.
  - by rewrite lookup_insert_ne.
Qed.

(** The grouping loop, one kind at a time: the rows of the kind, in
    their order, after what the kind already had. *)
Lemma group_fold_lookup (rows : list CoordinateRow) (kind : string) :
  forall m : gmap string (list Coord),
    fold_left group_coordinate rows m !! kind
    = match List.filter (fun r => String.eqb (element_type r) kind) rows with
      | [] => m !! kind
      | picked => Some (default [] (m !! kind) ++ (coord_of_row <$> picked))
      end.
Proof.
  induction rows as [|r rows IH]; intros m; [done|].
  simpl. rewrite IH, group_coordinate_lookup.
  destruct (String.eqb (element_type r) kind); [|done].
  simpl. destruct (List.filter _ rows) as [|r' picked]; [done|].
  simpl. by rewrite <- app_assoc.
Qed.

Lemma StronglySorted_list_filter {A} (R : relation A) (f : A -> bool) (l : list A) :
  StronglySorted R l -> StronglySorted R (List.filter f l).
Proof.
  induction 1 as [|x l Hl IH Hx]; simpl; [constructor|].
  destruct (f x); [|done]. constructor; [done|].
  apply Forall_forall. intros y Hy.
  apply list_elem_of_In, filter_In in Hy as [Hy _].
  by apply (proj1 (Forall_forall _ _) Hx), list_elem_of_In.
Qed.

Lemma list_filter_Permutation {A} (f : A -> bool) (l k : list A) :
  l ≡ₚ k -> List.filter f l ≡ₚ List.filter f k.
Proof.
  induction 1 as [|x l k _ IH|x y l|l k j _ IH1 _ IH2]; simpl.
  - done.
  - destruct (f x); [by constructor|done].
  - destruct (f x), (f y); try done. apply perm_swap.
  - by etrans.
Qed.

Lemma same_kind_index_sorted (kind : string) (rows : list CoordinateRow) :
  StronglySorted coordinate_le rows ->
  StronglySorted index_le
    (coord_of_row <$> List.filter (fun r => String.eqb (element_type r) kind) rows).
Proof.
  intros Hsorted.
  apply (StronglySorted_list_filter _ (fun r => String.eqb (element_type r) kind))
    in Hsorted.
  assert (Forall (fun r => element_type r = kind)
                 (List.filter (fun r => String.eqb (element_type r) kind) rows)) as Hkind.
  { apply Forall_forall. intros r Hr.
    apply list_elem_of_In, filter_In in Hr as [_ Hr]. by apply String.eqb_eq. }
  induction Hsorted as [|r l Hl IH Hr]; simpl; [constructor|].
  apply Forall_cons in Hkind as [Hk Hkind]. constructor; [by apply IH|].
  apply Forall_fmap, Forall_forall. intros r' Hr'.
  pose proof (proj1 (Forall_forall _ _) Hr r' Hr') as Hle.
  pose proof (proj1 (Forall_forall _ _) Hkind r' Hr') as Hk'.
  unfold coordinate_le, coordinate_leb in Hle. rewrite Hk, Hk', compare_refl in Hle.
  unfold index_le. simpl. by apply Is_true_true, Z.leb_le in Hle.
Qed.

(** X17: each list of slots returned by [get_template_coordinates] is not
    empty, holds exactly the rows of the coordinate table of that
    template and kind, and is in ascending order of the element index. *)
Theorem slots_come_sorted_from_the_table
    (d : Database) (tid kind : string) (td : TemplateData) (slots : list Coord) :
  get_template_coordinates (Some d) tid = Some td ->
  td_coordinates td !! kind = Some slots ->
  StronglySorted index_le slots /\
  slots ≡ₚ coord_of_row <$> rows_of d tid kind /\
  slots <> [].
Proof.
  unfold get_template_coordinates.
  destruct (List.find _ (templates d)) as [template|]; [|done].
  intros [= <-]. cbn [td_coordinates]. rewrite group_fold_lookup, lookup_empty.
  destruct (order_by_sorted
              (List.filter (fun r => String.eqb (template_id r) tid)
                           (template_icon_coordinates d))) as [Hsorted Hperm].
  pose proof (same_kind_index_sorted kind _ Hsorted) as Hindex.
  pose proof (list_filter_Permutation
                (fun r => String.eqb (element_type r) kind) _ _ Hperm) as Hrows.
  destruct (List.filter _ (order_by_type_index _)) as [|r picked] eqn:Hpicked; [done|].
  intros [= <-]. simpl. split; [done|]. split; [|done].
  unfold rows_of. by rewrite <- Hrows.
Qed.

Lemma find_app_l {A} (f : A -> bool) (l k : list A) (x : A) :
  List.find f l = Some x -> List.find f (l ++ k) = Some x.
Proof. induction l as [|a l IH]; [done|]. simpl. by destruct (f a). Qed.

Lemma find_app_r {A} (f : A -> bool) (l k : list A) :
  List.find f l = None -> List.find f (l ++ k) = List.find f k.
Proof. induction l as [|a l IH]; [done|]. simpl. by destruct (f a). Qed.

Lemma find_absent (tid : string) (rows : list TemplateRow) :
  List.find (fun t => String.eqb (t_id t) tid) rows = None <->
  Forall (fun t => t_id t <> tid) rows.
Proof.
  induction rows as [|t rows IH]; simpl; [by split|].
  destruct (String.eqb_spec (t_id t) tid) as [Heq|Hne].
  - split; [done|]. intros Hall. by apply Forall_cons in Hall as [? _].
  - rewrite IH, Forall_cons. split; [by split|by intros [_ ?]].
Qed.

Lemma list_filter_none {A} (f : A -> bool) (l : list A) :
  Forall (fun x => f x = false) l -> List.filter f l = [].
Proof. induction 1 as [|x l Hx _ IH]; [done|]. simpl. by rewrite Hx. Qed.

Lemma list_filter_all {A} (f : A -> bool) (l : list A) :
  Forall (fun x => f x = true) l -> List.filter f l = l.
Proof. induction 1 as [|x l Hx _ IH]; [done|]. simpl. by rewrite Hx, IH. Qed.

(** An upsert for a slot of one template leaves the rows of the other
    templates as they are. *)
Lemma upsert_other_template (row : CoordinateRow) (tid : string)
    (rows : list CoordinateRow) :
  template_id row <> tid ->
  List.filter (fun r => String.eqb (template_id r) tid) (upsert_coordinate row rows)
  = List.filter (fun r => String.eqb (template_id r) tid) rows.
Proof.
  intros Hne. induction rows as [|r rows IH]; simpl.
  - by destruct (String.eqb_spec (template_id row) tid).
  - destruct (same_slot r row) eqn:Hsame; simpl; [|by rewrite IH].
    unfold same_slot in Hsame.
    apply andb_true_iff in Hsame as [[Hid _]%andb_true_iff _].
    apply String.eqb_eq in Hid.
    destruct (String.eqb_spec (template_id r) tid); [congruence|done].
Qed.

Lemma upsert_fold_other_template (tid tid' : string) (coords : list CoordinateInput) :
  tid <> tid' ->
  forall rows,
    List.filter (fun r => String.eqb (template_id r) tid')
      (fold_left (fun rows coord => upsert_coordinate (coordinate_row tid coord) rows)
                 coords rows)
    = List.filter (fun r => String.eqb (template_id r) tid') rows.
Proof.
  intros Hne. induction coords as [|c coords IH]; intros rows; [done|].
  simpl. rewrite IH. by apply upsert_other_template.
Qed.

(** X18: [save_template] does not change what [get_template_coordinates]
    returns for any other template id. *)
Theorem saving_leaves_other_templates_alone
    (now : string) (d : Database) (template_data : TemplateInput) (tid : string) :
  tid <> ti_id template_data ->
  get_template_coordinates (save_template now (Some d) template_data).2 tid
  = get_template_coordinates (Some d) tid.
Proof.
  intros Hne. unfold save_template.
  destruct (List.find _ (templates d)) as [existing|] eqn:Hfind; [done|].
  cbn [snd]. unfold get_template_coordinates.
  cbn [templates template_icon_coordinates template_color_schemes].
  rewrite upsert_fold_other_template by done.
  rewrite List.filter_app.
  rewrite (list_filter_none _ (_ <$> _)), app_nil_r.
  2:{ apply Forall_fmap, Forall_forall. intros s _. simpl.
      by apply String.eqb_neq. }
  destruct (List.find (fun t => String.eqb (t_id t) tid) (templates d))
    as [t|] eqn:Hold.
  - by rewrite (find_app_l _ _ _ _ Hold).
  - rewrite (find_app_r _ _ _ Hold). simpl.
    by destruct (String.eqb_spec (ti_id template_data) tid).
Qed.

Lemma saving_leaves_other_templates_alone_witness :
  get_template_coordinates
    (save_template "2024-02-02" (Some Spec.provisioned) Notions.poster_template).2
    "modern-business"
  = get_template_coordinates (Some Spec.provisioned) "modern-business".
Proof.
  apply (saving_leaves_other_templates_alone
           "2024-02-02" Spec.provisioned Notions.poster_template "modern-business").
  by vm_compute.
Defined.

Lemma upsert_fresh (row : CoordinateRow) (rows : list CoordinateRow) :
  Forall (fun r => same_slot r row = false) rows ->
  upsert_coordinate row rows = rows ++ [row].
Proof. induction 1 as [|r rows Hr _ IH]; [done|]. simpl. by rewrite Hr, IH. Qed.

Lemma same_slot_other_key (tid : string) (c1 c2 : CoordinateInput) :
  slot_key c1 <> slot_key c2 ->
  same_slot (coordinate_row tid c1) (coordinate_row tid c2) = false.
Proof.
  intros Hne. unfold same_slot, slot_key in *. simpl.
  destruct (String.eqb_spec (ci_element_type c1) (ci_element_type c2)) as [Ht|];
    [|by rewrite andb_false_r].
  destruct (Z.eqb_spec (ci_element_index c1) (ci_element_index c2)) as [Hi|];
    [|by rewrite andb_false_r].
  congruence.
Qed.

Lemma same_slot_other_template (r row : CoordinateRow) :
  template_id r <> template_id row -> same_slot r row = false.
Proof.
  intros Hne. unfold same_slot.
  by destruct (String.eqb_spec (template_id r) (template_id row)).
Qed.

(** On a table without rows of the template, coordinates with
    distinct slots are appended one after the other. *)
Lemma upsert_fold_fresh (tid : string) (rows : list CoordinateRow)
    (coords : list CoordinateInput) :
  Forall (fun r => template_id r <> tid) rows ->
  forall before,
    NoDup (slot_key <$> before ++ coords) ->
    fold_left (fun rows coord => upsert_coordinate (coordinate_row tid coord) rows)
              coords (rows ++ (coordinate_row tid <$> before))
    = rows ++ (coordinate_row tid <$> before ++ coords).
Proof.
  intros Hrows. induction coords as [|c coords IH]; intros before Hnodup.
  - by rewrite app_nil_r.
  - simpl. rewrite upsert_fresh.
    + rewrite <- app_assoc.
      replace ((coordinate_row tid <$> before) ++ [coordinate_row tid c])
        with (coordinate_row tid <$> before ++ [c]) by by rewrite fmap_app.
      rewrite IH; [by rewrite <- app_assoc|]. by rewrite <- app_assoc.
    + apply Forall_app. split.
      * eapply Forall_impl; [exact Hrows|]. intros r Hr.
        by apply same_slot_other_template.
      * apply Forall_fmap, Forall_forall. intros c' Hc'. simpl.
        apply same_slot_other_key. intros Hkey.
        rewrite fmap_app in Hnodup. apply NoDup_app in Hnodup as (_ & Hdisj & _).
        apply (Hdisj (slot_key c')); [by apply list_elem_of_fmap_2|].
        rewrite Hkey. simpl. left.
Qed.

Lemma list_filter_fmap {A B} (f : B -> bool) (g : A -> B) (l : list A) :
  List.filter f (g <$> l) = g <$> List.filter (fun x => f (g x)) l.
Proof.
  induction l as [|x l IH]; [done|]. simpl.
  destruct (f (g x)); simpl; [f_equal|]; exact IH.
Qed.

(** X19: a template whose values fit the columns, saved under a new id
    with distinct slots, is read back by [get_template_coordinates]:
    the name as given, width and height with the defaults 1200 and
    1800, the colour schemes given (in some order), and for each kind
    its coordinates in ascending index order (width and height 24
    where not given). *)
Theorem saved_template_is_read_back
    (now : string) (d : Database) (template_data : TemplateInput) :
  within_column_limits template_data = true ->
  Forall (fun t => t_id t <> ti_id template_data) (templates d) ->
  unreferenced d (ti_id template_data) ->
  NoDup (slot_key <$> default [] (ti_icon_coordinates template_data)) ->
  exists d' td,
    save_template now (Some d) template_data = (true, Some d') /\
    get_template_coordinates (Some d') (ti_id template_data) = Some td /\
    t_id (td_template td) = ti_id template_data /\
    t_name (td_template td) = ti_name template_data /\
    t_width (td_template td) = default 1200%Z (ti_width template_data) /\
    t_height (td_template td) = default 1800%Z (ti_height template_data) /\
    td_color_schemes td
    ≡ₚ color_scheme_row <$> default [] (ti_color_schemes template_data) /\
    forall kind,
      let wanted :=
        List.filter (fun c => String.eqb (ci_element_type c) kind)
                    (default [] (ti_icon_coordinates template_data)) in
      match td_coordinates td !! kind with
      | Some slots =>
          StronglySorted index_le slots /\
          slots ≡ₚ (fun c => coord_of_row (coordinate_row (ti_id template_data) c))
                   <$> wanted
      | None => wanted = []
      end.
Proof.
  intros _ Hfresh [Hcoords Hschemes] Hnodup.
  unfold save_template. rewrite (proj2 (find_absent _ _) Hfresh).
  eexists _, _. split; [reflexivity|].
  unfold get_template_coordinates.
  cbn [templates template_icon_coordinates template_color_schemes].
  rewrite (find_app_r _ _ _ (proj2 (find_absent _ _) Hfresh)). simpl List.find.
  rewrite String.eqb_refl. split; [reflexivity|].
  cbn [td_template td_color_schemes td_coordinates t_id t_name t_width t_height].
  do 4 (split; [done|]).
  pose proof (upsert_fold_fresh (ti_id template_data) _
                (default [] (ti_icon_coordinates template_data)) Hcoords [] Hnodup)
    as Hfold.
  simpl in Hfold. rewrite app_nil_r in Hfold. rewrite Hfold. clear Hfold.
  rewrite !List.filter_app.
  rewrite (list_filter_none _ (template_icon_coordinates d)),
          (list_filter_none _ (template_color_schemes d)); simpl app.
  2:{ eapply Forall_impl; [exact Hschemes|]. intros r Hr. by apply String.eqb_neq. }
  2:{ eapply Forall_impl; [exact Hcoords|]. intros r Hr. by apply String.eqb_neq. }
  rewrite !list_filter_all.
  2:{ apply Forall_fmap, Forall_forall. intros c _. apply String.eqb_refl. }
  2:{ apply Forall_fmap, Forall_forall. intros c _. apply String.eqb_refl. }
  split; [by rewrite <- list_fmap_compose|].
  intros kind. rewrite group_fold_lookup, lookup_empty.
  set (rows := coordinate_row (ti_id template_data)
               <$> default [] (ti_icon_coordinates template_data)).
  destruct (order_by_sorted rows) as [Hsorted Hperm].
  pose proof (same_kind_index_sorted kind _ Hsorted) as Hindex.
  pose proof (list_filter_Permutation
                (fun r => String.eqb (element_type r) kind) _ _ Hperm) as Hrows.
  subst rows. rewrite list_filter_fmap in Hrows. simpl in Hrows.
  destruct (List.filter _ (order_by_type_index _)) as [|r picked].
  - apply Permutation_nil_l in Hrows. symmetry in Hrows.
    by apply fmap_nil_inv in Hrows.
  - cbn [from_option]. rewrite app_nil_l. split; [done|].
    rewrite Hrows. by rewrite <- list_fmap_compose.
Qed.

Lemma saved_template_is_read_back_witness :
  exists d' td,
    save_template "2024-02-02" (Some Spec.provisioned) Notions.poster_template
    = (true, Some d') /\
    get_template_coordinates (Some d') "retro-poster" = Some td /\
    t_name (td_template td) = "Retro Poster" /\
    t_width (td_template td) = 1200%Z.
Proof.
  destruct (saved_template_is_read_back "2024-02-02" Spec.provisioned
                                        Notions.poster_template)
    as (d' & td & Hsave & Hget & _ & Hname & Hwidth & _).
  - reflexivity.
  - repeat constructor. by vm_compute.
  - split; repeat constructor; by vm_compute.
  - apply (bool_decide_unpack _). by vm_compute.
  - by exists d', td.
Defined.

Lemma slots_come_sorted_from_the_table_witness :
  StronglySorted index_le [Spec.slot 0 100 400] /\
  [Spec.slot 0 100 400] ≡ₚ coord_of_row <$> rows_of Spec.provisioned "modern-business" "key_point" /\
  [Spec.slot 0 100 400] <> [].
Proof.
  apply (slots_come_sorted_from_the_table
           Spec.provisioned "modern-business" "key_point"
           (default Spec.three_slots
                    (get_template_coordinates (Some Spec.provisioned) "modern-business")));
    by vm_compute.
Defined.


Lemma save_template_noop (now : string) (d : Database) (t : TemplateInput) :
  present (ti_id t) d -> save_template now (Some d) t = (true, Some d).
Proof. unfold present, save_template. by intros [row ->]. Qed.

Lemma save_template_present (now : string) (d : Database) (t : TemplateInput) :
  exists d',
    (save_template now (Some d) t).2 = Some d' /\
    present (ti_id t) d' /\
    forall tid, present tid d -> present tid d'.
Proof.
  unfold save_template, present.
  destruct (List.find _ (templates d)) as [row|] eqn:Hfind.
  - exists d. rewrite Hfind. by repeat split.
  - eexists. split; [reflexivity|]. cbn [templates]. split.
    + rewrite (find_app_r _ _ _ Hfind). simpl. by rewrite String.eqb_refl.
    + intros tid [row Hrow]. by rewrite (find_app_l _ _ _ _ Hrow).
Qed.

Lemma save_all_present (now : string) (ts : list TemplateInput) :
  forall d,
    exists d',
      fold_left (fun db t => (save_template now db t).2) ts (Some d) = Some d' /\
      Forall (fun t => present (ti_id t) d') ts /\
      forall tid, present tid d -> present tid d'.
Proof.
  induction ts as [|t ts IH]; intros d; [by exists d|].
  cbn [fold_left]. destruct (save_template_present now d t) as (d1 & -> & Ht & Hkeep).
  destruct (IH d1) as (d' & -> & Hts & Hkeep').
  exists d'. split; [done|]. split; [|by auto]. constructor; by auto.
Qed.

Lemma save_all_noop (now : string) (ts : list TemplateInput) (d : Database) :
  Forall (fun t => present (ti_id t) d) ts ->
  fold_left (fun db t => (save_template now db t).2) ts (Some d) = Some d.
Proof.
  induction 1 as [|t ts Ht _ IH]; [done|]. cbn [fold_left].
  by rewrite save_template_noop.
Qed.

Lemma save_all_unreachable (now : string) (ts : list TemplateInput) :
  fold_left (fun db t => (save_template now db t).2) ts None = None.
Proof. by induction ts. Qed.

(** X20: [_init_default_templates] is idempotent: run a second time, at
    any later moment, it leaves the store as it is. *)
Theorem default_templates_are_provisioned_once (now now' : string) (db : option Database) :
  _init_default_templates now' (_init_default_templates now db)
  = _init_default_templates now db.
Proof.
  unfold _init_default_templates. destruct db as [d|].
  - destruct (save_all_present now default_templates d) as (d' & -> & Hall & _).
    by apply save_all_noop.
  - by rewrite !save_all_unreachable.
Qed.

End TemplateTables.

(** ** Generation on the stored templates *)
Section Generation.
Import Main VectorIconService TemplateService InfographicGenerator Spec Notions.

Lemma find_id (tid : string) (rows : list TemplateRow) (t : TemplateRow) :
  List.find (fun t => String.eqb (t_id t) tid) rows = Some t -> t_id t = tid.
Proof.
  intros H. apply find_some in H as [_ H]. by apply String.eqb_eq.
Qed.

(** X21: a result of [generate_infographic_data] is always for the
    asked template: the store was reached and holds the template, and
    the result carries the row of that template, its dimensions and
    the content analysis unchanged. *)
Theorem generated_layout_is_for_the_asked_template
    (db : option Database) (collection : option Collection)
    (content_analysis : Analysis) (tid : string) (ig : InfographicData) :
  generate_infographic_data db collection content_analysis tid = Some ig ->
  (exists d, db = Some d /\ present tid d) /\
  t_id (ig_template ig) = tid /\
  ig_content ig = content_analysis /\
  ig_dimensions ig = (t_width (ig_template ig), t_height (ig_template ig)).
Proof.
  unfold generate_infographic_data, get_template_coordinates, present.
  destruct db as [d|]; [|done].
  destruct (List.find _ (templates d)) as [t|] eqn:Hfind; [|done].
  intros [= <-]. cbn [ig_template ig_content ig_dimensions td_template].
  split; [exists d; split; [done|]; by rewrite Hfind|].
  split; [by eapply find_id|done].
Qed.

Lemma generated_layout_is_for_the_asked_template_witness :
  exists ig,
    generate_infographic_data (fresh_store "2024-01-01") None Spec.five_points
                              "modern-business" = Some ig /\
    t_id (ig_template ig) = "modern-business" /\
    ig_content ig = Spec.five_points.
Proof.
  destruct (generate_infographic_data (fresh_store "2024-01-01") None Spec.five_points
                                      "modern-business") as [ig|] eqn:Hgen;
    [|by vm_compute in Hgen].
  exists ig. split; [done|].
  destruct (generated_layout_is_for_the_asked_template _ _ _ _ _ Hgen)
    as (_ & Hid & Hcontent & _).
  by split.
Defined.

Lemma fresh_store_layout (now : string) :
  exists td,
    get_template_coordinates (fresh_store now) "modern-business" = Some td /\
    length (default [] (td_coordinates td !! "key_point")) = 5 /\
    length (default [] (td_coordinates td !! "statistic")) = 2 /\
    default [] (td_coordinates td !! "quote") = [] /\
    t_width (td_template td) = 1200%Z /\ t_height (td_template td) = 1800%Z.
Proof.
  eexists. split; [vm_compute; reflexivity|].
  repeat split; vm_compute; reflexivity.
Qed.

Lemma transcript_key_points_bounds json_loads openai_client transcript_text :
  5 <= length (default [] (keyPoints
         (analyze_transcript_content json_loads openai_client transcript_text))) <= 6.
Proof.
  unfold analyze_transcript_content.
  destruct openai_client as [chat|]; [|apply basic_key_points_bounds].
  destruct (analyze_with_openai json_loads chat transcript_text) eqn:H;
    [by eapply openai_key_points_bounds|apply basic_key_points_bounds].
Qed.

(** X22: on a store provisioned from empty, every content analysis is
    laid out on modern-business, whatever the index answers: the
    first five key points (all of them when there are fewer), the
    first two statistics, no quote, and the dimensions 1200 by 1800. *)
Theorem default_layout_of_a_fresh_store
    (now : string) (collection : option Collection) (content : Analysis) :
  exists ig,
    generate_infographic_data (fresh_store now) collection content "modern-business"
    = Some ig /\
    pt_text <$> pe_key_points (ig_positioned_elements ig)
    = take 5 (default [] (keyPoints content)) /\
    ps_data <$> pe_statistics (ig_positioned_elements ig)
    = take 2 (default [] (statistics content)) /\
    pe_quotes (ig_positioned_elements ig) = [] /\
    ig_dimensions ig = (1200%Z, 1800%Z).
Proof.
  destruct (fresh_store_layout now) as (td & Htd & Hkp & Hst & Hq & Hw & Hh).
  unfold generate_infographic_data. rewrite Htd.
  eexists. split; [reflexivity|].
  cbn [ig_positioned_elements ig_dimensions _map_icons_to_positions
       pe_key_points pe_statistics pe_quotes].
  set (icons := find_relevant_icons _ _ _ _).
  rewrite map_key_points_eq, map_statistics_eq, map_quotes_eq, Hq, Hw, Hh.
  split; [|split; [|split]].
  - destruct (imap_zip_shape (key_point_at icons) pt_index pt_text pt_position
                (default [] (keyPoints content))
                (default [] (td_coordinates td !! "key_point")))
      as (_ & _ & Htext & _); [done..|].
    cbv zeta in Htext. rewrite Htext. by rewrite Hkp.
  - destruct (imap_zip_shape (statistic_at icons) ps_index ps_data ps_position
                (default [] (statistics content))
                (default [] (td_coordinates td !! "statistic")))
      as (_ & _ & Hdata & _); [done..|].
    cbv zeta in Hdata. rewrite Hdata. by rewrite Hst.
  - by rewrite zip_with_nil_r.
  - done.
Qed.

End Generation.

(** ** [main.py]: the job registries *)
Section JobRegistry.
Import Main VectorIconService TemplateService InfographicGenerator Jobs Spec Notions.

(** X23: a job whose address is invalid or whose transcript cannot be
    fetched or is blank ends with status error (progress 0 for an
    invalid address, 25 otherwise) and leaves the stored infographics
    as they were. *)
Theorem failed_job_reports_error_and_stores_nothing
    (json_loads : string -> option Analysis)
    (openai_client : option (string -> option string))
    (fetch_transcript : string -> TranscriptFetch)
    (db : option Database) (collection : option Collection) (now : string)
    (regs : Registries) (job_id url : string) :
  job_fails fetch_transcript url ->
  let regs' := process_youtube_video json_loads openai_client fetch_transcript
                                     db collection now regs job_id url in
  (exists st, get_processing_status regs' job_id = Some st /\
              status st = "error" /\
              progress st = (if extract_video_id url is Some _ then 25 else 0)%Z /\
              (extract_video_id url = None -> message st = "Invalid YouTube URL")) /\
  generated_infographics regs' = generated_infographics regs.
Proof.
  unfold job_fails, process_youtube_video, get_processing_status.
  destruct (extract_video_id url) as [video_id|].
  - destruct (fetch_transcript video_id) as [| |text].
    + intros _. cbn. rewrite lookup_insert_eq. split; [|done].
      eexists. split; [done|]. by repeat split.
    + intros _. cbn. rewrite lookup_insert_eq. split; [|done].
      eexists. split; [done|]. by repeat split.
    + intros ->. rewrite String.eqb_refl. cbn. rewrite lookup_insert_eq.
      split; [|done]. eexists. split; [done|]. by repeat split.
  - intros _. cbn. rewrite lookup_insert_eq. split; [|done].
    eexists. split; [done|]. by repeat split.
Qed.

Lemma transcript_excerpt_length (text : string) :
  String.length (if 500 <? String.length text
                 then Py.slice_to 500 text +:+ "..." else text) <= 503.
Proof.
  destruct (Nat.ltb_spec 500 (String.length text)) as [Hlt|Hge]; [|lia].
  rewrite string_length_app, length_slice_to.
  change (String.length "...") with 3. lia.
Qed.

(** X24: a job with a valid address and a transcript that is not blank,
    on which the analysis returns, ends completed at progress 100, and
    its record holds the video id, the analysis with five or six key
    points, the layout generated for modern-business, and an excerpt
    of the transcript of at most 503 characters. *)
Theorem finished_job_is_stored
    (json_loads : string -> option Analysis)
    (openai_client : option (string -> option string))
    (fetch_transcript : string -> TranscriptFetch)
    (db : option Database) (collection : option Collection) (now : string)
    (regs : Registries) (job_id url video_id transcript_text : string) :
  extract_video_id url = Some video_id ->
  fetch_transcript video_id = TranscriptText transcript_text ->
  Py.strip transcript_text <> EmptyString ->
  transcript_content_returns json_loads openai_client transcript_text = true ->
  let regs' := process_youtube_video json_loads openai_client fetch_transcript
                                     db collection now regs job_id url in
  let content := analyze_transcript_content json_loads openai_client transcript_text in
  (exists st, get_processing_status regs' job_id = Some st /\
              status st = "completed" /\ progress st = 100%Z) /\
  exists data,
    get_infographic regs' job_id = Some data /\
    jd_id data = job_id /\
    vm_id (jd_videoMetadata data) = video_id /\
    jd_analysis data = content /\
    5 <= length (default [] (keyPoints (jd_analysis data))) <= 6 /\
    jd_templateType data = Some "modern-business" /\
    jd_templateData data
    = generate_infographic_data db collection content "modern-business" /\
    String.length (jd_transcriptText data) <= 503 /\
    (String.length transcript_text <= 500 -> jd_transcriptText data = transcript_text).
Proof.
  intros Hid Hfetch Hstrip Hreturns regs' content. subst regs'.
  unfold process_youtube_video, get_processing_status, get_infographic.
  rewrite Hid, Hfetch, Hreturns.
  destruct (String.eqb_spec (Py.strip transcript_text) EmptyString) as [|_]; [done|].
  cbn [negb processing_jobs generated_infographics]. rewrite !lookup_insert_eq.
  split; [eexists; split; [done|]; by split|].
  eexists. split; [done|].
  cbn [jd_id jd_videoMetadata jd_analysis jd_templateType jd_templateData
       jd_transcriptText get_video_metadata vm_id].
  repeat split; try done.
  - apply transcript_key_points_bounds.
  - apply transcript_key_points_bounds.
  - apply transcript_excerpt_length.
  - intros Hshort. by destruct (Nat.ltb_spec 500 (String.length transcript_text)); [lia|].
Qed.

(** X25: running a job changes neither the status nor the infographic of
    any other job. *)
Theorem other_jobs_are_untouched
    (json_loads : string -> option Analysis)
    (openai_client : option (string -> option string))
    (fetch_transcript : string -> TranscriptFetch)
    (db : option Database) (collection : option Collection) (now : string)
    (regs : Registries) (job_id url other : string) :
  other <> job_id ->
  let regs' := process_youtube_video json_loads openai_client fetch_transcript
                                     db collection now regs job_id url in
  get_processing_status regs' other = get_processing_status regs other /\
  get_infographic regs' other = get_infographic regs other.
Proof.
  intros Hne. unfold process_youtube_video, get_processing_status, get_infographic.
  destruct (extract_video_id url) as [video_id|];
    [destruct (fetch_transcript video_id) as [| |text];
     [| |destruct (String.eqb _ _);
         [|destruct (transcript_content_returns _ _ _)]]|];
    cbn [negb set_status processing_jobs generated_infographics];
    rewrite ?lookup_insert_ne by done; done.
Qed.

(** X26: [generate_with_template] on a stored job returns the layout
    generated from the stored analysis, replaces the layout and the
    template type of the record and nothing else, and leaves the
    statuses and the other records alone. *)
Theorem retemplating_replaces_only_the_layout
    (db : option Database) (collection : option Collection)
    (regs : Registries) (job_id : string) (template_id : option string)
    (data : JobData) :
  get_infographic regs job_id = Some data ->
  let layout := template_id ≫= generate_infographic_data db collection (jd_analysis data) in
  exists regs',
    generate_with_template db collection regs (Some job_id) template_id
    = Some (layout, regs') /\
    processing_jobs regs' = processing_jobs regs /\
    (forall other, other <> job_id ->
                   get_infographic regs' other = get_infographic regs other) /\
    exists data',
      get_infographic regs' job_id = Some data' /\
      jd_templateData data' = layout /\
      jd_templateType data' = template_id /\
      jd_analysis data' = jd_analysis data /\
      jd_videoMetadata data' = jd_videoMetadata data /\
      jd_transcriptText data' = jd_transcriptText data /\
      jd_createdAt data' = jd_createdAt data /\
      jd_id data' = jd_id data.
Proof.
  intros Hdata layout. subst layout.
  unfold get_infographic in *. unfold generate_with_template.
  cbn [mbind option_bind]. rewrite Hdata. cbn [mbind option_bind].
  eexists. split; [reflexivity|].
  cbn [processing_jobs generated_infographics].
  split; [done|]. split.
  - intros other Hne. by rewrite lookup_insert_ne.
  - rewrite lookup_insert_eq. eexists. split; [done|]. by repeat split.
Qed.

(** X27: [generate_with_template] with a template id the store does not
    have (or an unreachable store) still answers, with an empty
    layout, and overwrites the stored layout with it while recording
    the unknown id as the template type. *)
Theorem unknown_template_erases_the_layout
    (db : option Database) (collection : option Collection)
    (regs : Registries) (job_id tid : string) (data : JobData) :
  get_infographic regs job_id = Some data ->
  (forall d, db = Some d -> ~ present tid d) ->
  exists regs' data',
    generate_with_template db collection regs (Some job_id) (Some tid)
    = Some (None, regs') /\
    get_infographic regs' job_id = Some data' /\
    jd_templateData data' = None /\
    jd_templateType data' = Some tid.
Proof.
  unfold get_infographic, generate_with_template, present. intros Hdata Hunknown.
  cbn [mbind option_bind]. rewrite Hdata. cbn [mbind option_bind].
  assert (generate_infographic_data db collection (jd_analysis data) tid = None) as ->.
  { unfold generate_infographic_data, get_template_coordinates.
    destruct db as [d|]; [|done].
    destruct (List.find _ (templates d)) as [t|] eqn:Hfind; [|done].
    exfalso. apply (Hunknown d eq_refl). by rewrite Hfind. }
  do 2 eexists. split; [reflexivity|].
  cbn [generated_infographics]. rewrite lookup_insert_eq. by repeat split.
Qed.

Lemma failed_job_reports_error_and_stores_nothing_witness :
  generated_infographics
    (process_youtube_video (fun _ => None) None plain_fetch None None "2024-01-02"
                           one_job "job-2" "https://example.com/video")
  = generated_infographics one_job.
Proof.
  apply (failed_job_reports_error_and_stores_nothing
           (fun _ => None) None plain_fetch None None "2024-01-02"
           one_job "job-2" "https://example.com/video").
  by vm_compute.
Defined.

Lemma finished_job_is_stored_witness :
  exists data,
    get_infographic
      (process_youtube_video (fun _ => None) None plain_fetch None None "2024-01-02"
                             one_job "job-2" "https://youtu.be/dQw4w9WgXcQ")
      "job-2" = Some data /\
    jd_templateType data = Some "modern-business" /\
    String.length (jd_transcriptText data) <= 503.
Proof.
  destruct (finished_job_is_stored
              (fun _ => None) None plain_fetch None None "2024-01-02"
              one_job "job-2" "https://youtu.be/dQw4w9WgXcQ" "dQw4w9WgXcQ"
              Spec.plain_transcript)
    as (_ & data & Hget & _ & _ & _ & _ & Htype & _ & Hlen & _).
  - reflexivity.
  - reflexivity.
  - by vm_compute.
  - by vm_compute.
  - exists data. by repeat split.
Defined.

Lemma other_jobs_are_untouched_witness :
  get_infographic
    (process_youtube_video (fun _ => None) None plain_fetch None None "2024-01-02"
                           one_job "job-2" "https://youtu.be/dQw4w9WgXcQ")
    "job-1"
  = get_infographic one_job "job-1".
Proof.
  apply (other_jobs_are_untouched
           (fun _ => None) None plain_fetch None None "2024-01-02"
           one_job "job-2" "https://youtu.be/dQw4w9WgXcQ" "job-1").
  by vm_compute.
Defined.

Lemma retemplating_replaces_only_the_layout_witness :
  exists regs',
    generate_with_template (fresh_store "2024-01-01") None one_job
                           (Some "job-1") (Some "educational-flow")
    = Some (generate_infographic_data (fresh_store "2024-01-01") None
              Spec.five_points "educational-flow", regs') /\
    processing_jobs regs' = processing_jobs one_job.
Proof.
  destruct (retemplating_replaces_only_the_layout
              (fresh_store "2024-01-01") None one_job "job-1" (Some "educational-flow")
              (default (Build_JobData EmptyString (get_video_metadata EmptyString)
                          Spec.five_points None None EmptyString EmptyString)
                       (get_infographic one_job "job-1")))
    as (regs' & Hgen & Hjobs & _).
  - by vm_compute.
  - exists regs'. split; [exact Hgen|exact Hjobs].
Defined.

Lemma unknown_template_erases_the_layout_witness :
  exists regs' data',
    generate_with_template (fresh_store "2024-01-01") None one_job
                           (Some "job-1") (Some "retro-poster")
    = Some (None, regs') /\
    get_infographic regs' "job-1" = Some data' /\
    jd_templateData data' = None /\
    jd_templateType data' = Some "retro-poster".
Proof.
  apply (unknown_template_erases_the_layout
           (fresh_store "2024-01-01") None one_job "job-1" "retro-poster"
           (default (Build_JobData EmptyString (get_video_metadata EmptyString)
                       Spec.five_points None None EmptyString EmptyString)
                    (get_infographic one_job "job-1"))).
  - by vm_compute.
  - intros d [= <-]. vm_compute. by intros [? ?].
Defined.

End JobRegistry.
